(** * MultiQC Picard module: MarkDuplicates log extraction and derived counts

    A shallow embedding of [multiqc/picard/__init__.py] (class
    [MultiqcModule]): the line scanner [parse_picard_dupMetrics], the
    general-statistics column [picard_stats_table], the derived counts of
    [mark_duplicates_plot] and the constructor [__init__] that chains them.

    Python values are modelled as the code has them: a metric is a [float]
    (IEEE binary64, Rocq's primitive floats) or a [str]; a [dict] is a
    [gmap]; exceptions are a result type threaded through a small state and
    error monad over the objects the module mutates. *)

From Stdlib Require Import ZArith String Ascii List.
From Stdlib Require Import PrimFloat SpecFloat FloatOps.
From stdpp Require Import gmap strings list fin_maps.

Local Open Scope Z_scope.

(** ** Python built-ins on [str] *)

Module PyStr.

(** [s.startswith(p)] *)
Fixpoint startswith (p s : string) : bool :=
  match p, s with
  | EmptyString, _ => true
  | String _ _, EmptyString => false
  | String a p', String b s' => if Ascii.eqb a b then startswith p' s' else false
  end.

(** [p in s] on strings: [p] occurs as a contiguous substring of [s]. *)
Fixpoint contains (p s : string) : bool :=
  startswith p s ||
  match s with
  | EmptyString => false
  | String _ s' => contains p s'
  end.

Definition tab : ascii := Ascii.ascii_of_nat 9.

(** [s.split("\t")]: always at least one token; empty tokens are kept. *)
Fixpoint split_tab (s : string) : list string :=
  match s with
  | EmptyString => [EmptyString]
  | String c s' =>
      if Ascii.eqb c tab then EmptyString :: split_tab s'
      else match split_tab s' with
           | t :: ts => String c t :: ts
           | [] => [String c EmptyString]
           end
  end.

(** [os.path.basename(p)] (posixpath): what follows the last ["/"]. *)
Fixpoint basename (p : string) : string :=
  match p with
  | EmptyString => EmptyString
  | String _ p' => if contains "/" p then basename p' else p
  end.

(** The longest prefix of characters other than ["]"], and what is left. *)
Fixpoint span_not_rbracket (s : string) : string * string :=
  match s with
  | EmptyString => (EmptyString, EmptyString)
  | String c s' =>
      if Ascii.eqb c "]" then (EmptyString, s)
      else let (g, r) := span_not_rbracket s' in (String c g, r)
  end.

Fixpoint drop_chars (n : nat) (s : string) : string :=
  match n, s with
  | O, _ => s
  | S _, EmptyString => EmptyString
  | S n', String _ s' => drop_chars n' s'
  end.

(** The pattern [INPUT=\[([^\]]+)\]] anchored at the head of [s]; the
    class excludes the closing bracket, so the group is the whole run up to
    the first ["]"], which has to be there and has to follow a non-empty run. *)
Definition match_input_here (s : string) : option string :=
  if startswith "INPUT=[" s then
    match span_not_rbracket (drop_chars 7 s) with
    | (String c g, String _ _) => Some (String c g)
    | _ => None
    end
  else None.

(** [re.search("INPUT=\[([^\]]+)\]", l)], as [group(1)] of the leftmost match. *)
Fixpoint re_search_input (l : string) : option string :=
  match match_input_here l with
  | Some g => Some g
  | None =>
      match l with
      | EmptyString => None
      | String _ l' => re_search_input l'
      end
  end.

Definition is_space (c : ascii) : bool :=
  let n := N_of_ascii c in
  (N.eqb n 32 || (N.leb 9 n && N.leb n 13))%N.

Fixpoint lstrip (s : string) : string :=
  match s with
  | String c s' => if is_space c then lstrip s' else s
  | EmptyString => EmptyString
  end.

Fixpoint rstrip (s : string) : string :=
  match s with
  | EmptyString => EmptyString
  | String c s' =>
      match rstrip s' with
      | EmptyString => if is_space c then EmptyString else String c EmptyString
      | r => String c r
      end
  end.

Definition strip (s : string) : string := rstrip (lstrip s).

Definition is_digit (c : ascii) : bool :=
  let n := N_of_ascii c in (N.leb 48 n && N.leb n 57)%N.

Definition is_upper (c : ascii) : bool :=
  let n := N_of_ascii c in (N.leb 65 n && N.leb n 90)%N.

Definition is_lower (c : ascii) : bool :=
  let n := N_of_ascii c in (N.leb 97 n && N.leb n 122)%N.

Definition to_lower (c : ascii) : ascii :=
  if is_upper c then ascii_of_N (N_of_ascii c + 32) else c.

Definition to_upper (c : ascii) : ascii :=
  if is_lower c then ascii_of_N (N_of_ascii c - 32) else c.

Fixpoint lower (s : string) : string :=
  match s with
  | EmptyString => EmptyString
  | String c s' => String (to_lower c) (lower s')
  end.

(** [s.replace("_", " ")] *)
Fixpoint replace_underscore (s : string) : string :=
  match s with
  | EmptyString => EmptyString
  | String c s' => String (if Ascii.eqb c "_" then " "%char else c) (replace_underscore s')
  end.

(** [s.title()]: a cased character is upper-cased when it follows an
    uncased one and lower-cased otherwise. *)
Fixpoint title_from (prev_cased : bool) (s : string) : string :=
  match s with
  | EmptyString => EmptyString
  | String c s' =>
      let cased := is_upper c || is_lower c in
      String (if cased then if prev_cased then to_lower c else to_upper c else c)
             (title_from cased s')
  end.

Definition title (s : string) : string := title_from false s.

(** Decimal digits of a non-negative integer, as [str(n)] prints them. *)
Fixpoint digits_fuel (fuel : nat) (n : Z) (acc : string) : string :=
  match fuel with
  | O => acc
  | S fuel' =>
      let acc' := String (ascii_of_N (Z.to_N (48 + n mod 10))) acc in
      if n / 10 =? 0 then acc' else digits_fuel fuel' (n / 10) acc'
  end.

Definition str_of_Z (n : Z) : string :=
  digits_fuel (S (Z.to_nat (Z.log2 n))) n EmptyString.

End PyStr.

(** ** Python [float]: parsing and fixed-point formatting

    A Python [float] is an IEEE binary64, which is what Rocq's primitive
    [float] is.  [float(s)] rounds the decimal text to the nearest binary64,
    ties to even; ["{:.1f}".format(x)] rounds the exact binary value to one
    decimal, ties to even. *)

Module PyFloat.

Import PyStr.

(** Nearest integer to [n / d], ties to even ([0 <= n], [0 < d]). *)
Definition round_half_even (n d : Z) : Z :=
  let q := n / d in
  match (2 * (n mod d)) ?= d with
  | Lt => q
  | Gt => q + 1
  | Eq => if Z.even q then q else q + 1
  end.

(** The binary64 nearest to the positive rational [n / d]. The exponent
    [e] of the last kept bit is chosen so that the quotient has 53 bits, and
    is held at [-1074] in the subnormal range; a quotient too large for the
    format becomes infinity in [SF2Prim]. *)
Definition float_of_ratio (n d : Z) : float :=
  let k := Z.log2 n - Z.log2 d in
  let lg := if n * 2 ^ Z.max (- k) 0 <? d * 2 ^ Z.max k 0 then k - 1 else k in
  let e := Z.max (lg - 52) (-1074) in
  let q := round_half_even (n * 2 ^ Z.max (- e) 0) (d * 2 ^ Z.max e 0) in
  match q with
  | Zpos m => SF2Prim (S754_finite false m e)
  | _ => zero
  end.

(** The value [m * 10 ^ e] of a decimal literal, as a binary64. *)
Definition float_of_decimal (m e : Z) : float :=
  if m =? 0 then zero
  else float_of_ratio (m * 10 ^ Z.max e 0) (10 ^ Z.max (- e) 0).

(** A run of decimal digits at the head of [s]: its value so far, how many
    digits were read, and the rest. *)
Fixpoint read_digits (acc : Z) (cnt : nat) (s : string) : Z * nat * string :=
  match s with
  | String c s' =>
      if is_digit c
      then read_digits (10 * acc + (Z.of_N (N_of_ascii c) - 48)) (S cnt) s'
      else (acc, cnt, s)
  | EmptyString => (acc, cnt, s)
  end.

Definition read_sign (s : string) : bool * string :=
  match s with
  | String "-" s' => (true, s')
  | String "+" s' => (false, s')
  | _ => (false, s)
  end.

(** The optional exponent part; [None] when an [e] is not followed by
    digits, or when something is left after them. *)
Definition read_exponent (s : string) : option Z :=
  match s with
  | EmptyString => Some 0
  | String c s' =>
      if Ascii.eqb (to_lower c) "e" then
        let (neg, s1) := read_sign s' in
        match read_digits 0 0 s1 with
        | (_, O, _) => None
        | (x, S _, EmptyString) => Some (if neg then - x else x)
        | (_, S _, String _ _) => None
        end
      else None
  end.

(** The grammar of a finite literal, after the sign:
    [digits [. digits*] | . digits+], then an optional exponent. *)
Definition read_decimal (s : string) : option float :=
  let '(ip, ni, s1) := read_digits 0 0 s in
  let '(m, nf, s2) :=
    match s1 with
    | String "." s1' =>
        let '(m, n, r) := read_digits ip 0 s1' in (m, n, r)
    | _ => (ip, O, s1)
    end in
  match (ni + nf)%nat with
  | O => None
  | S _ =>
      match read_exponent s2 with
      | Some x => Some (float_of_decimal m (x - Z.of_nat nf))
      | None => None
      end
  end.

Definition read_unsigned (s : string) : option float :=
  let w := lower s in
  if String.eqb w "inf" || String.eqb w "infinity" then Some infinity
  else if String.eqb w "nan" then Some nan
  else read_decimal s.

(** [float(s)] for a [str]: [None] stands for the [ValueError] it raises. *)
Definition parse (s : string) : option float :=
  let (neg, s') := read_sign (strip s) in
  match read_unsigned s' with
  | Some x => Some (if neg then - x else x)%float
  | None => None
  end.

(** ["{:.1f}".format(x)] *)
Definition format_1f (x : float) : string :=
  let sgn (s : bool) : string := if s then "-"%string else EmptyString in
  match Prim2SF x with
  | S754_nan => "nan"
  | S754_infinity s => sgn s ++ "inf"
  | S754_zero s => sgn s ++ "0.0"
  | S754_finite s m e =>
      let t := round_half_even (Zpos m * 10 * 2 ^ Z.max e 0) (2 ^ Z.max (- e) 0) in
      sgn s ++ str_of_Z (t / 10) ++ "." ++ str_of_Z (t mod 10)
  end%string.

End PyFloat.

(** ** Values, objects and the exception monad *)

(** A metric value: [float(tok)] when the token parses, the token otherwise. *)
Inductive value : Type :=
  | VFloat (x : float)
  | VStr (s : string).

(** One sample's metrics: field name to value (a Python [dict]). *)
Abbreviation SampleMetrics := (gmap string value).

(** [self.picard_dupMetrics_data]: sample name to its metrics. *)
Abbreviation MetricsBySample := (gmap string (gmap string value)).

(** The exceptions this module can meet. *)
Inductive exn : Type :=
  | ValueError
  | IndexError
  | KeyError
  | TypeError
  | StopIteration
  | UserWarning.

#[global] Instance exn_eq_dec : EqDecision exn.
Proof. solve_decision. Defined.

Inductive result (A : Type) : Type :=
  | Return (a : A)
  | Raise (e : exn).
Arguments Return {A} a.
Arguments Raise {A} e.

Inductive level : Type := DEBUG | INFO.

(** An entry of [self.sections]. *)
Record section : Type := mk_section {
  sec_name : string;
  sec_anchor : string;
  sec_content : string
}.

(** A log file as [find_log_files(..., filehandles=True)] yields it:
    [f['root']] and the lines that iterating [f['f']] gives. *)
Record logfile : Type := mk_logfile {
  f_root : string;
  f_lines : list string
}.

(** Everything the module reads and mutates: its own attributes, the
    process-wide [config.general_stats], the logger and the files written. *)
Record world : Type := mk_world {
  picard_dupMetrics_data : gmap string (gmap string value);
  sections : list section;
  general_stats_headers : gmap string string;
  general_stats_rows : gmap string (gmap string string);
  log_records : list (level * string);
  csv_files : list (string * gmap string (gmap string value))
}.

Definition set_data (d : gmap string (gmap string value)) (w : world) : world :=
  mk_world d (sections w) (general_stats_headers w) (general_stats_rows w)
           (log_records w) (csv_files w).

Definition set_sections (s : list section) (w : world) : world :=
  mk_world (picard_dupMetrics_data w) s (general_stats_headers w)
           (general_stats_rows w) (log_records w) (csv_files w).

Definition set_headers (h : gmap string string) (w : world) : world :=
  mk_world (picard_dupMetrics_data w) (sections w) h (general_stats_rows w)
           (log_records w) (csv_files w).

Definition set_rows (r : gmap string (gmap string string)) (w : world) : world :=
  mk_world (picard_dupMetrics_data w) (sections w) (general_stats_headers w) r
           (log_records w) (csv_files w).

Definition add_log (l : level) (msg : string) (w : world) : world :=
  mk_world (picard_dupMetrics_data w) (sections w) (general_stats_headers w)
           (general_stats_rows w) (log_records w ++ [(l, msg)]) (csv_files w).

Definition add_csv (name : string) (d : gmap string (gmap string value))
    (w : world) : world :=
  mk_world (picard_dupMetrics_data w) (sections w) (general_stats_headers w)
           (general_stats_rows w) (log_records w) (csv_files w ++ [(name, d)]).

(** A computation that may mutate the world and may raise; the world at
    the time of a raise is kept, as every mutation is done in place. *)
Definition M (A : Type) : Type := world -> result A * world.

Definition ret {A} (a : A) : M A := fun w => (Return a, w).

Definition raise {A} (e : exn) : M A := fun w => (Raise e, w).

Definition bind {A B} (m : M A) (k : A -> M B) : M B :=
  fun w =>
    match m w with
    | (Return a, w') => k a w'
    | (Raise e, w') => (Raise e, w')
    end.

Definition lift {A} (r : result A) : M A := fun w => (r, w).

Definition gets {A} (f : world -> A) : M A := fun w => (Return (f w), w).

Definition modify (f : world -> world) : M unit := fun w => (Return tt, f w).

(** [try: body  except e: handler] *)
Definition try_except {A} (body : M A) (e : exn) (handler : M A) : M A :=
  fun w =>
    match body w with
    | (Raise e', w') => if decide (e' = e) then handler w' else (Raise e', w')
    | r => r
    end.

Declare Scope py_scope.
Delimit Scope py_scope with py.
Notation "'let*' x ':=' c 'in' k" := (bind c (fun x => k))
  (at level 10, x name, c at level 100, k at level 200) : py_scope.
Notation "c '>>' k" := (bind c (fun _ => k))
  (at level 100, k at level 200, right associativity) : py_scope.

(** [for x in xs: body x] *)
Fixpoint for_each {A} (xs : list A) (body : A -> M unit) : M unit :=
  match xs with
  | [] => ret tt
  | x :: xs' => bind (body x) (fun _ => for_each xs' body)
  end.

(** [log.debug(msg)], [log.info(msg)] *)
Definition log_debug (msg : string) : M unit := modify (add_log DEBUG msg).
Definition log_info (msg : string) : M unit := modify (add_log INFO msg).

(** [float(tok)], raising [ValueError] on text that is not a number. *)
Definition py_float (tok : string) : result float :=
  match PyFloat.parse tok with
  | Some x => Return x
  | None => Raise ValueError
  end.

(** [vals[i]] *)
Definition list_getitem (vals : list string) (i : nat) : result string :=
  match vals !! i with
  | Some v => Return v
  | None => Raise IndexError
  end.

(** [d[k]] on a [dict] *)
Definition dict_getitem {V} (d : gmap string V) (k : string) : result V :=
  match d !! k with
  | Some v => Return v
  | None => Raise KeyError
  end.

(** [a - b]: defined on two floats; a [str] operand is a [TypeError]. *)
Definition py_sub (a b : value) : result value :=
  match a, b with
  | VFloat x, VFloat y => Return (VFloat (x - y)%float)
  | _, _ => Raise TypeError
  end.

Fixpoint repeat_str (n : nat) (s : string) : string :=
  match n with
  | O => EmptyString
  | S n' => (s ++ repeat_str n' s)%string
  end.

(** [a * 100]: float multiplication, or string repetition. *)
Definition py_mul_100 (a : value) : value :=
  match a with
  | VFloat x => VFloat (x * 100)%float
  | VStr s => VStr (repeat_str 100 s)
  end.

Definition dquote : string := String (Ascii.ascii_of_nat 34) EmptyString.

(** ['<td class="text-right">{:.1f}%</td>'.format(v)]; the format code [f]
    is a [ValueError] on a [str]. *)
Definition format_td (v : value) : result string :=
  match v with
  | VFloat x =>
      Return ("<td class=" ++ dquote ++ "text-right" ++ dquote ++ ">"
              ++ PyFloat.format_1f x ++ "%</td>")%string
  | VStr _ => Raise ValueError
  end.

(** The keys of a [dict] in iteration order. Python leaves the order
    unspecified; the loops below are also stated over an arbitrary order. *)
Definition dict_keys {V} (d : gmap string V) : list string :=
  (map_to_list d).*1.

(** The pairs of [d.items()], in the same order. *)
Definition dict_items {V} (d : gmap string V) : list (string * V) :=
  map_to_list d.

(** ** The module's methods *)

Section MultiqcModule.

Local Open Scope py_scope.

(** Collaborators of the base class and of [config], not part of this
    module: [self.clean_s_name(s_name, root)], [config.analysis_dir] and
    [self.plot_bargraph(data, keys, config)]. *)
Variable clean_s_name : string -> string -> string.
Variable analysis_dir : string.
Variable plot_bargraph :
  gmap string (gmap string value) -> list (string * string) ->
  list (string * string) -> string.

(** [self.picard_dupMetrics_data[s_name] = m] *)
Definition data_setitem (s_name : string) (m : gmap string value) : M unit :=
  modify (fun w => set_data (<[s_name := m]> (picard_dupMetrics_data w)) w).

(** [self.picard_dupMetrics_data[s_name][k]] *)
Definition metric_getitem (s_name k : string) : M value :=
  let* d := gets picard_dupMetrics_data in
  let* m := lift (dict_getitem d s_name) in
  lift (dict_getitem m k).

(** [self.picard_dupMetrics_data[s_name][k] = v]: the inner [dict] is
    looked up, then updated in place. *)
Definition metric_setitem (s_name k : string) (v : value) : M unit :=
  let* d := gets picard_dupMetrics_data in
  let* m := lift (dict_getitem d s_name) in
  data_setitem s_name (<[k := v]> m).

(** Lines 66-75: a line that starts a new log. The pending name is
    cleared, the file name is searched for, and on a match the sample's
    entry is (re)set to an empty [dict]. *)
Definition new_log_starting (root l : string) : M (option string) :=
  match PyStr.re_search_input l with
  | Some path =>
      let s_name := clean_s_name (PyStr.basename path) root in
      let* d := gets picard_dupMetrics_data in
      (match d !! s_name with
       | Some _ => log_debug ("Duplicate sample name found! Overwriting: " ++ s_name)%string
       | None => ret tt
       end) >>
      data_setitem s_name ∅ >>
      ret (Some s_name)
  | None => ret None
  end.

(** Lines 82-85: one turn of the loop over [enumerate(keys)]. *)
Definition store_field (s_name : string) (vals : list string) (i : nat)
    (k : string) : M unit :=
  try_except
    (let* tok := lift (list_getitem vals i) in
     let* x := lift (py_float tok) in
     metric_setitem s_name k (VFloat x))
    ValueError
    (let* tok := lift (list_getitem vals i) in
     metric_setitem s_name k (VStr tok)).

(** Lines 81-85: [for i, k in enumerate(keys)], from index [i] on. *)
Fixpoint store_fields (s_name : string) (vals : list string) (i : nat)
    (keys : list string) : M unit :=
  match keys with
  | [] => ret tt
  | k :: keys' =>
      store_field s_name vals i k >> store_fields s_name vals (S i) keys'
  end.

Definition is_new_log (l : string) : bool :=
  PyStr.contains "picard.sam.MarkDuplicates" l && PyStr.contains "INPUT" l.

Definition is_metrics_class (l : string) : bool :=
  PyStr.contains "picard.sam.DuplicationMetrics" l && PyStr.contains "## METRICS CLASS" l.

(** Lines 63-86: the loop [for l in f['f']] with the local [s_name]. The
    two calls of [f['f'].next()] take the next two lines off the same
    iterator, and raise [StopIteration] when it is exhausted. *)
Fixpoint parse_lines (root : string) (s_name : option string)
    (lines : list string) : M unit :=
  match lines with
  | [] => ret tt
  | l :: rest =>
      let* s_name :=
        (if is_new_log l then new_log_starting root l else ret s_name) in
      match s_name with
      | Some s =>
          if is_metrics_class l then
            match rest with
            | keys :: vals :: rest' =>
                store_fields s (PyStr.split_tab vals) 0 (PyStr.split_tab keys) >>
                parse_lines root None rest'
            | _ => raise StopIteration
            end
          else parse_lines root (Some s) rest
      | None => parse_lines root None rest
      end
  end.

(** [parse_picard_dupMetrics(self, f)] *)
Definition parse_picard_dupMetrics (f : logfile) : M unit :=
  parse_lines (f_root f) None (f_lines f).

Definition percent_duplication_header : string :=
  ("<th class=" ++ dquote ++ "chroma-col" ++ dquote
   ++ " data-chroma-scale=" ++ dquote ++ "OrRd" ++ dquote
   ++ " data-chroma-max=" ++ dquote ++ "100" ++ dquote
   ++ " data-chroma-min=" ++ dquote ++ "0" ++ dquote
   ++ "><span data-toggle=" ++ dquote ++ "tooltip" ++ dquote
   ++ " title=" ++ dquote ++ "Picard MarkDuplicates: Percent&nbsp;Duplication"
   ++ dquote ++ ">% Dups</span></th>")%string.

(** Modelled from the spec: [config.general_stats], which is not part of
    this module, is the process-wide table keyed by sample identifier into
    which the module contributes one named column; a sample that has no row
    yet gets one.
    [config.general_stats['rows'][sn]['picard_percent_duplication'] = cell] *)
Definition rows_setitem (sn cell : string) : M unit :=
  modify (fun w =>
    set_rows (<[sn := <["picard_percent_duplication" := cell]>
                         (default ∅ (general_stats_rows w !! sn))]>
              (general_stats_rows w)) w).

(** Line 95: one turn of the loop over [(sn, data)]. *)
Definition stats_row (item : string * gmap string value) : M unit :=
  let* v := lift (dict_getitem item.2 "PERCENT_DUPLICATION") in
  let* cell := lift (format_td (py_mul_100 v)) in
  rows_setitem item.1 cell.

(** [picard_stats_table(self)] *)
Definition picard_stats_table : M unit :=
  modify (fun w =>
    set_headers (<["picard_percent_duplication" := percent_duplication_header]>
                 (general_stats_headers w)) w) >>
  let* d := gets picard_dupMetrics_data in
  for_each (dict_items d) stats_row.

(** [self.picard_dupMetrics_data[sn][target] =
     self.picard_dupMetrics_data[sn][a] - self.picard_dupMetrics_data[sn][b]] *)
Definition derive_field (sn target a b : string) : M unit :=
  let* x := metric_getitem sn a in
  let* y := metric_getitem sn b in
  let* v := lift (py_sub x y) in
  metric_setitem sn target v.

(** Lines 104-106: the body of the loop over the samples. *)
Definition derive_sample (sn : string) : M unit :=
  derive_field sn "UNPAIRED_READ_UNIQUE"
               "UNPAIRED_READS_EXAMINED" "UNPAIRED_READ_DUPLICATES" >>
  derive_field sn "READ_PAIR_NOT_OPTICAL_DUPLICATES"
               "READ_PAIR_DUPLICATES" "READ_PAIR_OPTICAL_DUPLICATES" >>
  derive_field sn "READ_PAIR_UNIQUE"
               "READ_PAIRS_EXAMINED" "READ_PAIR_DUPLICATES".

Definition keys_r : list string :=
  ["READ_PAIR_UNIQUE"; "UNPAIRED_READ_UNIQUE"; "READ_PAIR_NOT_OPTICAL_DUPLICATES";
   "READ_PAIR_OPTICAL_DUPLICATES"; "UNPAIRED_READ_DUPLICATES"; "UNMAPPED_READS"]%string.

(** The [OrderedDict] [keys]: each field with its [name] label. *)
Definition plot_keys : list (string * string) :=
  map (fun k => (k, PyStr.title (PyStr.replace_underscore k))) keys_r.

Definition plot_config : list (string * string) :=
  [("title", "Picard Deduplication Stats");
   ("ylab", "# Reads");
   ("cpswitch_counts_label", "Number of Reads")]%string.

(** [mark_duplicates_plot(self)] *)
Definition mark_duplicates_plot : M string :=
  let* d := gets picard_dupMetrics_data in
  for_each (dict_keys d) derive_sample >>
  let* d' := gets picard_dupMetrics_data in
  ret (plot_bargraph d' plot_keys plot_config).

(** Lines 33-35: [self.picard_dupMetrics_data = dict()], then every log
    file found is parsed into it. *)
Definition find_and_load (found : list logfile) : M unit :=
  modify (set_data ∅) >>
  for_each found parse_picard_dupMetrics.

(** [MultiqcModule.__init__(self)], given the log files that
    [find_log_files(contents_match='picard.sam.MarkDuplicates')] yields. *)
Definition init (found : list logfile) : M unit :=
  find_and_load found >>
  let* d := gets picard_dupMetrics_data in
  (if (size d =? 0)%nat
   then log_debug ("Could not find any reports in " ++ analysis_dir)%string >>
        raise UserWarning
   else ret tt) >>
  log_info ("Found " ++ PyStr.str_of_Z (Z.of_nat (size d)) ++ " reports")%string >>
  modify (add_csv "multiqc_picard.txt" d) >>
  modify (set_sections []) >>
  picard_stats_table >>
  let* content := mark_duplicates_plot in
  modify (fun w => set_sections
    (sections w ++ [mk_section "Mark Duplicates" "picard-markduplicates" content]) w).

End MultiqcModule.

(** ** Records, and what the specification says about them *)

(** A record as the specification describes it: the line that starts a
    log, the metrics-class line, the header row and the value row. *)
Record record : Type := mk_record {
  marker_line : string;
  class_line : string;
  header_row : string;
  value_row : string
}.

Definition record_lines (r : record) : list string :=
  [marker_line r; class_line r; header_row r; value_row r].

Definition header_tokens (r : record) : list string :=
  PyStr.split_tab (header_row r).

Definition value_tokens (r : record) : list string :=
  PyStr.split_tab (value_row r).

(** The four lines play their own part and no other: the first starts a
    log, carries a file name that the pattern finds and is not itself a
    metrics-class line; the second is a metrics-class line and does not
    start a log. *)
Definition well_framed (r : record) : bool :=
  is_new_log (marker_line r)
  && bool_decide (is_Some (PyStr.re_search_input (marker_line r)))
  && negb (is_metrics_class (marker_line r))
  && is_metrics_class (class_line r)
  && negb (is_new_log (class_line r)).

(** A framed record whose value row has a token for every header token. *)
Definition well_formed (r : record) : bool :=
  well_framed r && (length (header_tokens r) <=? length (value_tokens r))%nat.

(** The file name in the marker line, empty when there is none. *)
Definition record_path (r : record) : string :=
  default EmptyString (PyStr.re_search_input (marker_line r)).

Module Spec.

(** Numeric coercion in the specification's words: a token is numeric if
    it parses as a floating-point value; otherwise the token is kept. *)
Definition coerce (tok : string) : value :=
  match PyFloat.parse tok with
  | Some x => VFloat x
  | None => VStr tok
  end.

(** The positional zip of header tokens to coerced value tokens, as a
    field map: the pair at each index, a later index winning on a repeated
    header token. *)
Definition positional_zip (keys vals : list string) : gmap string value :=
  list_to_map (reverse (zip keys (coerce <$> vals))).

Definition record_metrics (r : record) : gmap string value :=
  positional_zip (header_tokens r) (value_tokens r).

(** The three derived fields, by plain subtraction. *)
Definition with_derived (m : gmap string value) (ue ud pd po pe : float)
    : gmap string value :=
  <["READ_PAIR_UNIQUE" := VFloat (pe - pd)%float]>
    (<["READ_PAIR_NOT_OPTICAL_DUPLICATES" := VFloat (pd - po)%float]>
       (<["UNPAIRED_READ_UNIQUE" := VFloat (ue - ud)%float]> m)).

(** A sample's metrics hold numbers for the five source fields. *)
Definition has_sources (m : gmap string value) (ue ud pd po pe : float) : Prop :=
  m !! "UNPAIRED_READS_EXAMINED" = Some (VFloat ue) ∧
  m !! "UNPAIRED_READ_DUPLICATES" = Some (VFloat ud) ∧
  m !! "READ_PAIR_DUPLICATES" = Some (VFloat pd) ∧
  m !! "READ_PAIR_OPTICAL_DUPLICATES" = Some (VFloat po) ∧
  m !! "READ_PAIRS_EXAMINED" = Some (VFloat pe).

Definition source_fields : list string :=
  ["UNPAIRED_READS_EXAMINED"; "UNPAIRED_READ_DUPLICATES"; "READ_PAIR_DUPLICATES";
   "READ_PAIR_OPTICAL_DUPLICATES"; "READ_PAIRS_EXAMINED"]%string.

Definition derived_fields : list string :=
  ["UNPAIRED_READ_UNIQUE"; "READ_PAIR_NOT_OPTICAL_DUPLICATES"; "READ_PAIR_UNIQUE"]%string.

(** The statement [m[a] - m[b]] cannot be evaluated, and [e] is what it
    raises: a missing operand is a [KeyError], looked up left to right
    before the subtraction; two operands that are there and not both floats
    are a [TypeError]. *)
Definition subtraction_fails (m : gmap string value) (a b : string) (e : exn) : Prop :=
  (e = KeyError ∧ (m !! a = None ∨ m !! b = None)) ∨
  (e = TypeError ∧ exists x y, m !! a = Some x ∧ m !! b = Some y ∧
                               py_sub x y = Raise TypeError).

(** The summary cell of View A for a duplication fraction [p]. *)
Definition percent_cell (p : float) : string :=
  ("<td class=" ++ dquote ++ "text-right" ++ dquote ++ ">"
   ++ PyFloat.format_1f (p * 100)%float ++ "%</td>")%string.

End Spec.

Section Records.

Variable clean_s_name : string -> string -> string.

(** The sample identifier of a record found under [root]. *)
Definition sample_id (root : string) (r : record) : string :=
  clean_s_name (PyStr.basename (record_path r)) root.

(** [s] is the sample that line [l] of a log under [root] names. *)
Definition names_sample (root l s : string) : Prop :=
  is_new_log l = true ∧
  exists path, PyStr.re_search_input l = Some path ∧
               s = clean_s_name (PyStr.basename path) root.

(** Last write wins: the map after a run of records, each replacing what
    was stored under its identifier. *)
Definition data_after (root : string) (d : gmap string (gmap string value))
    (rs : list record) : gmap string (gmap string value) :=
  foldl (fun d r => <[sample_id root r := Spec.record_metrics r]> d) d rs.

(** The world after one well-formed record: a diagnostic when the
    identifier was there already, then the replacement. *)
Definition after_record (root : string) (w : world) (r : record) : world :=
  let s := sample_id root r in
  let w1 := match picard_dupMetrics_data w !! s with
            | Some _ => add_log DEBUG ("Duplicate sample name found! Overwriting: " ++ s)%string w
            | None => w
            end in
  set_data (<[s := Spec.record_metrics r]> (picard_dupMetrics_data w1)) w1.

End Records.

(** ** Sample inputs *)

Module Example.

Definition nl : string := String (Ascii.ascii_of_nat 10) EmptyString.
Definition tb : string := String PyStr.tab EmptyString.

(** A sanitizer that keeps the base name as it is. *)
Definition sanitize (s_name root : string) : string := s_name.

Definition no_plot (d : gmap string (gmap string value))
    (keys config : list (string * string)) : string := "chart".

Definition w0 : world := mk_world ∅ [] ∅ ∅ [] [].

Definition marker (path : string) : string :=
  ("# picard.sam.MarkDuplicates INPUT=[" ++ path ++ "] OUTPUT=dedup.bam" ++ nl)%string.

Definition metrics_class : string :=
  ("## METRICS CLASS" ++ tb ++ "picard.sam.DuplicationMetrics" ++ nl)%string.

Definition header : string :=
  ("LIBRARY" ++ tb ++ "UNPAIRED_READS_EXAMINED" ++ tb ++ "READ_PAIRS_EXAMINED"
   ++ tb ++ "UNMAPPED_READS" ++ tb ++ "UNPAIRED_READ_DUPLICATES"
   ++ tb ++ "READ_PAIR_DUPLICATES" ++ tb ++ "READ_PAIR_OPTICAL_DUPLICATES"
   ++ tb ++ "PERCENT_DUPLICATION" ++ tb ++ "ESTIMATED_LIBRARY_SIZE" ++ nl)%string.

(** A complete record for sample [A]. *)
Definition record_A : record :=
  mk_record (marker "/data/A") metrics_class header
    ("lib1" ++ tb ++ "100" ++ tb ++ "200" ++ tb ++ "3" ++ tb ++ "10" ++ tb ++ "40"
     ++ tb ++ "5" ++ tb ++ "0.25" ++ tb ++ "1000" ++ nl)%string.

(** A second record for the same sample, with two fields only. *)
Definition record_A_again : record :=
  mk_record (marker "/other/A") metrics_class
    ("LIBRARY" ++ tb ++ "PERCENT_DUPLICATION")%string
    ("lib2" ++ tb ++ "0.5")%string.

(** A record whose value row is one token short. *)
Definition record_short : record :=
  mk_record (marker "/data/S") metrics_class
    ("LIBRARY" ++ tb ++ "PERCENT_DUPLICATION" ++ nl)%string
    ("lib1" ++ nl)%string.

(** A record whose marker line carries the metrics-class tokens too. *)
Definition record_marker_is_class : record :=
  mk_record
    ("# picard.sam.MarkDuplicates INPUT=[/data/S] ## METRICS CLASS "
     ++ "picard.sam.DuplicationMetrics" ++ nl)%string
    metrics_class
    ("LIBRARY" ++ tb ++ "PERCENT_DUPLICATION" ++ nl)%string
    ("lib1" ++ tb ++ "0.25" ++ nl)%string.

(** A record whose metrics-class line has the tokens of a marker line,
    without a bracketed file name. *)
Definition record_class_is_marker : record :=
  mk_record (marker "/data/S")
    ("## METRICS CLASS" ++ tb ++ "picard.sam.DuplicationMetrics"
     ++ " picard.sam.MarkDuplicates INPUT" ++ nl)%string
    ("LIBRARY" ++ tb ++ "PERCENT_DUPLICATION" ++ nl)%string
    ("lib1" ++ tb ++ "0.25" ++ nl)%string.

Definition doc_A : logfile := mk_logfile "/data" (record_lines record_A).

(** A log whose marker line has [INPUT] but no bracketed file name. *)
Definition doc_unmatched : logfile :=
  mk_logfile "/data"
    [("# picard.sam.MarkDuplicates INPUT=B.bam" ++ nl)%string; metrics_class;
     header; ("lib1" ++ tb ++ "1" ++ nl)%string].

(** A log with a marker line and nothing after it. *)
Definition doc_marker_only : logfile :=
  mk_logfile "/data" [marker "/data/M"].

(** The five source fields of the specification's arithmetic example. *)
Definition metrics_arith : gmap string value :=
  <["UNPAIRED_READS_EXAMINED" := VFloat 100]>
    (<["UNPAIRED_READ_DUPLICATES" := VFloat 10]>
       (<["READ_PAIR_DUPLICATES" := VFloat 40]>
          (<["READ_PAIR_OPTICAL_DUPLICATES" := VFloat 5]>
             (<["READ_PAIRS_EXAMINED" := VFloat 200]> ∅)))).

(** Source fields whose differences are negative. *)
Definition metrics_negative : gmap string value :=
  <["UNPAIRED_READS_EXAMINED" := VFloat 10]>
    (<["UNPAIRED_READ_DUPLICATES" := VFloat 100]>
       (<["READ_PAIR_DUPLICATES" := VFloat 5]>
          (<["READ_PAIR_OPTICAL_DUPLICATES" := VFloat 40]>
             (<["READ_PAIRS_EXAMINED" := VFloat 1]> ∅)))).

(** The unpaired counts are there, the pair counts are not. *)
Definition metrics_unpaired_only : gmap string value :=
  <["UNPAIRED_READS_EXAMINED" := VFloat 3]>
    (<["UNPAIRED_READ_DUPLICATES" := VFloat 1]> ∅).

(** A text where a count should be, and no pair counts. *)
Definition metrics_text_count : gmap string value :=
  <["UNPAIRED_READS_EXAMINED" := VStr "n/a"]>
    (<["UNPAIRED_READ_DUPLICATES" := VFloat 1]> ∅).

Definition metrics_quarter : gmap string value :=
  <["PERCENT_DUPLICATION" := VFloat 0.25]> ∅.

Definition world_of (d : gmap string (gmap string value)) : world :=
  set_data d w0.

(** A complete sample [A], a sample [B] with the unpaired counts only,
    and a complete sample [C]. *)
Definition three_samples : gmap string (gmap string value) :=
  <["A" := metrics_arith]>
    (<["B" := metrics_unpaired_only]> {["C" := metrics_arith]}).

End Example.

(** Storing one header/value pair, the step of the loop over the header
    tokens seen as a fold. *)
Definition store_pair (m : gmap string value) (kv : string * value)
    : gmap string value :=
  <[kv.1 := kv.2]> m.

(** ** Definitions for the further properties *)

(** ["\t".join(tokens)] *)
Fixpoint join_tab (tokens : list string) : string :=
  match tokens with
  | [] => EmptyString
  | t :: ts =>
      match ts with
      | [] => t
      | _ :: _ => (t ++ String PyStr.tab (join_tab ts))%string
      end
  end.

(** A string of whitespace only, as [str.isspace] sees it (or empty). *)
Fixpoint all_space (s : string) : bool :=
  match s with
  | EmptyString => true
  | String c s' => PyStr.is_space c && all_space s'
  end.

(** A line that neither starts a log nor is a metrics-class line. *)
Definition is_filler (l : string) : bool :=
  negb (is_new_log l) && negb (is_metrics_class l).

(** A sample's metrics with the three derived fields, when the five
    source fields hold numbers; the metrics as they are otherwise. *)
Definition derived_metrics (m : gmap string value) : gmap string value :=
  match m !! "UNPAIRED_READS_EXAMINED", m !! "UNPAIRED_READ_DUPLICATES",
        m !! "READ_PAIR_DUPLICATES", m !! "READ_PAIR_OPTICAL_DUPLICATES",
        m !! "READ_PAIRS_EXAMINED" with
  | Some (VFloat ue), Some (VFloat ud), Some (VFloat pd), Some (VFloat po),
    Some (VFloat pe) => Spec.with_derived m ue ud pd po pe
  | _, _, _, _, _ => m
  end.

(** The five source fields of [m] hold numbers. *)
Definition numeric_sources (m : gmap string value) : Prop :=
  exists ue ud pd po pe, Spec.has_sources m ue ud pd po pe.

(** [PERCENT_DUPLICATION] of [m] holds a number. *)
Definition numeric_percent (m : gmap string value) : Prop :=
  exists p, m !! "PERCENT_DUPLICATION" = Some (VFloat p).

(** The row of a sample in the general statistics after the module has
    written its column. *)
Definition with_percent_cell (rows : gmap string (gmap string string))
    (sn : string) (m : gmap string value) : option (gmap string string) :=
  match m !! "PERCENT_DUPLICATION" with
  | Some (VFloat p) =>
      Some (<["picard_percent_duplication" := Spec.percent_cell p]>
              (default ∅ (rows !! sn)))
  | _ => rows !! sn
  end.

(** [w'] differs from [w] in the map of metrics at most, and in debug
    messages added at the end of the log. *)
Definition only_map_and_log (w w' : world) : Prop :=
  sections w' = sections w ∧
  general_stats_headers w' = general_stats_headers w ∧
  general_stats_rows w' = general_stats_rows w ∧
  csv_files w' = csv_files w ∧
  exists new, log_records w' = log_records w ++ new ∧
              Forall (fun entry => entry.1 = DEBUG) new.

(** Further sample inputs. *)
Module Example2.

(** Lines of a log of some other tool. *)
Definition other_lines : list string :=
  ["[Mon] bwa mem -t 8 ref.fa reads.fq" ++ Example.nl;
   "LIBRARY" ++ Example.tb ++ "PERCENT_DUPLICATION" ++ Example.nl;
   "## HISTOGRAM" ++ Example.tb ++ "java.lang.Double" ++ Example.nl]%string.

(** A marker line with [INPUT] and no bracketed file name. *)
Definition marker_unmatched : string :=
  ("# picard.sam.MarkDuplicates INPUT=B.bam OUTPUT=dedup.bam" ++ Example.nl)%string.

(** A metrics block: class line, header row, value row. *)
Definition block : list string :=
  [Example.metrics_class;
   ("LIBRARY" ++ Example.tb ++ "PERCENT_DUPLICATION" ++ Example.nl)%string;
   ("lib9" ++ Example.tb ++ "0.9" ++ Example.nl)%string].

Definition header_only : string :=
  ("LIBRARY" ++ Example.tb ++ "PERCENT_DUPLICATION" ++ Example.nl)%string.

(** A world in which sample [A] has been parsed from [Example.record_A]. *)
Definition world_A : world :=
  (parse_picard_dupMetrics Example.sanitize Example.doc_A Example.w0).2.

(** The five source fields and the duplication fraction. *)
Definition metrics_full : gmap string value :=
  <["PERCENT_DUPLICATION" := VFloat 0.25]> Example.metrics_arith.

(** A world whose map holds the complete sample [A] only. *)
Definition world_full : world := Example.world_of {["A" := metrics_full]}.

(** A world whose map holds a sample [A] with the unpaired counts only. *)
Definition world_unpaired : world :=
  Example.world_of {["A" := Example.metrics_unpaired_only]}.

Definition doc_short : logfile :=
  mk_logfile "/data" (record_lines Example.record_short).

Definition doc_again : logfile :=
  mk_logfile "/other" (record_lines Example.record_A_again).

Definition doc_other : logfile := mk_logfile "/data" other_lines.

(** The world after the files [found] have been loaded from [Example.w0]. *)
Definition loaded (found : list logfile) : world :=
  (find_and_load Example.sanitize found Example.w0).2.

End Example2.

(** The world when [picard_stats_table] is called in [__init__], from
    the world [w1] in which the log files have been loaded: the count is
    logged, the file of the parsed metrics is written, the sections are
    reset. *)
Definition before_stats_table (w1 : world) : world :=
  set_sections []
    (add_csv "multiqc_picard.txt" (picard_dupMetrics_data w1)
       (add_log INFO
          ("Found " ++ PyStr.str_of_Z (Z.of_nat (size (picard_dupMetrics_data w1)))
           ++ " reports")%string w1)).

(** A log file under [root] that is a run of records, and nothing else. *)
Definition file_of_records (doc : string * list record) : logfile :=
  mk_logfile doc.1 (concat (record_lines <$> doc.2)).

(** The world when a line that starts a log has named the sample [s]
    (lines 72-75): the diagnostic is logged when [s] has an entry already,
    and the entry of [s] is an empty [dict]. *)
Definition reset_entry (s : string) (w : world) : world :=
  let w1 := match picard_dupMetrics_data w !! s with
            | Some _ => add_log DEBUG ("Duplicate sample name found! Overwriting: " ++ s)%string w
            | None => w
            end in
  set_data (<[s := ∅]> (picard_dupMetrics_data w1)) w1.

(** A line that starts a log and carries a file name the pattern finds. *)
Definition is_matched_marker (l : string) : bool :=
  is_new_log l && bool_decide (is_Some (PyStr.re_search_input l)).

(** The derivation of one sample, statement by statement, as a function
    of the sample's metrics. *)
Module SpecSteps.

(** One subtraction [m[a] - m[b]]: both operands are looked up, left
    before right, and a missing one is a [KeyError]; then the two are
    subtracted, and a text among them is a [TypeError]. *)
Definition subtract (m : gmap string value) (a b : string) : result value :=
  match m !! a, m !! b with
  | Some x, Some y => py_sub x y
  | _, _ => Raise KeyError
  end.

(** The three subtractions in their fixed order, each on the source
    fields of [m]: the metrics with the derived fields of the statements
    before the first one that cannot be evaluated, and the exception of that
    statement; all three fields and no exception when there is none. *)
Definition derive (m : gmap string value) : gmap string value * option exn :=
  match subtract m "UNPAIRED_READS_EXAMINED" "UNPAIRED_READ_DUPLICATES" with
  | Raise e => (m, Some e)
  | Return v1 =>
      let m1 := <["UNPAIRED_READ_UNIQUE" := v1]> m in
      match subtract m "READ_PAIR_DUPLICATES" "READ_PAIR_OPTICAL_DUPLICATES" with
      | Raise e => (m1, Some e)
      | Return v2 =>
          let m2 := <["READ_PAIR_NOT_OPTICAL_DUPLICATES" := v2]> m1 in
          match subtract m "READ_PAIRS_EXAMINED" "READ_PAIR_DUPLICATES" with
          | Raise e => (m2, Some e)
          | Return v3 => (<["READ_PAIR_UNIQUE" := v3]> m2, None)
          end
      end
  end.

End SpecSteps.

(** Sample inputs for the order of the failures. *)
Module Example3.

(** A text where the first count should be, and nothing else. *)
Definition metrics_text_only : gmap string value :=
  {["UNPAIRED_READS_EXAMINED" := VStr "n/a"]}.

(** The unpaired counts and the pair duplicates, a text where the
    optical duplicates should be, and no count of the pairs examined. *)
Definition metrics_text_optical : gmap string value :=
  <["READ_PAIR_OPTICAL_DUPLICATES" := VStr "n/a"]>
    (<["READ_PAIR_DUPLICATES" := VFloat 40]> Example.metrics_unpaired_only).

(** The first four source fields, and no count of the pairs examined. *)
Definition metrics_no_pairs_examined : gmap string value :=
  <["READ_PAIR_OPTICAL_DUPLICATES" := VFloat 5]>
    (<["READ_PAIR_DUPLICATES" := VFloat 40]> Example.metrics_unpaired_only).

(** A log with the record of [A], then a marker line for [M] with lines
    of another tool after it, then a marker line for [A] again and its
    metrics block. *)
Definition lines_three_markers : list string :=
  record_lines Example.record_A
  ++ [Example.marker "/data/M"] ++ Example2.other_lines
  ++ [Example.marker "/other/A"] ++ Example2.block.

Definition doc_three_markers : logfile := mk_logfile "/data" lines_three_markers.

End Example3.

(** ** Properties *)

Set Warnings "-clear-no-such-hyp".

(** *** The world and the monad *)

Lemma data_set_data d w : picard_dupMetrics_data (set_data d w) = d.
Proof. reflexivity. Qed.

Lemma set_data_set_data d1 d2 w : set_data d2 (set_data d1 w) = set_data d2 w.
Proof. reflexivity. Qed.

Lemma set_data_same w : set_data (picard_dupMetrics_data w) w = w.
Proof. by destruct w. Qed.

Lemma data_add_log l msg w :
  picard_dupMetrics_data (add_log l msg w) = picard_dupMetrics_data w.
Proof. reflexivity. Qed.

Lemma data_set_rows r w :
  picard_dupMetrics_data (set_rows r w) = picard_dupMetrics_data w.
Proof. reflexivity. Qed.

Lemma bind_return {A B} (m : M A) (k : A -> M B) w a w' :
  m w = (Return a, w') -> bind m k w = k a w'.
Proof. unfold bind. by intros ->. Qed.

Lemma bind_raise {A B} (m : M A) (k : A -> M B) w e w' :
  m w = (Raise e, w') -> bind m k w = (Raise e, w').
Proof. unfold bind. by intros ->. Qed.

Lemma for_each_app {A} (xs ys : list A) (body : A -> M unit) w :
  for_each (xs ++ ys) body w =
  bind (for_each xs body) (fun _ => for_each ys body) w.
Proof.
  revert w. induction xs as [|x xs IH]; intros w; simpl.
  - reflexivity.
  - unfold bind in *. destruct (body x w) as [[[]|e] w1]; [apply IH | reflexivity].
Qed.

(** *** Reading and writing one metric *)

Lemma metric_getitem_some s k w m v :
  picard_dupMetrics_data w !! s = Some m -> m !! k = Some v ->
  metric_getitem s k w = (Return v, w).
Proof.
  intros Hs Hk. unfold metric_getitem, bind, gets, lift, dict_getitem.
  by rewrite Hs, Hk.
Qed.

Lemma metric_getitem_none s k w m :
  picard_dupMetrics_data w !! s = Some m -> m !! k = None ->
  metric_getitem s k w = (Raise KeyError, w).
Proof.
  intros Hs Hk. unfold metric_getitem, bind, gets, lift, dict_getitem.
  by rewrite Hs, Hk.
Qed.

Lemma metric_setitem_some s k v w m :
  picard_dupMetrics_data w !! s = Some m ->
  metric_setitem s k v w =
  (Return tt, set_data (<[s := <[k := v]> m]> (picard_dupMetrics_data w)) w).
Proof.
  intros Hs. unfold metric_setitem, bind, gets, lift, dict_getitem.
  by rewrite Hs.
Qed.

(** [float] raises nothing but [ValueError]. *)
Lemma py_float_raises tok e : py_float tok = Raise e -> e = ValueError.
Proof. unfold py_float. destruct (PyFloat.parse tok); congruence. Qed.

(** One turn of the loop over the header tokens stores the coerced token. *)
Lemma store_field_some s vals i k tok w m :
  picard_dupMetrics_data w !! s = Some m -> vals !! i = Some tok ->
  store_field s vals i k w =
  (Return tt,
   set_data (<[s := <[k := Spec.coerce tok]> m]> (picard_dupMetrics_data w)) w).
Proof.
  intros Hs Hi.
  unfold store_field, try_except, bind, lift, list_getitem, py_float, Spec.coerce.
  rewrite Hi. destruct (PyFloat.parse tok) as [x|].
  - by rewrite (metric_setitem_some _ _ _ _ _ Hs).
  - rewrite decide_True by done. by rewrite (metric_setitem_some _ _ _ _ _ Hs).
Qed.

(** A header token with no value token at its index: [IndexError], which
    the handler for [ValueError] lets through. *)
Lemma store_field_out_of_range s vals i k w :
  vals !! i = None -> store_field s vals i k w = (Raise IndexError, w).
Proof.
  intros Hi. unfold store_field, try_except, bind, lift, list_getitem.
  rewrite Hi. by rewrite decide_False.
Qed.

(** *** The loop over the header tokens *)

Lemma foldl_store_pair m (l : list (string * value)) :
  foldl store_pair m l = list_to_map (reverse l) ∪ m.
Proof.
  revert m. induction l as [|[k v] l IH]; intros m; simpl.
  - by rewrite (left_id_L ∅ (∪)).
  - rewrite IH, reverse_cons, list_to_map_app. simpl.
    rewrite <- (assoc_L (∪)). f_equal.
    unfold store_pair. simpl.
    by rewrite <- insert_union_l, (left_id_L ∅ (∪)).
Qed.

(** With a value token for every header token left, the loop ends and
    has stored the pairs in order. *)
Lemma store_fields_stores keys s vals i w m :
  picard_dupMetrics_data w !! s = Some m ->
  (i + length keys <= length vals)%nat ->
  store_fields s vals i keys w =
  (Return tt,
   set_data (<[s := foldl store_pair m (zip keys (Spec.coerce <$> drop i vals))]>
               (picard_dupMetrics_data w)) w).
Proof.
  revert i w m. induction keys as [|k keys IH]; intros i w m Hs Hlen; simpl.
  - unfold ret. by rewrite insert_id, set_data_same.
  - simpl in Hlen.
    destruct (lookup_lt_is_Some_2 vals i) as [tok Htok]; [lia|].
    rewrite (bind_return _ _ _ _ _ (store_field_some _ _ _ k _ _ _ Hs Htok)).
    rewrite (IH (S i) _ (<[k := Spec.coerce tok]> m)).
    + rewrite data_set_data, set_data_set_data, insert_insert_eq.
      by rewrite (drop_S _ _ _ Htok).
    + by rewrite data_set_data, lookup_insert_eq.
    + lia.
Qed.

(** Started on an empty entry and from index [0], the loop builds the
    positional zip. *)
Lemma store_fields_positional_zip keys s vals w :
  picard_dupMetrics_data w !! s = Some ∅ ->
  (length keys <= length vals)%nat ->
  store_fields s vals 0 keys w =
  (Return tt,
   set_data (<[s := Spec.positional_zip keys vals]> (picard_dupMetrics_data w)) w).
Proof.
  intros Hs Hlen. rewrite (store_fields_stores _ _ _ _ _ _ Hs) by done.
  rewrite foldl_store_pair, (right_id_L ∅ (∪)). by rewrite drop_0.
Qed.

(** With fewer value tokens than the loop still needs, it stops at the
    first index past the value row with [IndexError]; what was stored
    before stays stored. *)
Lemma store_fields_short keys s vals i w m :
  picard_dupMetrics_data w !! s = Some m ->
  (i <= length vals < i + length keys)%nat ->
  exists m',
    store_fields s vals i keys w =
    (Raise IndexError, set_data (<[s := m']> (picard_dupMetrics_data w)) w).
Proof.
  revert i w m. induction keys as [|k keys IH]; intros i w m Hs Hlen; simpl in *.
  - lia.
  - destruct (vals !! i) as [tok|] eqn:Htok.
    + rewrite (bind_return _ _ _ _ _ (store_field_some _ _ _ k _ _ _ Hs Htok)).
      apply lookup_lt_Some in Htok.
      destruct (IH (S i) (set_data (<[s := <[k := Spec.coerce tok]> m]>
                                      (picard_dupMetrics_data w)) w)
                   (<[k := Spec.coerce tok]> m)) as [m' Hm'].
      * by rewrite data_set_data, lookup_insert_eq.
      * lia.
      * exists m'. rewrite Hm'.
        by rewrite data_set_data, set_data_set_data, insert_insert_eq.
    + exists m.
      rewrite (bind_raise _ _ _ _ _ (store_field_out_of_range _ _ _ k _ Htok)).
      by rewrite insert_id, set_data_same.
Qed.

(** *** Scanning the lines of a log *)

Section Extractor.

Variable clean_s_name : string -> string -> string.

Local Abbreviation parse_lines := (parse_lines clean_s_name).
Local Abbreviation new_log_starting := (new_log_starting clean_s_name).
Local Abbreviation sample_id := (sample_id clean_s_name).
Local Abbreviation after_record := (after_record clean_s_name).
Local Abbreviation data_after := (data_after clean_s_name).

Lemma parse_lines_cons root s_name l rest :
  parse_lines root s_name (l :: rest) =
  bind (if is_new_log l then new_log_starting root l else ret s_name)
    (fun s_name =>
       match s_name with
       | Some s =>
           if is_metrics_class l then
             match rest with
             | keys :: vals :: rest' =>
                 bind (store_fields s (PyStr.split_tab vals) 0 (PyStr.split_tab keys))
                      (fun _ => parse_lines root None rest')
             | _ => raise StopIteration
             end
           else parse_lines root (Some s) rest
       | None => parse_lines root None rest
       end).
Proof. reflexivity. Qed.

(** A line that starts a log and names a file: the sample's entry is
    there afterwards, empty, and the sample is pending. *)
Lemma new_log_starting_match root l path w :
  PyStr.re_search_input l = Some path ->
  let s := clean_s_name (PyStr.basename path) root in
  let w1 := match picard_dupMetrics_data w !! s with
            | Some _ => add_log DEBUG ("Duplicate sample name found! Overwriting: " ++ s)%string w
            | None => w
            end in
  new_log_starting root l w =
  (Return (Some s), set_data (<[s := ∅]> (picard_dupMetrics_data w1)) w1).
Proof.
  intros Hp s w1. unfold new_log_starting. rewrite Hp. fold s.
  unfold bind, gets, log_debug, data_setitem, modify, ret. subst w1.
  by destruct (picard_dupMetrics_data w !! s).
Qed.

(** A line that starts a log without a file name the pattern finds:
    nothing is pending afterwards and nothing changed. *)
Lemma new_log_starting_no_match root l w :
  PyStr.re_search_input l = None ->
  new_log_starting root l w = (Return None, w).
Proof. intros Hp. unfold new_log_starting. by rewrite Hp. Qed.

Lemma well_framed_spec r :
  well_framed r = true ->
  is_new_log (marker_line r) = true ∧
  PyStr.re_search_input (marker_line r) = Some (record_path r) ∧
  is_metrics_class (marker_line r) = false ∧
  is_metrics_class (class_line r) = true ∧
  is_new_log (class_line r) = false.
Proof.
  unfold well_framed. rewrite !andb_true_iff, !negb_true_iff, bool_decide_eq_true.
  intros [[[[H1 [p Hp]] H3] H4] H5]. repeat split; try done.
  unfold record_path. by rewrite Hp.
Qed.

(** The first two lines of a framed record: the entry is reset, the
    sample is pending, and the loop over the header tokens starts. *)
Lemma parse_lines_framed root s_name r rest w :
  well_framed r = true ->
  let s := sample_id root r in
  let w1 := match picard_dupMetrics_data w !! s with
            | Some _ => add_log DEBUG ("Duplicate sample name found! Overwriting: " ++ s)%string w
            | None => w
            end in
  parse_lines root s_name (record_lines r ++ rest) w =
  bind (store_fields s (value_tokens r) 0 (header_tokens r))
       (fun _ => parse_lines root None rest)
       (set_data (<[s := ∅]> (picard_dupMetrics_data w1)) w1).
Proof.
  intros (Hnew & Hpath & Hnc & Hcls & Hnn)%well_framed_spec s w1.
  unfold record_lines. simpl app.
  rewrite parse_lines_cons, Hnew, Hnc.
  erewrite bind_return by (by apply new_log_starting_match).
  cbv beta iota.
  rewrite parse_lines_cons, Hnn, Hcls.
  reflexivity.
Qed.

(** A well-formed record, whatever was pending before it: the world
    afterwards is [after_record], and nothing is pending. *)
Lemma parse_lines_record root s_name r rest w :
  well_formed r = true ->
  parse_lines root s_name (record_lines r ++ rest) w =
  parse_lines root None rest (after_record root w r).
Proof.
  unfold well_formed. rewrite andb_true_iff, Nat.leb_le. intros [Hfr Hlen].
  rewrite parse_lines_framed by done.
  erewrite bind_return.
  2:{ apply store_fields_positional_zip; [|done].
      by rewrite data_set_data, lookup_insert_eq. }
  unfold after_record, Spec.record_metrics.
  by rewrite data_set_data, set_data_set_data, insert_insert_eq.
Qed.

(** A run of well-formed records is scanned to the end, record by record. *)
Lemma parse_lines_records root rs s_name w :
  forallb well_formed rs = true ->
  parse_lines root s_name (concat (record_lines <$> rs)) w =
  (Return tt, foldl (after_record root) w rs).
Proof.
  revert s_name w. induction rs as [|r rs IH]; intros s_name w Hwf.
  - reflexivity.
  - simpl in Hwf. apply andb_true_iff in Hwf as [Hr Hrs].
    change (concat (record_lines <$> r :: rs))
      with (record_lines r ++ concat (record_lines <$> rs)).
    rewrite parse_lines_record by done. by rewrite IH.
Qed.

Lemma data_after_record root w r :
  picard_dupMetrics_data (after_record root w r) =
  <[sample_id root r := Spec.record_metrics r]> (picard_dupMetrics_data w).
Proof.
  unfold after_record. rewrite data_set_data.
  by destruct (picard_dupMetrics_data w !! sample_id root r).
Qed.

Lemma data_foldl_after_record root rs w :
  picard_dupMetrics_data (foldl (after_record root) w rs) =
  data_after root (picard_dupMetrics_data w) rs.
Proof.
  revert w. induction rs as [|r rs IH]; intros w; simpl; [done|].
  by rewrite IH, data_after_record.
Qed.

End Extractor.

(** *** Records in the final map *)

Section LastWrite.

Variable clean_s_name : string -> string -> string.

Local Abbreviation parse_lines := (parse_lines clean_s_name).
Local Abbreviation sample_id := (sample_id clean_s_name).
Local Abbreviation after_record := (after_record clean_s_name).
Local Abbreviation data_after := (data_after clean_s_name).

Lemma data_after_app root d rs1 rs2 :
  data_after root d (rs1 ++ rs2) = data_after root (data_after root d rs1) rs2.
Proof. unfold data_after. apply foldl_app. Qed.

Lemma data_after_cons root d r rs :
  data_after root d (r :: rs) =
  data_after root (<[sample_id root r := Spec.record_metrics r]> d) rs.
Proof. reflexivity. Qed.

(** Records under other identifiers leave an entry as it is. *)
Lemma data_after_other root s rs d :
  forallb (fun r => bool_decide (sample_id root r ≠ s)) rs = true ->
  data_after root d rs !! s = d !! s.
Proof.
  revert d. induction rs as [|r rs IH]; intros d Hne; [done|].
  simpl in Hne.
  apply andb_true_iff in Hne as [Hr Hrs]. apply bool_decide_eq_true in Hr.
  by rewrite data_after_cons, IH, lookup_insert_ne.
Qed.

(** An entry, once there, is there after any run of records. *)
Lemma data_after_is_Some root s rs d :
  is_Some (d !! s) -> is_Some (data_after root d rs !! s).
Proof.
  revert d. induction rs as [|r rs IH]; intros d Hs; [done|].
  rewrite data_after_cons.
  apply IH. destruct (decide (sample_id root r = s)) as [->|Hne].
  - rewrite lookup_insert_eq. eauto.
  - by rewrite lookup_insert_ne.
Qed.

(** The log only grows. *)
Lemma log_after_record root w r x :
  x ∈ log_records w -> x ∈ log_records (after_record root w r).
Proof.
  unfold after_record.
  destruct (picard_dupMetrics_data w !! sample_id root r); simpl; [|done].
  intros Hx. apply elem_of_app. by left.
Qed.

Lemma log_foldl_after_record root rs w x :
  x ∈ log_records w -> x ∈ log_records (foldl (after_record root) w rs).
Proof.
  revert w. induction rs as [|r rs IH]; intros w Hx; simpl; [done|].
  by apply IH, log_after_record.
Qed.

(** A record whose identifier is there already leaves the diagnostic. *)
Lemma log_after_duplicate root w r :
  is_Some (picard_dupMetrics_data w !! sample_id root r) ->
  (DEBUG, ("Duplicate sample name found! Overwriting: " ++ sample_id root r)%string)
    ∈ log_records (after_record root w r).
Proof.
  intros [m Hm]. unfold after_record. rewrite Hm. simpl.
  apply elem_of_app. right. by apply list_elem_of_singleton.
Qed.

(** C2 (as amended): for a document that is one record -- a line that
    starts a log and carries [INPUT=[...]], a metrics-class line, a header
    row and a value row -- in which each of the first two lines plays its own
    part only and the value row has at least as many tab-separated tokens as
    the header row, the scan ends normally and the sample's entry is exactly
    the positional zip of the header tokens to the coerced value tokens. *)
Theorem single_record_positional_zip root r w :
  well_formed r = true ->
  exists w',
    parse_picard_dupMetrics clean_s_name (mk_logfile root (record_lines r)) w
      = (Return tt, w') ∧
    picard_dupMetrics_data w' !! sample_id root r
      = Some (Spec.positional_zip (header_tokens r) (value_tokens r)).
Proof.
  intros Hwf. exists (after_record root w r). split.
  - unfold parse_picard_dupMetrics. simpl f_lines. simpl f_root.
    rewrite <- (app_nil_r (record_lines r)).
    by rewrite parse_lines_record.
  - by rewrite data_after_record, lookup_insert_eq.
Qed.

(** C5: in a run of well-formed records where a record [r2] has the
    identifier of an earlier record [r1], and no record after [r2] has it,
    the scan ends without an error, the final entry of that identifier is
    the map of [r2] alone (nothing of [r1] is merged in), and the collision
    is in the log as a debug message. *)
Theorem duplicate_sample_last_wins root s_name w rs1 r1 rs2 r2 rs3 :
  forallb well_formed (rs1 ++ r1 :: rs2 ++ r2 :: rs3) = true ->
  sample_id root r1 = sample_id root r2 ->
  forallb (fun r => bool_decide (sample_id root r ≠ sample_id root r2)) rs3 = true ->
  exists w',
    parse_lines root s_name
      (concat (record_lines <$> (rs1 ++ r1 :: rs2 ++ r2 :: rs3))) w
      = (Return tt, w') ∧
    picard_dupMetrics_data w' !! sample_id root r2 = Some (Spec.record_metrics r2) ∧
    (DEBUG, ("Duplicate sample name found! Overwriting: " ++ sample_id root r2)%string)
      ∈ log_records w'.
Proof.
  intros Hwf Hid Hrs3.
  assert (Hsplit : rs1 ++ r1 :: rs2 ++ r2 :: rs3 = (rs1 ++ r1 :: rs2) ++ r2 :: rs3)
    by by rewrite <- app_assoc.
  rewrite Hsplit in *.
  eexists. split; [by apply parse_lines_records|].
  rewrite foldl_app. cbn [foldl].
  set (wpre := foldl (after_record root) w (rs1 ++ r1 :: rs2)).
  assert (Hpre : is_Some (picard_dupMetrics_data wpre !! sample_id root r2)).
  { subst wpre. rewrite data_foldl_after_record, data_after_app, data_after_cons.
    apply data_after_is_Some. rewrite Hid, lookup_insert_eq. eauto. }
  split.
  - rewrite data_foldl_after_record, data_after_other by done.
    by rewrite data_after_record, lookup_insert_eq.
  - by apply log_foldl_after_record, log_after_duplicate.
Qed.

(** C9: for a record whose value row has fewer tab-separated tokens than
    its header row, the scan raises [IndexError], which nothing catches;
    and a framed record is scanned to its end exactly when the value row has
    at least as many tokens as the header row. *)
Theorem short_value_row_raises root s_name r rest w :
  well_framed r = true ->
  ((length (value_tokens r) < length (header_tokens r))%nat ->
   exists w', parse_lines root s_name (record_lines r ++ rest) w
              = (Raise IndexError, w')) ∧
  ((parse_lines root s_name (record_lines r) w).1 = Return tt
   <-> (length (header_tokens r) <= length (value_tokens r))%nat).
Proof.
  intros Hfr.
  assert (Hshort : forall rest', (length (value_tokens r) < length (header_tokens r))%nat ->
    exists w', parse_lines root s_name (record_lines r ++ rest') w
               = (Raise IndexError, w')).
  { intros rest' Hlt. rewrite parse_lines_framed by done.
    edestruct (store_fields_short (header_tokens r) (sample_id root r)
                 (value_tokens r) 0) as [m' Hm']; [|split; [lia|exact Hlt]|].
    - by rewrite data_set_data, lookup_insert_eq.
    - eexists. by apply bind_raise. }
  split; [apply Hshort|]. split.
  - intros Hret. destruct (Nat.le_gt_cases (length (header_tokens r))
                             (length (value_tokens r))) as [|Hlt]; [done|].
    destruct (Hshort [] Hlt) as [w' Hw']. rewrite app_nil_r in Hw'.
    by rewrite Hw' in Hret.
  - intros Hle. rewrite <- (app_nil_r (record_lines r)).
    rewrite parse_lines_record; [done|].
    unfold well_formed. rewrite Hfr. by apply Nat.leb_le.
Qed.

End LastWrite.

(** *** Coercion of a value token *)

Set Warnings "-inexact-float".

(** C4: for a value token [tok] at index [i] of the value row, the turn
    of the loop that stores it never raises: it stores the float when
    [float(tok)] returns one and the token itself, unchanged, when [float]
    raises ([ValueError] is all it raises); so ["0.482"] is stored as the
    float [0.482] and ["abc"] as the string ["abc"]. *)
Theorem coercion_total s k vals i tok w m :
  picard_dupMetrics_data w !! s = Some m ->
  vals !! i = Some tok ->
  exists v,
    store_field s vals i k w =
      (Return tt, set_data (<[s := <[k := v]> m]> (picard_dupMetrics_data w)) w) ∧
    match py_float tok with
    | Return x => v = VFloat x
    | Raise _ => v = VStr tok
    end ∧
    (tok = "0.482"%string -> v = VFloat 0.482) ∧
    (tok = "abc"%string -> v = VStr "abc").
Proof.
  intros Hs Hi. exists (Spec.coerce tok). split; [by apply store_field_some|].
  split; [|split].
  - unfold py_float, Spec.coerce. by destruct (PyFloat.parse tok).
  - by intros ->.
  - by intros ->.
Qed.

(** *** Entries of the map while a log is scanned *)

Lemma metric_setitem_dom s k v w r w' :
  metric_setitem s k v w = (r, w') ->
  dom (picard_dupMetrics_data w') = dom (picard_dupMetrics_data w).
Proof.
  unfold metric_setitem, bind, gets, lift, dict_getitem, data_setitem, modify.
  destruct (picard_dupMetrics_data w !! s) as [m|] eqn:Hs; intros [= <- <-]; [|done].
  rewrite data_set_data, dom_insert_L.
  apply (elem_of_dom_2 (D := gset string)) in Hs. set_solver.
Qed.

Lemma store_field_dom s vals i k w r w' :
  store_field s vals i k w = (r, w') ->
  dom (picard_dupMetrics_data w') = dom (picard_dupMetrics_data w).
Proof.
  unfold store_field, try_except, bind, lift, list_getitem, py_float.
  destruct (vals !! i) as [tok|]; [|by intros [= <- <-]].
  destruct (PyFloat.parse tok) as [x|].
  - destruct (metric_setitem s k (VFloat x) w) as [[[]|e] w1] eqn:Hset.
    + intros [= <- <-]. by eapply metric_setitem_dom.
    + destruct (decide (e = ValueError)) as [->|Hne].
      * apply metric_setitem_dom in Hset. intros Hh.
        apply metric_setitem_dom in Hh. congruence.
      * intros [= <- <-]. by eapply metric_setitem_dom.
  - rewrite decide_True by done. apply metric_setitem_dom.
Qed.

Lemma store_fields_dom s vals keys i w r w' :
  store_fields s vals i keys w = (r, w') ->
  dom (picard_dupMetrics_data w') = dom (picard_dupMetrics_data w).
Proof.
  revert i w. induction keys as [|k keys IH]; intros i w; simpl.
  - by intros [= <- <-].
  - unfold bind. destruct (store_field s vals i k w) as [[[]|e] w1] eqn:Hf.
    + intros Hh. apply IH in Hh. apply store_field_dom in Hf. congruence.
    + intros [= <- <-]. by eapply store_field_dom.
Qed.

(** With the sample's entry in the map, the loop over the header tokens
    raises nothing but [IndexError]. *)
Lemma store_field_raises s vals i k w e w' :
  is_Some (picard_dupMetrics_data w !! s) ->
  store_field s vals i k w = (Raise e, w') -> e = IndexError.
Proof.
  intros [m Hs]. destruct (vals !! i) as [tok|] eqn:Hi.
  - by rewrite (store_field_some _ _ _ _ _ _ _ Hs Hi).
  - rewrite (store_field_out_of_range _ _ _ _ _ Hi). congruence.
Qed.

Lemma store_fields_raises s vals keys i w e w' :
  is_Some (picard_dupMetrics_data w !! s) ->
  store_fields s vals i keys w = (Raise e, w') -> e = IndexError.
Proof.
  revert i w. induction keys as [|k keys IH]; intros i w Hs; simpl; [done|].
  unfold bind. destruct (store_field s vals i k w) as [[[]|e1] w1] eqn:Hf.
  - apply IH. apply store_field_dom in Hf.
    apply (elem_of_dom (D := gset string)). rewrite Hf. by apply elem_of_dom.
  - intros [= <- <-]. by eapply store_field_raises.
Qed.

(** Storing a metric touches the entry of its sample only. *)
Lemma metric_setitem_frame s k v w r w' s' :
  metric_setitem s k v w = (r, w') -> s' ≠ s ->
  picard_dupMetrics_data w' !! s' = picard_dupMetrics_data w !! s'.
Proof.
  unfold metric_setitem, bind, gets, lift, dict_getitem, data_setitem, modify.
  destruct (picard_dupMetrics_data w !! s) as [m|]; intros [= <- <-] Hne; [|done].
  by rewrite data_set_data, lookup_insert_ne.
Qed.

Lemma store_field_frame s vals i k w r w' s' :
  store_field s vals i k w = (r, w') -> s' ≠ s ->
  picard_dupMetrics_data w' !! s' = picard_dupMetrics_data w !! s'.
Proof.
  unfold store_field, try_except, bind, lift, list_getitem, py_float.
  destruct (vals !! i) as [tok|]; [|by intros [= <- <-]].
  destruct (PyFloat.parse tok) as [x|].
  - destruct (metric_setitem s k (VFloat x) w) as [[[]|e] w1] eqn:Hset.
    + intros [= <- <-] Hne. by eapply metric_setitem_frame.
    + destruct (decide (e = ValueError)) as [->|He].
      * intros Hh Hne. eapply metric_setitem_frame in Hh; [|done].
        eapply metric_setitem_frame in Hset; [|done]. congruence.
      * intros [= <- <-] Hne. by eapply metric_setitem_frame.
  - rewrite decide_True by done. apply metric_setitem_frame.
Qed.

Lemma store_fields_frame s vals keys i w r w' s' :
  store_fields s vals i keys w = (r, w') -> s' ≠ s ->
  picard_dupMetrics_data w' !! s' = picard_dupMetrics_data w !! s'.
Proof.
  revert i w. induction keys as [|k keys IH]; intros i w; simpl.
  - by intros [= <- <-].
  - unfold bind. destruct (store_field s vals i k w) as [[[]|e] w1] eqn:Hf.
    + intros Hh Hne. eapply IH in Hh; [|done].
      eapply store_field_frame in Hf; [|done]. congruence.
    + intros [= <- <-] Hne. by eapply store_field_frame.
Qed.

Section Lifecycle.

Variable clean_s_name : string -> string -> string.

Local Abbreviation parse_lines := (parse_lines clean_s_name).
Local Abbreviation new_log_starting := (new_log_starting clean_s_name).
Local Abbreviation names_sample := (names_sample clean_s_name).

(** The head of the loop body (lines 65-75): it never raises, an entry is
    added exactly when the line names a sample, and a pending sample has its
    entry. *)
Lemma new_log_step root l s_name w :
  (forall s, s_name = Some s -> s ∈ dom (picard_dupMetrics_data w)) ->
  exists s_name1 w1,
    (if is_new_log l then new_log_starting root l else ret s_name) w
      = (Return s_name1, w1) ∧
    (forall s, s ∈ dom (picard_dupMetrics_data w1) <->
               s ∈ dom (picard_dupMetrics_data w) ∨ names_sample root l s) ∧
    (forall s, s_name1 = Some s -> s ∈ dom (picard_dupMetrics_data w1)).
Proof.
  intros Hpend. unfold names_sample.
  destruct (is_new_log l) eqn:Hnew.
  - destruct (PyStr.re_search_input l) as [path|] eqn:Hp.
    + eexists _, _. split; [by apply new_log_starting_match|].
      rewrite data_set_data.
      set (s0 := clean_s_name (PyStr.basename path) root).
      assert (Hd : forall d : gmap string (gmap string value),
                 dom (<[s0 := ∅]> d) = {[s0]} ∪ dom d) by (intros; apply dom_insert_L).
      split.
      * intros s. destruct (picard_dupMetrics_data w !! s0);
          rewrite ?data_add_log, Hd; split.
        -- intros [->%elem_of_singleton|]%elem_of_union; eauto.
        -- intros [|[_ (p & [= <-] & ->)]]; set_solver.
        -- intros [->%elem_of_singleton|]%elem_of_union; eauto.
        -- intros [|[_ (p & [= <-] & ->)]]; set_solver.
      * intros s [= <-].
        destruct (picard_dupMetrics_data w !! s0); rewrite ?data_add_log, Hd; set_solver.
    + eexists _, _. split; [by apply new_log_starting_no_match|]. split.
      * intros s. split; [eauto|]. by intros [|[_ (p & [=] & _)]].
      * done.
  - eexists _, _. split; [reflexivity|]. split.
    + intros s. split; [eauto|]. by intros [|[[=] _]].
    + done.
Qed.

(** What scanning does to the entries, however it ends: none is
    removed, each new one is named by a line that starts a log, the sample
    that the first line names has its entry, and an exception is
    [IndexError] or [StopIteration] and leaves a map that is not empty. *)
Lemma parse_lines_entries root n :
  forall lines s_name w r w',
    (length lines <= n)%nat ->
    (forall s, s_name = Some s -> s ∈ dom (picard_dupMetrics_data w)) ->
    parse_lines root s_name lines w = (r, w') ->
    dom (picard_dupMetrics_data w) ⊆ dom (picard_dupMetrics_data w') ∧
    (forall s, s ∈ dom (picard_dupMetrics_data w') ->
       s ∈ dom (picard_dupMetrics_data w) ∨ exists l, l ∈ lines ∧ names_sample root l s) ∧
    (forall l s, head lines = Some l -> names_sample root l s ->
       s ∈ dom (picard_dupMetrics_data w')) ∧
    (forall e, r = Raise e ->
       (e = IndexError ∨ e = StopIteration) ∧ picard_dupMetrics_data w' ≠ ∅).
Proof.
  induction n as [|n IH]; intros lines s_name w r w' Hlen Hpend.
  { destruct lines; [|simpl in Hlen; lia]. intros [= <- <-].
    split; [done|]. split; [eauto|done]. }
  destruct lines as [|l rest].
  { intros [= <- <-]. split; [done|]. split; [eauto|done]. }
  simpl in Hlen. rewrite parse_lines_cons.
  destruct (new_log_step root l s_name w Hpend) as (sn1 & w1 & Hstep & Hdom1 & Hpend1).
  rewrite (bind_return _ _ _ _ _ Hstep).
  (* what is left to do after the head of the loop body, from [w1] on *)
  intros Hrun.
  assert (Hcore :
    dom (picard_dupMetrics_data w1) ⊆ dom (picard_dupMetrics_data w') ∧
    (forall s, s ∈ dom (picard_dupMetrics_data w') ->
       s ∈ dom (picard_dupMetrics_data w1) ∨
       exists l', l' ∈ rest ∧ names_sample root l' s) ∧
    (forall e, r = Raise e ->
       (e = IndexError ∨ e = StopIteration) ∧ picard_dupMetrics_data w' ≠ ∅)).
  { assert (Hcont : forall sn2 rest2 w2,
              (length rest2 <= n)%nat -> rest2 ⊆ rest ->
              (forall s, sn2 = Some s -> s ∈ dom (picard_dupMetrics_data w2)) ->
              dom (picard_dupMetrics_data w2) = dom (picard_dupMetrics_data w1) ->
              parse_lines root sn2 rest2 w2 = (r, w') ->
              dom (picard_dupMetrics_data w1) ⊆ dom (picard_dupMetrics_data w') ∧
              (forall s, s ∈ dom (picard_dupMetrics_data w') ->
                 s ∈ dom (picard_dupMetrics_data w1) ∨
                 exists l', l' ∈ rest ∧ names_sample root l' s) ∧
              (forall e, r = Raise e ->
                 (e = IndexError ∨ e = StopIteration) ∧ picard_dupMetrics_data w' ≠ ∅)).
    { intros sn2 rest2 w2 Hlen2 Hsub2 Hpend2 Hdom2 Hrun2.
      destruct (IH _ _ _ _ _ Hlen2 Hpend2 Hrun2) as (Hmono & Horigin & _ & Hraise).
      rewrite Hdom2 in Hmono, Horigin.
      split; [done|]. split; [|done].
      intros s [Hs|(l' & Hl' & Hn)]%Horigin; [by left|].
      right. exists l'. split; [by apply Hsub2|done]. }
    destruct sn1 as [s|]; [|apply (Hcont None rest w1); [lia|done|done|done|done]].
    destruct (is_metrics_class l);
      [|apply (Hcont (Some s) rest w1); [lia|done|done|done|done]].
    assert (Hs : s ∈ dom (picard_dupMetrics_data w1)) by by apply Hpend1.
    assert (Hstop : raise StopIteration w1 = (r, w') ->
              dom (picard_dupMetrics_data w1) ⊆ dom (picard_dupMetrics_data w') ∧
              (forall s, s ∈ dom (picard_dupMetrics_data w') ->
                 s ∈ dom (picard_dupMetrics_data w1) ∨
                 exists l', l' ∈ rest ∧ names_sample root l' s) ∧
              (forall e, r = Raise e ->
                 (e = IndexError ∨ e = StopIteration) ∧ picard_dupMetrics_data w' ≠ ∅)).
    { intros [= <- <-]. split; [done|]. split; [eauto|].
      intros e [= <-]. split; [by right|]. intros Hempty.
      rewrite Hempty in Hs. set_solver. }
    destruct rest as [|keys [|vals rest']]; [by apply Hstop|by apply Hstop|].
    clear Hstop. unfold bind in Hrun.
    destruct (store_fields s (PyStr.split_tab vals) 0 (PyStr.split_tab keys) w1)
      as [[[]|e] w2] eqn:Hst.
    - apply store_fields_dom in Hst.
      apply (Hcont None rest' w2); [simpl in Hlen; lia| |done|done|done].
      intros x Hx. by do 2 right.
    - injection Hrun as <- <-.
      assert (He : e = IndexError).
      { eapply store_fields_raises; [|done]. by apply elem_of_dom. }
      apply store_fields_dom in Hst. rewrite Hst.
      split; [done|]. split; [eauto|].
      intros e' [= <-]. split; [by left|]. intros Hempty.
      rewrite <- Hst, Hempty in Hs. set_solver. }
  destruct Hcore as (Hmono & Horigin & Hraise).
  split; [|split; [|split]].
  - intros s Hs. apply Hmono, Hdom1. by left.
  - intros s [[Hs|Hs]%Hdom1|(l' & Hl' & Hn)]%Horigin.
    + by left.
    + right. exists l. split; [left|done].
    + right. exists l'. split; [by right|done].
  - intros l0 s [= <-] Hn. apply Hmono, Hdom1. by right.
  - done.
Qed.

(** The head of the loop body leaves alone the entry of a sample that the
    line does not name, and makes no such sample pending. *)
Lemma new_log_step_frame root l s_name w :
  exists s_name1 w1,
    (if is_new_log l then new_log_starting root l else ret s_name) w
      = (Return s_name1, w1) ∧
    forall s, ¬ names_sample root l s ->
      picard_dupMetrics_data w1 !! s = picard_dupMetrics_data w !! s ∧
      (s_name1 = Some s -> s_name = Some s).
Proof.
  unfold names_sample.
  destruct (is_new_log l) eqn:Hnew.
  - destruct (PyStr.re_search_input l) as [path|] eqn:Hp.
    + eexists _, _. split; [by apply new_log_starting_match|].
      intros s Hn.
      assert (Hne : clean_s_name (PyStr.basename path) root ≠ s).
      { intros <-. apply Hn. eauto. }
      rewrite data_set_data. split; [|by intros [= ?]].
      destruct (picard_dupMetrics_data w !! _);
        by rewrite ?data_add_log, lookup_insert_ne.
    + eexists _, _. split; [by apply new_log_starting_no_match|]. done.
  - eexists _, _. split; [reflexivity|]. done.
Qed.

(** An entry is changed by the scan only if a line names its sample or
    its sample was pending. *)
Lemma parse_lines_frame root n :
  forall lines s_name w r w' s,
    (length lines <= n)%nat ->
    parse_lines root s_name lines w = (r, w') ->
    s_name ≠ Some s ->
    (forall l, l ∈ lines -> ¬ names_sample root l s) ->
    picard_dupMetrics_data w' !! s = picard_dupMetrics_data w !! s.
Proof.
  induction n as [|n IH]; intros lines s_name w r w' s Hlen.
  { destruct lines; [|simpl in Hlen; lia]. by intros [= <- <-]. }
  destruct lines as [|l rest]; [by intros [= <- <-]|].
  simpl in Hlen. rewrite parse_lines_cons.
  destruct (new_log_step_frame root l s_name w) as (sn1 & w1 & Hstep & Hframe).
  rewrite (bind_return _ _ _ _ _ Hstep).
  intros Hrun Hpend Hnames.
  destruct (Hframe s) as [Hw1 Hsn1]; [apply Hnames; left|].
  assert (Hrest : forall l', l' ∈ rest -> ¬ names_sample root l' s)
    by (intros l' Hl'; apply Hnames; by right).
  assert (Hpend1 : sn1 ≠ Some s) by (intros Heq; by apply Hpend, Hsn1).
  rewrite <- Hw1.
  destruct sn1 as [s0|]; [|eapply IH; [|exact Hrun|done|done]; lia].
  destruct (is_metrics_class l); [|eapply IH; [|exact Hrun|done|done]; lia].
  destruct rest as [|keys [|vals rest']]; [by injection Hrun as _ <-..|].
  unfold bind in Hrun.
  destruct (store_fields s0 (PyStr.split_tab vals) 0 (PyStr.split_tab keys) w1)
    as [[[]|e] w2] eqn:Hst.
  - assert (Hne : s ≠ s0) by (intros ->; by apply Hpend1).
    apply (store_fields_frame _ _ _ _ _ _ _ s) in Hst; [|done].
    rewrite <- Hst. eapply IH; [|exact Hrun|done|]; [simpl in Hlen; lia|].
    intros l' Hl'. apply Hrest. by do 2 right.
  - injection Hrun as _ <-. eapply store_fields_frame; [done|].
    intros ->. by apply Hpend1.
Qed.

(** A line that starts a log makes the scan forget what was pending. *)
Lemma parse_lines_new_log root s_name l rest w :
  is_new_log l = true ->
  parse_lines root s_name (l :: rest) w = parse_lines root None (l :: rest) w.
Proof. intros Hn. rewrite !parse_lines_cons, Hn. reflexivity. Qed.

(** A line that names a sample: the sample's entry is reset and the
    sample is pending. *)
Lemma new_log_starting_names root l s w :
  names_sample root l s ->
  new_log_starting root l w = (Return (Some s), reset_entry s w).
Proof. intros [_ (path & Hp & ->)]. by apply new_log_starting_match. Qed.

Lemma data_reset_entry s w :
  picard_dupMetrics_data (reset_entry s w) = <[s := ∅]> (picard_dupMetrics_data w).
Proof.
  unfold reset_entry. rewrite data_set_data.
  by destruct (picard_dupMetrics_data w !! s).
Qed.

(** The loop at a line that names a sample, whatever was pending: the
    entry is reset, and the rest of the body and of the loop runs with the
    sample pending. *)
Lemma parse_lines_marker root s_name l post w s :
  names_sample root l s ->
  parse_lines root s_name (l :: post) w =
  (if is_metrics_class l then
     match post with
     | keys :: vals :: rest =>
         bind (store_fields s (PyStr.split_tab vals) 0 (PyStr.split_tab keys))
              (fun _ => parse_lines root None rest)
     | _ => raise StopIteration
     end
   else parse_lines root (Some s) post) (reset_entry s w).
Proof.
  intros Hn. rewrite parse_lines_cons.
  rewrite (proj1 Hn).
  by rewrite (bind_return _ _ _ _ _ (new_log_starting_names _ _ _ w Hn)).
Qed.

(** Lines that are passed over, whatever is pending. *)
Lemma parse_lines_fillers root s_name fillers rest w :
  forallb is_filler fillers = true ->
  parse_lines root s_name (fillers ++ rest) w = parse_lines root s_name rest w.
Proof.
  induction fillers as [|l fillers IH]; [done|].
  simpl forallb. intros [Hl Hls]%andb_true_iff.
  unfold is_filler in Hl. apply andb_true_iff in Hl as [Hn Hc].
  apply negb_true_iff in Hn, Hc.
  rewrite <- app_comm_cons, parse_lines_cons, Hn, Hc.
  unfold bind, ret. destruct s_name; by apply IH.
Qed.

(** A scan that returns has taken its lines one after the other, or
    three at a time, and the scan of more lines after them goes on where it
    stopped: in the world it left and with the sample it left pending. *)
Lemma parse_lines_prefix root n :
  forall pre s_name w w1,
    (length pre <= n)%nat ->
    (forall s, s_name = Some s -> s ∈ dom (picard_dupMetrics_data w)) ->
    parse_lines root s_name pre w = (Return tt, w1) ->
    exists pending,
      (forall post,
         parse_lines root s_name (pre ++ post) w = parse_lines root pending post w1) ∧
      (forall s, pending = Some s -> s ∈ dom (picard_dupMetrics_data w1)).
Proof.
  induction n as [|n IH]; intros pre s_name w w1 Hlen Hpend.
  { destruct pre; [|simpl in Hlen; lia]. intros [= <-]. by exists s_name. }
  destruct pre as [|l rest]; [intros [= <-]; by exists s_name|].
  simpl in Hlen. rewrite parse_lines_cons.
  destruct (new_log_step root l s_name w Hpend) as (sn1 & wh & Hstep & _ & Hpend1).
  rewrite (bind_return _ _ _ _ _ Hstep). intros Hrun.
  assert (Hgo : forall sn2 rest2 w2,
            (length rest2 <= n)%nat ->
            (forall s, sn2 = Some s -> s ∈ dom (picard_dupMetrics_data w2)) ->
            parse_lines root sn2 rest2 w2 = (Return tt, w1) ->
            (forall post,
               parse_lines root s_name ((l :: rest) ++ post) w
                 = parse_lines root sn2 (rest2 ++ post) w2) ->
            exists pending,
              (forall post,
                 parse_lines root s_name ((l :: rest) ++ post) w
                   = parse_lines root pending post w1) ∧
              (forall s, pending = Some s -> s ∈ dom (picard_dupMetrics_data w1))).
  { intros sn2 rest2 w2 Hlen2 Hpend2 Hrun2 Heq.
    destruct (IH _ _ _ _ Hlen2 Hpend2 Hrun2) as (p & Hp & Hinv).
    exists p. split; [|done]. intros post. by rewrite Heq, Hp. }
  assert (Hhead : forall post,
            parse_lines root s_name ((l :: rest) ++ post) w =
            match sn1 with
            | Some s =>
                if is_metrics_class l then
                  match rest ++ post with
                  | keys :: vals :: rest' =>
                      bind (store_fields s (PyStr.split_tab vals) 0 (PyStr.split_tab keys))
                           (fun _ => parse_lines root None rest')
                  | _ => raise StopIteration
                  end
                else parse_lines root (Some s) (rest ++ post)
            | None => parse_lines root None (rest ++ post)
            end wh).
  { intros post. rewrite <- app_comm_cons, parse_lines_cons.
    by rewrite (bind_return _ _ _ _ _ Hstep). }
  destruct sn1 as [s|].
  2:{ apply (Hgo None rest wh); [lia|done|done|]. intros post. by rewrite Hhead. }
  destruct (is_metrics_class l) eqn:Hcls.
  2:{ apply (Hgo (Some s) rest wh); [lia|done|done|]. intros post. by rewrite Hhead. }
  destruct rest as [|keys [|vals rest']]; [discriminate Hrun..|].
  unfold bind in Hrun.
  destruct (store_fields s (PyStr.split_tab vals) 0 (PyStr.split_tab keys) wh)
    as [[[]|e] w2] eqn:Hst; [|discriminate Hrun].
  apply (Hgo None rest' w2); [simpl in Hlen; lia|done|done|].
  intros post. rewrite Hhead. cbn [app]. unfold bind at 1. by rewrite Hst.
Qed.

(** An entry that the scan leaves and that was not there before comes
    from a line that the loop took and that names its sample: the scan of
    the lines before that line returns. *)
Lemma parse_lines_origin root n :
  forall lines s_name w r w' s,
    (length lines <= n)%nat ->
    (forall s0, s_name = Some s0 -> s0 ∈ dom (picard_dupMetrics_data w)) ->
    parse_lines root s_name lines w = (r, w') ->
    s ∈ dom (picard_dupMetrics_data w') ->
    s ∈ dom (picard_dupMetrics_data w) ∨
    exists pre l post w1,
      lines = pre ++ l :: post ∧
      parse_lines root s_name pre w = (Return tt, w1) ∧
      names_sample root l s.
Proof.
  induction n as [|n IH]; intros lines s_name w r w' s Hlen Hpend.
  { destruct lines; [|simpl in Hlen; lia]. intros [= <- <-]. by left. }
  destruct lines as [|l rest]; [intros [= <- <-]; by left|].
  simpl in Hlen. rewrite parse_lines_cons.
  destruct (new_log_step root l s_name w Hpend) as (sn1 & wh & Hstep & Hdom & Hpend1).
  rewrite (bind_return _ _ _ _ _ Hstep). intros Hrun Hs.
  (* an entry that is there after the head of the body *)
  assert (Hhere : s ∈ dom (picard_dupMetrics_data wh) ->
            s ∈ dom (picard_dupMetrics_data w) ∨
            exists pre l0 post w1,
              l :: rest = pre ++ l0 :: post ∧
              parse_lines root s_name pre w = (Return tt, w1) ∧
              names_sample root l0 s).
  { intros [Hw|Hn]%Hdom; [by left|]. right. by exists [], l, rest, w. }
  (* an entry that comes from the scan of later lines *)
  assert (Hgo : forall sn2 skipped rest2 w2,
            (length rest2 <= n)%nat ->
            rest = skipped ++ rest2 ->
            (forall s0, sn2 = Some s0 -> s0 ∈ dom (picard_dupMetrics_data w2)) ->
            dom (picard_dupMetrics_data w2) = dom (picard_dupMetrics_data wh) ->
            (forall pre w1,
               parse_lines root sn2 pre w2 = (Return tt, w1) ->
               parse_lines root s_name (l :: skipped ++ pre) w = (Return tt, w1)) ->
            parse_lines root sn2 rest2 w2 = (r, w') ->
            s ∈ dom (picard_dupMetrics_data w) ∨
            exists pre l0 post w1,
              l :: rest = pre ++ l0 :: post ∧
              parse_lines root s_name pre w = (Return tt, w1) ∧
              names_sample root l0 s).
  { intros sn2 skipped rest2 w2 Hlen2 Hrest Hpend2 Hdom2 Hpre Hrun2.
    destruct (IH _ _ _ _ _ s Hlen2 Hpend2 Hrun2 Hs)
      as [Hin|(pre & l0 & post & w1 & -> & Hscan & Hn)].
    - apply Hhere. by rewrite <- Hdom2.
    - right. exists (l :: skipped ++ pre), l0, post, w1.
      split; [|split; [by apply Hpre|done]].
      rewrite Hrest. by rewrite <- app_comm_cons, <- app_assoc. }
  destruct sn1 as [s1|].
  2:{ apply (Hgo None [] rest wh); [lia|done|done|done| |done].
      intros pre w1 Hscan. simpl app.
      by rewrite parse_lines_cons, (bind_return _ _ _ _ _ Hstep). }
  destruct (is_metrics_class l) eqn:Hcls.
  2:{ apply (Hgo (Some s1) [] rest wh); [lia|done|done|done| |done].
      intros pre w1 Hscan. simpl app.
      by rewrite parse_lines_cons, (bind_return _ _ _ _ _ Hstep), Hcls. }
  destruct rest as [|keys [|vals rest']].
  1,2: injection Hrun as _ <-; by apply Hhere.
  unfold bind in Hrun.
  destruct (store_fields s1 (PyStr.split_tab vals) 0 (PyStr.split_tab keys) wh)
    as [[[]|e] w2] eqn:Hst.
  - apply (Hgo None [keys; vals] rest' w2); [simpl in Hlen; lia|done|done| | |done].
    + by eapply store_fields_dom.
    + intros pre w1 Hscan. simpl app.
      rewrite parse_lines_cons, (bind_return _ _ _ _ _ Hstep), Hcls.
      unfold bind. by rewrite Hst.
  - injection Hrun as _ <-. apply Hhere.
    by rewrite <- (store_fields_dom _ _ _ _ _ _ _ Hst).
Qed.

(** C3 (as amended): while a log is scanned, an entry comes into the
    top-level map when the loop takes a line that starts a log and names its
    sample, and only then.  At every such line -- the first of the log or a
    later one, whatever was pending -- the entry of the sample is set to an
    empty [dict], created or reset, before any header row or value row is
    read and whether or not one ever is; the rest of the scan runs from
    that world with the sample pending.  The entry is then filled from the
    header row and the value row after the next metrics-class line, and
    stays empty when the log ends or another log starts before such a line.
    An entry that is there is never removed, at no point of the scan and
    whether the scan ends normally or with an exception, and the entry of a
    sample that no line of the log names is not changed. *)
Theorem entry_lifecycle f w :
  let root := f_root f in
  let scan := fun lines => parse_picard_dupMetrics clean_s_name (mk_logfile root lines) in
  let w' := (parse_picard_dupMetrics clean_s_name f w).2 in
  (forall pre post w1,
     f_lines f = pre ++ post -> scan pre w = (Return tt, w1) ->
     dom (picard_dupMetrics_data w) ⊆ dom (picard_dupMetrics_data w1) ∧
     dom (picard_dupMetrics_data w1) ⊆ dom (picard_dupMetrics_data w')) ∧
  (forall s, s ∈ dom (picard_dupMetrics_data w') ->
     s ∈ dom (picard_dupMetrics_data w) ∨
     exists pre l post w1,
       f_lines f = pre ++ l :: post ∧ scan pre w = (Return tt, w1) ∧
       names_sample root l s) ∧
  (forall pre l post w1 s,
     f_lines f = pre ++ l :: post -> scan pre w = (Return tt, w1) ->
     names_sample root l s ->
     (scan (pre ++ [l]) w).2 = reset_entry s w1 ∧
     picard_dupMetrics_data (reset_entry s w1) = <[s := ∅]> (picard_dupMetrics_data w1) ∧
     parse_picard_dupMetrics clean_s_name f w =
       (if is_metrics_class l then
          match post with
          | keys :: vals :: rest =>
              bind (store_fields s (PyStr.split_tab vals) 0 (PyStr.split_tab keys))
                   (fun _ => parse_lines root None rest)
          | _ => raise StopIteration
          end
        else parse_lines root (Some s) post) (reset_entry s w1) ∧
     s ∈ dom (picard_dupMetrics_data w')) ∧
  (forall pre l mid cls keys vals post w1 s,
     f_lines f = pre ++ l :: mid ++ cls :: keys :: vals :: post ->
     scan pre w = (Return tt, w1) ->
     names_sample root l s ->
     is_metrics_class l = false ->
     forallb is_filler mid = true ->
     is_metrics_class cls = true ->
     is_new_log cls = false ->
     (length (PyStr.split_tab keys) <= length (PyStr.split_tab vals))%nat ->
     let m := Spec.positional_zip (PyStr.split_tab keys) (PyStr.split_tab vals) in
     let w2 := set_data (<[s := m]> (picard_dupMetrics_data w1)) (reset_entry s w1) in
     scan (pre ++ l :: mid ++ [cls; keys; vals]) w = (Return tt, w2) ∧
     parse_picard_dupMetrics clean_s_name f w = parse_lines root None post w2 ∧
     ((forall l', l' ∈ post -> ¬ names_sample root l' s) ->
      picard_dupMetrics_data w' !! s = Some m)) ∧
  (forall pre l mid post w1 s,
     f_lines f = pre ++ l :: mid ++ post ->
     scan pre w = (Return tt, w1) ->
     names_sample root l s ->
     is_metrics_class l = false ->
     forallb is_filler mid = true ->
     (post = [] ∨ exists l2 rest, post = l2 :: rest ∧ is_new_log l2 = true) ->
     (forall l', l' ∈ post -> ¬ names_sample root l' s) ->
     picard_dupMetrics_data w' !! s = Some ∅) ∧
  (forall s, (forall l, l ∈ f_lines f -> ¬ names_sample root l s) ->
     picard_dupMetrics_data w' !! s = picard_dupMetrics_data w !! s).
Proof.
  intros root scan w'. subst scan w'. unfold parse_picard_dupMetrics. cbn [f_root f_lines].
  fold root.
  assert (Hnone : forall w0 : world,
            forall s, @None string = Some s -> s ∈ dom (picard_dupMetrics_data w0))
    by done.
  (* the scan of the whole log, from the point a prefix of it has reached *)
  assert (Hcut : forall pre post w1,
            f_lines f = pre ++ post ->
            parse_lines root None pre w = (Return tt, w1) ->
            exists pending,
              parse_lines root None (f_lines f) w = parse_lines root pending post w1 ∧
              (forall post', parse_lines root None (pre ++ post') w
                             = parse_lines root pending post' w1) ∧
              (forall s, pending = Some s -> s ∈ dom (picard_dupMetrics_data w1))).
  { intros pre post w1 Hf Hpre.
    destruct (parse_lines_prefix root (length pre) _ _ _ _ (Nat.le_refl _) (Hnone w) Hpre)
      as (p & Hp & Hinv).
    exists p. split; [by rewrite Hf, Hp|done]. }
  (* the scan at a line that names a sample *)
  assert (Hat : forall pre l post w1 s,
            parse_lines root None pre w = (Return tt, w1) ->
            names_sample root l s ->
            parse_lines root None (pre ++ l :: post) w =
            (if is_metrics_class l then
               match post with
               | keys :: vals :: rest =>
                   bind (store_fields s (PyStr.split_tab vals) 0 (PyStr.split_tab keys))
                        (fun _ => parse_lines root None rest)
               | _ => raise StopIteration
               end
             else parse_lines root (Some s) post) (reset_entry s w1)).
  { intros pre l post w1 s Hpre Hn.
    destruct (parse_lines_prefix root (length pre) _ _ _ _ (Nat.le_refl _) (Hnone w) Hpre)
      as (p & Hp & _).
    rewrite Hp. by apply parse_lines_marker. }
  destruct (parse_lines root None (f_lines f) w) as [r w'] eqn:Hrun. cbn [snd].
  destruct (parse_lines_entries root (length (f_lines f)) _ _ _ _ _
              (Nat.le_refl _) (Hnone w) Hrun) as (Hmono & _ & _ & _).
  split; [|split; [|split; [|split; [|split]]]].
  - intros pre post w1 Hf Hpre.
    destruct (Hcut pre post w1 Hf Hpre) as (p & Hp & _ & Hinv).
    split.
    + by destruct (parse_lines_entries root (length pre) _ _ _ _ _
                     (Nat.le_refl _) (Hnone w) Hpre) as (? & _).
    + symmetry in Hp.
      by destruct (parse_lines_entries root (length post) _ _ _ _ _
                     (Nat.le_refl _) Hinv Hp) as (? & _).
  - intros s Hs.
    by apply (parse_lines_origin root (length (f_lines f)) _ _ _ _ _ s
                (Nat.le_refl _) (Hnone w) Hrun).
  - intros pre l post w1 s Hf Hpre Hn.
    pose proof (Hat pre l post w1 s Hpre Hn) as Hfull. rewrite <- Hf, Hrun in Hfull.
    split; [|split; [by apply data_reset_entry|split; [exact Hfull|]]].
    + rewrite (Hat pre l [] w1 s Hpre Hn). by destruct (is_metrics_class l).
    + assert (Hin : s ∈ dom (picard_dupMetrics_data (reset_entry s w1))).
      { rewrite data_reset_entry, dom_insert_L. set_solver. }
      destruct (is_metrics_class l).
      * destruct post as [|keys [|vals rest]].
        1,2: injection Hfull as _ ->; exact Hin.
        unfold bind in Hfull.
        destruct (store_fields s (PyStr.split_tab vals) 0 (PyStr.split_tab keys)
                    (reset_entry s w1)) as [[[]|e] w2] eqn:Hst.
        -- symmetry in Hfull.
           destruct (parse_lines_entries root (length rest) _ _ _ _ _
                       (Nat.le_refl _) (Hnone w2) Hfull) as (Hm2 & _).
           apply Hm2. by rewrite (store_fields_dom _ _ _ _ _ _ _ Hst).
        -- injection Hfull as _ ->. by rewrite (store_fields_dom _ _ _ _ _ _ _ Hst).
      * symmetry in Hfull.
        assert (Hp1 : forall s0, Some s = Some s0 ->
                  s0 ∈ dom (picard_dupMetrics_data (reset_entry s w1)))
          by (by intros s0 [= <-]).
        destruct (parse_lines_entries root (length post) _ _ _ _ _
                    (Nat.le_refl _) Hp1 Hfull) as (Hm2 & _).
        by apply Hm2.
  - intros pre l mid cls keys vals post w1 s Hf Hpre Hn Hnc Hmid Hcc Hcn Hlen.
    set (m := Spec.positional_zip (PyStr.split_tab keys) (PyStr.split_tab vals)).
    set (w2 := set_data (<[s := m]> (picard_dupMetrics_data w1)) (reset_entry s w1)).
    assert (Hblock : forall post',
              parse_lines root None (pre ++ l :: mid ++ cls :: keys :: vals :: post') w
                = parse_lines root None post' w2).
    { intros post'. rewrite (Hat _ _ _ _ _ Hpre Hn), Hnc.
      rewrite parse_lines_fillers by done.
      rewrite parse_lines_cons, Hcn, Hcc. unfold bind at 1, ret.
      assert (Hempty : picard_dupMetrics_data (reset_entry s w1) !! s = Some ∅)
        by (by rewrite data_reset_entry, lookup_insert_eq).
      erewrite bind_return; [reflexivity|].
      rewrite (store_fields_positional_zip _ _ _ _ Hempty Hlen).
      subst w2 m. by rewrite data_reset_entry, insert_insert_eq. }
    split; [exact (Hblock [])|].
    rewrite Hf, Hblock in Hrun.
    split; [by symmetry|].
    intros Hpost.
    rewrite (parse_lines_frame root (length post) _ _ _ _ _ s (Nat.le_refl _) Hrun)
      by done.
    subst w2. by rewrite data_set_data, lookup_insert_eq.
  - intros pre l mid post w1 s Hf Hpre Hn Hnc Hmid Hpost Hnames.
    rewrite Hf, (Hat _ _ _ _ _ Hpre Hn), Hnc, parse_lines_fillers in Hrun by done.
    assert (Hempty : picard_dupMetrics_data (reset_entry s w1) !! s = Some ∅)
      by (by rewrite data_reset_entry, lookup_insert_eq).
    destruct Hpost as [->|(l2 & rest & -> & Hnew)].
    + injection Hrun as _ <-. exact Hempty.
    + rewrite parse_lines_new_log in Hrun by done.
      by rewrite (parse_lines_frame root (length (l2 :: rest)) _ _ _ _ _ s
                    (Nat.le_refl _) Hrun).
  - intros s Hnames.
    by eapply (parse_lines_frame root (length (f_lines f))).
Qed.

End Lifecycle.

(** *** Derived fields *)

Lemma derive_field_outcome sn t a b w m :
  picard_dupMetrics_data w !! sn = Some m ->
  (exists x y,
     m !! a = Some (VFloat x) ∧ m !! b = Some (VFloat y) ∧
     derive_field sn t a b w =
       (Return tt,
        set_data (<[sn := <[t := VFloat (x - y)%float]> m]> (picard_dupMetrics_data w)) w))
  ∨ (exists e, Spec.subtraction_fails m a b e ∧
               derive_field sn t a b w = (Raise e, w)).
Proof.
  intros Hs. unfold derive_field, Spec.subtraction_fails.
  destruct (m !! a) as [x|] eqn:Ha.
  2:{ right. exists KeyError. split; [left; eauto|].
      apply bind_raise. by eapply metric_getitem_none. }
  rewrite (bind_return _ _ _ _ _ (metric_getitem_some _ _ _ _ _ Hs Ha)).
  destruct (m !! b) as [y|] eqn:Hb.
  2:{ right. exists KeyError. split; [left; eauto|].
      apply bind_raise. by eapply metric_getitem_none. }
  rewrite (bind_return _ _ _ _ _ (metric_getitem_some _ _ _ _ _ Hs Hb)).
  destruct x as [x|x], y as [y|y];
    try (right; exists TypeError; split; [right; eauto 6|reflexivity]).
  left. exists x, y. split; [done|]. split; [done|].
  unfold bind, lift, py_sub. by rewrite (metric_setitem_some _ _ _ _ _ Hs).
Qed.

Lemma derive_field_no_entry sn t a b w :
  picard_dupMetrics_data w !! sn = None ->
  derive_field sn t a b w = (Raise KeyError, w).
Proof.
  intros Hs. unfold derive_field, metric_getitem, bind, gets, lift, dict_getitem.
  by rewrite Hs.
Qed.

(** The four ways the body of the loop can end for a sample that has an
    entry: at the first, second or third statement with an exception, the
    fields of the statements before it added; or normally, with all three. *)
Lemma derive_sample_outcomes sn w m :
  picard_dupMetrics_data w !! sn = Some m ->
  let d := picard_dupMetrics_data w in
  (exists e, Spec.subtraction_fails m "UNPAIRED_READS_EXAMINED" "UNPAIRED_READ_DUPLICATES" e ∧
     derive_sample sn w = (Raise e, w))
  ∨ (exists ue ud e,
       m !! "UNPAIRED_READS_EXAMINED" = Some (VFloat ue) ∧
       m !! "UNPAIRED_READ_DUPLICATES" = Some (VFloat ud) ∧
       Spec.subtraction_fails m "READ_PAIR_DUPLICATES" "READ_PAIR_OPTICAL_DUPLICATES" e ∧
       derive_sample sn w =
         (Raise e, set_data (<[sn := <["UNPAIRED_READ_UNIQUE" := VFloat (ue - ud)%float]> m]> d) w))
  ∨ (exists ue ud pd po e,
       m !! "UNPAIRED_READS_EXAMINED" = Some (VFloat ue) ∧
       m !! "UNPAIRED_READ_DUPLICATES" = Some (VFloat ud) ∧
       m !! "READ_PAIR_DUPLICATES" = Some (VFloat pd) ∧
       m !! "READ_PAIR_OPTICAL_DUPLICATES" = Some (VFloat po) ∧
       Spec.subtraction_fails m "READ_PAIRS_EXAMINED" "READ_PAIR_DUPLICATES" e ∧
       derive_sample sn w =
         (Raise e,
          set_data (<[sn := <["READ_PAIR_NOT_OPTICAL_DUPLICATES" := VFloat (pd - po)%float]>
                              (<["UNPAIRED_READ_UNIQUE" := VFloat (ue - ud)%float]> m)]> d) w))
  ∨ (exists ue ud pd po pe,
       Spec.has_sources m ue ud pd po pe ∧
       derive_sample sn w =
         (Return tt, set_data (<[sn := Spec.with_derived m ue ud pd po pe]> d) w)).
Proof.
  intros Hs d. unfold derive_sample.
  destruct (derive_field_outcome sn "UNPAIRED_READ_UNIQUE" "UNPAIRED_READS_EXAMINED"
              "UNPAIRED_READ_DUPLICATES" w m Hs) as [(ue & ud & Hue & Hud & H1)|(e & Hf & H1)].
  2:{ left. exists e. split; [done|]. by apply bind_raise. }
  right. rewrite (bind_return _ _ _ _ _ H1). clear H1.
  set (m1 := <["UNPAIRED_READ_UNIQUE" := VFloat (ue - ud)%float]> m).
  set (w1 := set_data (<[sn := m1]> (picard_dupMetrics_data w)) w).
  assert (Hs1 : picard_dupMetrics_data w1 !! sn = Some m1)
    by (subst w1; by rewrite data_set_data, lookup_insert_eq).
  destruct (derive_field_outcome sn "READ_PAIR_NOT_OPTICAL_DUPLICATES" "READ_PAIR_DUPLICATES"
              "READ_PAIR_OPTICAL_DUPLICATES" w1 m1 Hs1) as [(pd & po & Hpd & Hpo & H2)|(e & Hf & H2)].
  2:{ left. exists ue, ud, e. split; [done|]. split; [done|]. split.
      - unfold Spec.subtraction_fails, m1 in *.
        by rewrite !lookup_insert_ne in Hf by done.
      - by apply bind_raise. }
  right. rewrite (bind_return _ _ _ _ _ H2). clear H2.
  unfold m1 in Hpd, Hpo. rewrite lookup_insert_ne in Hpd, Hpo by done.
  set (m2 := <["READ_PAIR_NOT_OPTICAL_DUPLICATES" := VFloat (pd - po)%float]> m1).
  set (w2 := set_data (<[sn := m2]> (picard_dupMetrics_data w1)) w1).
  assert (Hw2 : w2 = set_data (<[sn := m2]> (picard_dupMetrics_data w)) w).
  { subst w2 w1. by rewrite data_set_data, set_data_set_data, insert_insert_eq. }
  assert (Hs2 : picard_dupMetrics_data w2 !! sn = Some m2)
    by (rewrite Hw2; by rewrite data_set_data, lookup_insert_eq).
  destruct (derive_field_outcome sn "READ_PAIR_UNIQUE" "READ_PAIRS_EXAMINED"
              "READ_PAIR_DUPLICATES" w2 m2 Hs2) as [(pe & pd' & Hpe & Hpd' & H3)|(e & Hf & H3)].
  2:{ left. exists ue, ud, pd, po, e. repeat (split; [done|]). split.
      - unfold Spec.subtraction_fails, m2, m1 in *.
        by rewrite !lookup_insert_ne in Hf by done.
      - rewrite H3, Hw2. reflexivity. }
  right. unfold m2, m1 in Hpe, Hpd'. rewrite !lookup_insert_ne in Hpe, Hpd' by done.
  assert (pd' = pd) as -> by congruence.
  exists ue, ud, pd, po, pe. split; [by repeat split|].
  rewrite H3, Hw2. by rewrite data_set_data, set_data_set_data, insert_insert_eq.
Qed.

Lemma subtraction_fails_exn m a b e :
  Spec.subtraction_fails m a b e -> e = KeyError ∨ e = TypeError.
Proof. intros [[-> _]|[-> _]]; eauto. Qed.

Lemma elem_of_source_fields k :
  k ∈ Spec.source_fields ->
  k = "UNPAIRED_READS_EXAMINED"%string ∨ k = "UNPAIRED_READ_DUPLICATES"%string ∨
  k = "READ_PAIR_DUPLICATES"%string ∨ k = "READ_PAIR_OPTICAL_DUPLICATES"%string ∨
  k = "READ_PAIRS_EXAMINED"%string.
Proof. unfold Spec.source_fields. set_solver. Qed.

(** A source field is not a derived field. *)
Lemma source_not_derived k : k ∈ Spec.source_fields -> k ∉ Spec.derived_fields.
Proof.
  intros Hk%elem_of_source_fields. unfold Spec.derived_fields.
  rewrite !not_elem_of_cons. destruct Hk as [->|[->|[->|[->| ->]]]];
    repeat split; try done; apply not_elem_of_nil.
Qed.

(** Two floats subtract. *)
Lemma subtraction_fails_floats m a b e x y :
  m !! a = Some (VFloat x) -> m !! b = Some (VFloat y) ->
  ¬ Spec.subtraction_fails m a b e.
Proof.
  intros Ha Hb [[_ [Hn|Hn]]|[_ (vx & vy & Hx & Hy & Hsub)]]; try congruence.
  rewrite Ha in Hx. rewrite Hb in Hy. by simplify_eq.
Qed.

Lemma derive_sample_no_entry sn w :
  picard_dupMetrics_data w !! sn = None ->
  derive_sample sn w = (Raise KeyError, w).
Proof.
  intros Hs. unfold derive_sample. apply bind_raise. by apply derive_field_no_entry.
Qed.

(** The body of the loop touches the entry of its own sample only, and
    raises nothing but [KeyError] and [TypeError]. *)
Lemma derive_sample_frame sn w r w' :
  derive_sample sn w = (r, w') ->
  (forall s, s ≠ sn -> picard_dupMetrics_data w' !! s = picard_dupMetrics_data w !! s) ∧
  (forall e, r = Raise e -> e = KeyError ∨ e = TypeError).
Proof.
  destruct (picard_dupMetrics_data w !! sn) as [m|] eqn:Hs.
  - destruct (derive_sample_outcomes sn w m Hs)
      as [(e & Hf & ->)|[(ue & ud & e & _ & _ & Hf & ->)|
          [(ue & ud & pd & po & e & _ & _ & _ & _ & Hf & ->)|
           (ue & ud & pd & po & pe & _ & ->)]]];
      intros [= <- <-]; rewrite ?data_set_data;
      (split; [intros s Hne; by rewrite ?lookup_insert_ne|]);
      try (intros e' [= <-]; by eapply subtraction_fails_exn); done.
  - rewrite (derive_sample_no_entry _ _ Hs). intros [= <- <-].
    split; [done|]. intros e [= <-]. by left.
Qed.

(** A sample with numbers for the five source fields: the body of the
    loop ends normally with the three fields set. *)
Lemma derive_sample_sources sn w m ue ud pd po pe :
  picard_dupMetrics_data w !! sn = Some m ->
  Spec.has_sources m ue ud pd po pe ->
  derive_sample sn w =
    (Return tt,
     set_data (<[sn := Spec.with_derived m ue ud pd po pe]> (picard_dupMetrics_data w)) w).
Proof.
  intros Hs (Hue & Hud & Hpd & Hpo & Hpe).
  destruct (derive_sample_outcomes sn w m Hs)
    as [(e & Hf & _)|[(? & ? & e & _ & _ & Hf & _)|
        [(? & ? & ? & ? & e & _ & _ & _ & _ & Hf & _)|
         (ue' & ud' & pd' & po' & pe' & (Hue' & Hud' & Hpd' & Hpo' & Hpe') & Hrun)]]].
  1-3: exfalso; eapply subtraction_fails_floats; [| |exact Hf]; eassumption.
  assert (ue' = ue) as -> by congruence. assert (ud' = ud) as -> by congruence.
  assert (pd' = pd) as -> by congruence. assert (po' = po) as -> by congruence.
  assert (pe' = pe) as -> by congruence.
  exact Hrun.
Qed.

(** C1: for a sample whose metrics hold numbers for the five source
    fields, the body of the derived-field loop ends normally and the
    sample's metrics are the old ones with exactly three fields set, by the
    three subtractions in their order, nothing clamped:
    [UNPAIRED_READ_UNIQUE], [READ_PAIR_NOT_OPTICAL_DUPLICATES] and
    [READ_PAIR_UNIQUE]; the inputs 100, 10, 40, 5, 200 give 90, 35, 160, and
    the inputs 10, 100, 5, 40, 1 give the negative -90, -35, -4. *)
Theorem derived_fields_added sn w m ue ud pd po pe :
  picard_dupMetrics_data w !! sn = Some m ->
  Spec.has_sources m ue ud pd po pe ->
  exists m',
    derive_sample sn w =
      (Return tt, set_data (<[sn := m']> (picard_dupMetrics_data w)) w) ∧
    m' = <["READ_PAIR_UNIQUE" := VFloat (pe - pd)%float]>
           (<["READ_PAIR_NOT_OPTICAL_DUPLICATES" := VFloat (pd - po)%float]>
              (<["UNPAIRED_READ_UNIQUE" := VFloat (ue - ud)%float]> m)) ∧
    m' !! "UNPAIRED_READ_UNIQUE" = Some (VFloat (ue - ud)%float) ∧
    m' !! "READ_PAIR_NOT_OPTICAL_DUPLICATES" = Some (VFloat (pd - po)%float) ∧
    m' !! "READ_PAIR_UNIQUE" = Some (VFloat (pe - pd)%float) ∧
    (forall k, k ∉ Spec.derived_fields -> m' !! k = m !! k) ∧
    ((ue, ud, pd, po, pe) = (100, 10, 40, 5, 200)%float ->
     m' !! "UNPAIRED_READ_UNIQUE" = Some (VFloat 90) ∧
     m' !! "READ_PAIR_NOT_OPTICAL_DUPLICATES" = Some (VFloat 35) ∧
     m' !! "READ_PAIR_UNIQUE" = Some (VFloat 160)) ∧
    ((ue, ud, pd, po, pe) = (10, 100, 5, 40, 1)%float ->
     m' !! "UNPAIRED_READ_UNIQUE" = Some (VFloat (-90)) ∧
     m' !! "READ_PAIR_NOT_OPTICAL_DUPLICATES" = Some (VFloat (-35)) ∧
     m' !! "READ_PAIR_UNIQUE" = Some (VFloat (-4))).
Proof.
  intros Hs Hsrc. pose proof (derive_sample_sources _ _ _ _ _ _ _ _ Hs Hsrc) as Hrun.
  eexists. split; [exact Hrun|]. unfold Spec.with_derived.
  assert (H1 : (<["READ_PAIR_UNIQUE" := VFloat (pe - pd)%float]>
           (<["READ_PAIR_NOT_OPTICAL_DUPLICATES" := VFloat (pd - po)%float]>
              (<["UNPAIRED_READ_UNIQUE" := VFloat (ue - ud)%float]> m)))
           !! "UNPAIRED_READ_UNIQUE" = Some (VFloat (ue - ud)%float)).
  { by rewrite !lookup_insert_ne, lookup_insert_eq by done. }
  assert (H2 : (<["READ_PAIR_UNIQUE" := VFloat (pe - pd)%float]>
           (<["READ_PAIR_NOT_OPTICAL_DUPLICATES" := VFloat (pd - po)%float]>
              (<["UNPAIRED_READ_UNIQUE" := VFloat (ue - ud)%float]> m)))
           !! "READ_PAIR_NOT_OPTICAL_DUPLICATES" = Some (VFloat (pd - po)%float)).
  { by rewrite lookup_insert_ne, lookup_insert_eq by done. }
  split; [done|]. split; [done|]. split; [done|].
  split; [by rewrite lookup_insert_eq|]. split.
  { intros k Hk. rewrite !lookup_insert_ne; [done|..];
      intros <-; apply Hk; unfold Spec.derived_fields; set_solver. }
  split; intros [= -> -> -> -> ->]; rewrite H1, H2, lookup_insert_eq; done.
Qed.

(** What the body of the loop leaves of a sample's entry when it raises:
    the fields other than the derived ones as they were, no
    [READ_PAIR_UNIQUE] set, and nothing set at all when the first statement
    is the one that fails. *)
Lemma derive_sample_raise sn w m e w' :
  picard_dupMetrics_data w !! sn = Some m ->
  derive_sample sn w = (Raise e, w') ->
  exists m',
    picard_dupMetrics_data w' !! sn = Some m' ∧
    (forall k, k ∉ Spec.derived_fields -> m' !! k = m !! k) ∧
    m' !! "READ_PAIR_UNIQUE" = m !! "READ_PAIR_UNIQUE" ∧
    (m !! "UNPAIRED_READS_EXAMINED" = None ∨ m !! "UNPAIRED_READ_DUPLICATES" = None ->
     m' = m) ∧
    (forall ue ud,
       m !! "UNPAIRED_READS_EXAMINED" = Some (VFloat ue) ->
       m !! "UNPAIRED_READ_DUPLICATES" = Some (VFloat ud) ->
       m' !! "UNPAIRED_READ_UNIQUE" = Some (VFloat (ue - ud)%float)).
Proof.
  intros Hs.
  assert (Hnd : forall k (v : value) (m0 : gmap string value),
            k ∉ Spec.derived_fields ->
            (<["UNPAIRED_READ_UNIQUE" := v]> m0) !! k = m0 !! k ∧
            (<["READ_PAIR_NOT_OPTICAL_DUPLICATES" := v]> m0) !! k = m0 !! k).
  { intros k v m0 Hk. split; apply lookup_insert_ne; intros <-; apply Hk;
      unfold Spec.derived_fields; set_solver. }
  destruct (derive_sample_outcomes sn w m Hs)
    as [(e0 & Hf & ->)|[(ue & ud & e0 & Hue & Hud & Hf & ->)|
        [(ue & ud & pd & po & e0 & Hue & Hud & _ & _ & Hf & ->)|
         (ue & ud & pd & po & pe & _ & ->)]]];
    intros [= <- <-]; rewrite ?data_set_data, ?lookup_insert_eq.
  - exists m. split; [done|]. split; [done|]. split; [done|]. split; [done|].
    intros ue ud Hue Hud. by destruct (subtraction_fails_floats _ _ _ _ _ _ Hue Hud Hf).
  - eexists. split; [done|]. split; [intros k Hk; by apply Hnd|].
    split; [by rewrite lookup_insert_ne|]. split; [intros [?|?]; congruence|].
    intros ue' ud' ? ?. rewrite lookup_insert_eq. congruence.
  - eexists. split; [done|]. split.
    { intros k Hk. destruct (Hnd k (VFloat (pd - po)%float)
        (<["UNPAIRED_READ_UNIQUE" := VFloat (ue - ud)%float]> m) Hk) as [_ ->].
      by apply Hnd. }
    split; [by rewrite !lookup_insert_ne|]. split; [intros [?|?]; congruence|].
    intros ue' ud' ? ?. rewrite lookup_insert_ne, lookup_insert_eq by done. congruence.
Qed.

(** A sample that lacks a source field: the body of the loop raises, at
    a subtraction of two source fields that cannot be evaluated. *)
Lemma derive_sample_missing sn w m k :
  picard_dupMetrics_data w !! sn = Some m ->
  k ∈ Spec.source_fields ->
  m !! k = None ->
  exists e w',
    derive_sample sn w = (Raise e, w') ∧
    exists a b, a ∈ Spec.source_fields ∧ b ∈ Spec.source_fields ∧
                Spec.subtraction_fails m a b e.
Proof.
  intros Hs Hk Hnone. unfold Spec.source_fields.
  destruct (derive_sample_outcomes sn w m Hs)
    as [(e & Hf & Hrun)|[(ue & ud & e & _ & _ & Hf & Hrun)|
        [(ue & ud & pd & po & e & _ & _ & _ & _ & Hf & Hrun)|
         (ue & ud & pd & po & pe & (Hue & Hud & Hpd & Hpo & Hpe) & _)]]].
  1-3: exists e; eexists; split; [exact Hrun|]; eexists _, _;
       split; [|split; [|exact Hf]]; set_solver.
  apply elem_of_source_fields in Hk.
  destruct Hk as [->|[->|[->|[->| ->]]]]; congruence.
Qed.

(** A subtraction that cannot be evaluated, and one that can, as
    [SpecSteps.subtract] sees them. *)
Lemma subtract_fails m a b e :
  Spec.subtraction_fails m a b e -> SpecSteps.subtract m a b = Raise e.
Proof.
  unfold SpecSteps.subtract.
  intros [[-> [Hn|Hn]]|[-> (x & y & Hx & Hy & Hsub)]].
  - by rewrite Hn.
  - rewrite Hn. by destruct (m !! a).
  - by rewrite Hx, Hy.
Qed.

Lemma subtract_floats m a b x y :
  m !! a = Some (VFloat x) -> m !! b = Some (VFloat y) ->
  SpecSteps.subtract m a b = Return (VFloat (x - y)%float).
Proof. unfold SpecSteps.subtract. by intros -> ->. Qed.

(** The body of the loop, for a sample that has an entry, does what the
    three subtractions in their order say: it raises the exception of the
    first statement that cannot be evaluated, or returns, and the entry holds
    the derived fields of the statements before that one. *)
Lemma derive_sample_steps sn w m :
  picard_dupMetrics_data w !! sn = Some m ->
  derive_sample sn w =
    (match (SpecSteps.derive m).2 with Some e => Raise e | None => Return tt end,
     set_data (<[sn := (SpecSteps.derive m).1]> (picard_dupMetrics_data w)) w).
Proof.
  intros Hs. unfold SpecSteps.derive.
  destruct (derive_sample_outcomes sn w m Hs)
    as [(e & Hf & ->)|[(ue & ud & e & Hue & Hud & Hf & ->)|
        [(ue & ud & pd & po & e & Hue & Hud & Hpd & Hpo & Hf & ->)|
         (ue & ud & pd & po & pe & (Hue & Hud & Hpd & Hpo & Hpe) & ->)]]].
  - rewrite (subtract_fails _ _ _ _ Hf). cbn [fst snd].
    by rewrite insert_id, set_data_same.
  - rewrite (subtract_floats _ _ _ _ _ Hue Hud), (subtract_fails _ _ _ _ Hf).
    reflexivity.
  - rewrite (subtract_floats _ _ _ _ _ Hue Hud), (subtract_floats _ _ _ _ _ Hpd Hpo),
      (subtract_fails _ _ _ _ Hf).
    reflexivity.
  - rewrite (subtract_floats _ _ _ _ _ Hue Hud), (subtract_floats _ _ _ _ _ Hpd Hpo),
      (subtract_floats _ _ _ _ _ Hpe Hpd).
    reflexivity.
Qed.

(** A sample that lacks a source field: one of the three statements
    cannot be evaluated, and what the body of the loop raises and leaves is
    what [SpecSteps.derive] says. *)
Lemma derive_sample_missing_steps sn w m k :
  picard_dupMetrics_data w !! sn = Some m ->
  k ∈ Spec.source_fields ->
  m !! k = None ->
  exists e m',
    SpecSteps.derive m = (m', Some e) ∧
    derive_sample sn w =
      (Raise e, set_data (<[sn := m']> (picard_dupMetrics_data w)) w).
Proof.
  intros Hs Hk Hnone.
  destruct (derive_sample_missing _ _ _ _ Hs Hk Hnone) as (e & w' & Hrun & _).
  pose proof (derive_sample_steps _ _ _ Hs) as Hsteps.
  destruct (SpecSteps.derive m) as [m' [e'|]] eqn:Hd; cbn [fst snd] in Hsteps.
  - exists e', m'. split; [reflexivity|exact Hsteps].
  - rewrite Hrun in Hsteps. discriminate Hsteps.
Qed.

(** C7 (as amended): for a sample whose metrics lack one of the five
    source fields, the derivation for that sample never ends normally and
    never puts a zero (or anything) in place of the missing field.  The
    three subtractions run in their fixed order, each looking up its two
    operands before it subtracts, and the first statement that cannot be
    evaluated decides the exception: [KeyError] when one of its operands is
    missing, [TypeError] when both are there and one is a text.  So a
    missing operand of the first statement is always a [KeyError], also
    with a text as the other operand; when the source fields that are there
    are all numbers the exception is the [KeyError]; and the entry keeps
    the derived fields of the statements before the failing one, and only
    those. *)
Theorem missing_source_field_raises sn w m k :
  picard_dupMetrics_data w !! sn = Some m ->
  k ∈ Spec.source_fields ->
  m !! k = None ->
  exists e w' m',
    derive_sample sn w = (Raise e, w') ∧
    SpecSteps.derive m = (m', Some e) ∧
    w' = set_data (<[sn := m']> (picard_dupMetrics_data w)) w ∧
    (e = KeyError ∨ e = TypeError) ∧
    ((forall k' v, k' ∈ Spec.source_fields -> m !! k' = Some v -> exists x, v = VFloat x) ->
     e = KeyError) ∧
    (m !! "UNPAIRED_READS_EXAMINED" = None ∨ m !! "UNPAIRED_READ_DUPLICATES" = None ->
     e = KeyError ∧ m' = m) ∧
    picard_dupMetrics_data w' !! sn = Some m' ∧
    m' !! k = None ∧
    m' !! "READ_PAIR_UNIQUE" = m !! "READ_PAIR_UNIQUE".
Proof.
  intros Hs Hk Hnone.
  destruct (derive_sample_missing_steps _ _ _ _ Hs Hk Hnone) as (e & m' & Hd & Hrun).
  destruct (derive_sample_missing _ _ _ _ Hs Hk Hnone)
    as (e0 & w0 & Hrun0 & a & b & Ha & Hb & Hf).
  assert (e0 = e) as -> by congruence.
  destruct (derive_sample_raise _ _ _ _ _ Hs Hrun) as (m0 & Hm0 & Hkeep & Hrpu & Hfirst & _).
  rewrite data_set_data, lookup_insert_eq in Hm0. injection Hm0 as <-.
  exists e, (set_data (<[sn := m']> (picard_dupMetrics_data w)) w), m'.
  split; [exact Hrun|]. split; [exact Hd|]. split; [reflexivity|].
  split; [by eapply subtraction_fails_exn|].
  split; [|split; [|split; [|split]]].
  - intros Hnum. destruct Hf as [[-> _]|[_ (vx & vy & Hx & Hy & Hsub)]]; [done|].
    destruct (Hnum _ _ Ha Hx) as [x ->]. destruct (Hnum _ _ Hb Hy) as [y ->].
    discriminate Hsub.
  - intros Hmiss. split; [|by apply Hfirst].
    unfold SpecSteps.derive, SpecSteps.subtract in Hd.
    destruct Hmiss as [Hn|Hn]; rewrite Hn in Hd.
    + by injection Hd as _ <-.
    + destruct (m !! "UNPAIRED_READS_EXAMINED"); by injection Hd as _ <-.
  - by rewrite data_set_data, lookup_insert_eq.
  - rewrite Hkeep; [done|]. by apply source_not_derived.
  - exact Hrpu.
Qed.

(** *** The loop over the samples *)

Lemma for_each_raises {A} (P : exn -> Prop) (body : A -> M unit) xs w e w' :
  (forall x w0 e0 w1, body x w0 = (Raise e0, w1) -> P e0) ->
  for_each xs body w = (Raise e, w') -> P e.
Proof.
  intros Hbody. revert w. induction xs as [|x xs IH]; intros w; simpl; [done|].
  unfold bind. destruct (body x w) as [[[]|e0] w1] eqn:Hx.
  - apply IH.
  - intros [= <- <-]. by eapply Hbody.
Qed.

Lemma has_sources_with_derived m ue ud pd po pe :
  Spec.has_sources m ue ud pd po pe ->
  Spec.has_sources (Spec.with_derived m ue ud pd po pe) ue ud pd po pe.
Proof.
  unfold Spec.has_sources, Spec.with_derived.
  by rewrite !lookup_insert_ne by done.
Qed.

(** Over samples that all have numbers for the five source fields the
    loop runs to its end, in any order, and touches no other sample. *)
Lemma derive_loop_returns order w :
  (forall s, s ∈ order ->
     exists m ue ud pd po pe,
       picard_dupMetrics_data w !! s = Some m ∧ Spec.has_sources m ue ud pd po pe) ->
  exists w',
    for_each order derive_sample w = (Return tt, w') ∧
    (forall s, s ∉ order -> picard_dupMetrics_data w' !! s = picard_dupMetrics_data w !! s).
Proof.
  revert w. induction order as [|s order IH]; intros w Hall.
  - exists w. by split.
  - destruct (Hall s) as (m & ue & ud & pd & po & pe & Hs & Hsrc); [left|].
    pose proof (derive_sample_sources _ _ _ _ _ _ _ _ Hs Hsrc) as Hrun.
    destruct (IH (set_data (<[s := Spec.with_derived m ue ud pd po pe]>
                              (picard_dupMetrics_data w)) w)) as (w' & Hloop & Hframe).
    { intros s' Hs'. rewrite data_set_data.
      destruct (decide (s' = s)) as [->|Hne].
      - rewrite lookup_insert_eq. eexists _, _, _, _, _, _. split; [done|].
        by apply has_sources_with_derived.
      - rewrite lookup_insert_ne by done. apply Hall. by right. }
    exists w'. split.
    + simpl. by rewrite (bind_return _ _ _ _ _ Hrun).
    + intros s' [Hne Hs']%not_elem_of_cons. rewrite Hframe by done.
      by rewrite data_set_data, lookup_insert_ne.
Qed.

(** A sample that lacks a source field stops the loop, wherever it is in
    the order and whatever the other samples hold. *)
Lemma derive_loop_aborts order sn w m k :
  sn ∈ order ->
  picard_dupMetrics_data w !! sn = Some m ->
  k ∈ Spec.source_fields ->
  m !! k = None ->
  exists e w',
    for_each order derive_sample w = (Raise e, w') ∧ (e = KeyError ∨ e = TypeError).
Proof.
  intros Hin Hs Hk Hnone. revert w Hs.
  induction order as [|s order IH]; intros w Hs; [by apply elem_of_nil in Hin|].
  simpl. destruct (decide (s = sn)) as [->|Hne].
  - destruct (derive_sample_missing _ _ _ _ Hs Hk Hnone)
      as (e & w' & Hrun & a & b & _ & _ & Hf).
    exists e, w'. split; [by apply bind_raise|by eapply subtraction_fails_exn].
  - apply elem_of_cons in Hin as [->|Hin]; [done|].
    destruct (derive_sample s w) as [[[]|e] w1] eqn:Hrun.
    + destruct (derive_sample_frame _ _ _ _ Hrun) as [Hframe _].
      destruct (IH Hin w1) as (e & w' & Hloop & He).
      { by rewrite Hframe. }
      exists e, w'. split; [|done]. by rewrite (bind_return _ _ _ _ _ Hrun).
    + destruct (derive_sample_frame _ _ _ _ Hrun) as [_ He].
      exists e, w1. split; [by apply bind_raise|by apply He].
Qed.

Lemma elem_of_dict_keys {V} (d : gmap string V) s :
  s ∈ dict_keys d <-> is_Some (d !! s).
Proof.
  unfold dict_keys. rewrite list_elem_of_fmap. split.
  - intros ([s' v] & -> & Hin). apply elem_of_map_to_list in Hin. eauto.
  - intros [v Hv]. exists (s, v). split; [done|]. by apply elem_of_map_to_list.
Qed.

(** C10 (as amended): when a sample of the map lacks a source field, the
    derived-field loop raises, in whatever order it visits the samples, and
    so does [mark_duplicates_plot]: there is no skipping of the sample.  If
    the samples visited before it all have their five numbers, then the
    exception is the one of the first statement that cannot be evaluated for
    the sample, no sample the loop has not visited gets a derived field, and
    the sample itself is left with exactly the derived fields of the
    statements run before the failing one: none when the first statement
    fails (by a missing operand or by a text), [UNPAIRED_READ_UNIQUE] alone
    when the second fails, that and [READ_PAIR_NOT_OPTICAL_DUPLICATES] when
    the third fails, and [READ_PAIR_UNIQUE] never. *)
Theorem derivation_aborts_run order sn w m k :
  sn ∈ order ->
  picard_dupMetrics_data w !! sn = Some m ->
  k ∈ Spec.source_fields ->
  m !! k = None ->
  (exists e w',
     for_each order derive_sample w = (Raise e, w') ∧ (e = KeyError ∨ e = TypeError)) ∧
  (forall plot_bargraph, exists e w',
     mark_duplicates_plot plot_bargraph w = (Raise e, w')) ∧
  (forall pre post,
     order = pre ++ sn :: post ->
     (forall s, s ∈ pre ->
        exists m0 ue ud pd po pe,
          picard_dupMetrics_data w !! s = Some m0 ∧ Spec.has_sources m0 ue ud pd po pe) ->
     exists e w' m',
       for_each order derive_sample w = (Raise e, w') ∧
       SpecSteps.derive m = (m', Some e) ∧
       (forall s, s ∉ pre -> s ≠ sn ->
          picard_dupMetrics_data w' !! s = picard_dupMetrics_data w !! s) ∧
       picard_dupMetrics_data w' !! sn = Some m' ∧
       (forall f, f ∉ Spec.derived_fields -> m' !! f = m !! f) ∧
       m' !! "READ_PAIR_UNIQUE" = m !! "READ_PAIR_UNIQUE" ∧
       (forall e1,
          SpecSteps.subtract m "UNPAIRED_READS_EXAMINED" "UNPAIRED_READ_DUPLICATES"
            = Raise e1 ->
          e = e1 ∧ m' = m) ∧
       (forall v1 e2,
          SpecSteps.subtract m "UNPAIRED_READS_EXAMINED" "UNPAIRED_READ_DUPLICATES"
            = Return v1 ->
          SpecSteps.subtract m "READ_PAIR_DUPLICATES" "READ_PAIR_OPTICAL_DUPLICATES"
            = Raise e2 ->
          e = e2 ∧ m' = <["UNPAIRED_READ_UNIQUE" := v1]> m) ∧
       (forall v1 v2,
          SpecSteps.subtract m "UNPAIRED_READS_EXAMINED" "UNPAIRED_READ_DUPLICATES"
            = Return v1 ->
          SpecSteps.subtract m "READ_PAIR_DUPLICATES" "READ_PAIR_OPTICAL_DUPLICATES"
            = Return v2 ->
          SpecSteps.subtract m "READ_PAIRS_EXAMINED" "READ_PAIR_DUPLICATES" = Raise e ∧
          m' = <["READ_PAIR_NOT_OPTICAL_DUPLICATES" := v2]>
                 (<["UNPAIRED_READ_UNIQUE" := v1]> m)) ∧
       (m !! "UNPAIRED_READS_EXAMINED" = None ∨ m !! "UNPAIRED_READ_DUPLICATES" = None ->
        m' = m) ∧
       (forall ue ud,
          m !! "UNPAIRED_READS_EXAMINED" = Some (VFloat ue) ->
          m !! "UNPAIRED_READ_DUPLICATES" = Some (VFloat ud) ->
          m' !! "UNPAIRED_READ_UNIQUE" = Some (VFloat (ue - ud)%float))).
Proof.
  intros Hin Hs Hk Hnone. split; [by eapply derive_loop_aborts|]. split.
  - intros plot_bargraph. unfold mark_duplicates_plot.
    destruct (derive_loop_aborts (dict_keys (picard_dupMetrics_data w)) sn w m k)
      as (e & w' & Hloop & _); [|done..|].
    { apply elem_of_dict_keys. eauto. }
    exists e, w'. unfold bind at 1, gets. by apply bind_raise.
  - intros pre post -> Hpre.
    assert (Hsn : sn ∉ pre).
    { intros Hsn. destruct (Hpre sn Hsn) as (m0 & ue & ud & pd & po & pe & Hs0 & Hsrc).
      assert (m0 = m) as -> by congruence.
      destruct Hsrc as (? & ? & ? & ? & ?).
      apply elem_of_source_fields in Hk.
      destruct Hk as [->|[->|[->|[->| ->]]]]; congruence. }
    destruct (derive_loop_returns pre w Hpre) as (w1 & Hloop1 & Hframe1).
    assert (Hs1 : picard_dupMetrics_data w1 !! sn = Some m) by by rewrite Hframe1.
    destruct (derive_sample_missing_steps _ _ _ _ Hs1 Hk Hnone) as (e & m' & Hd & Hrun).
    destruct (derive_sample_raise _ _ _ _ _ Hs1 Hrun)
      as (m0 & Hm0 & Hkeep & Hrpu & Hfirst & Huru).
    rewrite data_set_data, lookup_insert_eq in Hm0. injection Hm0 as <-.
    destruct (derive_sample_frame _ _ _ _ Hrun) as [Hframe _].
    eexists e, _, m'. split.
    { rewrite for_each_app, (bind_return _ _ _ _ _ Hloop1). simpl.
      apply bind_raise. exact Hrun. }
    split; [exact Hd|]. split.
    { intros s Hspre Hne. by rewrite Hframe, Hframe1. }
    split; [by rewrite data_set_data, lookup_insert_eq|].
    split; [exact Hkeep|]. split; [exact Hrpu|].
    split; [|split; [|split; [|split; [exact Hfirst|exact Huru]]]].
    + intros e1 H1. unfold SpecSteps.derive in Hd. rewrite H1 in Hd.
      by injection Hd as <- <-.
    + intros v1 e2 H1 H2. unfold SpecSteps.derive in Hd. rewrite H1, H2 in Hd.
      by injection Hd as <- <-.
    + intros v1 v2 H1 H2. unfold SpecSteps.derive in Hd. rewrite H1, H2 in Hd.
      destruct (SpecSteps.subtract m "READ_PAIRS_EXAMINED" "READ_PAIR_DUPLICATES")
        as [v3|e3]; [discriminate Hd|].
      by injection Hd as <- <-.
Qed.

(** C8: for a sample [sn] whose metrics [m] hold a number [p] under
    [PERCENT_DUPLICATION], the turn of the loop of [picard_stats_table] for
    that sample ends normally and sets, in the row keyed by the sample
    identifier, the cell that shows [p * 100] to one decimal; for [p = 0.25]
    the product is [25.0] and the cell shows [25.0]. *)
Theorem percent_duplication_scalar sn w m p :
  m !! "PERCENT_DUPLICATION" = Some (VFloat p) ->
  exists cell,
    stats_row (sn, m) w =
      (Return tt,
       set_rows (<[sn := <["picard_percent_duplication" := cell]>
                            (default ∅ (general_stats_rows w !! sn))]>
                   (general_stats_rows w)) w) ∧
    cell = ("<td class=" ++ dquote ++ "text-right" ++ dquote ++ ">"
            ++ PyFloat.format_1f (p * 100)%float ++ "%</td>")%string ∧
    (p = 0.25%float ->
     (p * 100)%float = 25%float ∧ PyFloat.format_1f (p * 100)%float = "25.0"%string).
Proof.
  intros Hp. eexists. split; [|split; [reflexivity|]].
  - unfold stats_row, bind, lift, dict_getitem. simpl. rewrite Hp. reflexivity.
  - intros ->. split; [reflexivity|]. vm_compute. reflexivity.
Qed.

(** *** The two loops over a map whose samples are all complete *)

(** Over distinct samples that all have numbers for the five source
    fields, each sample ends with its three derived fields. *)
Lemma derive_loop_values order w :
  NoDup order ->
  (forall s, s ∈ order ->
     exists m ue ud pd po pe,
       picard_dupMetrics_data w !! s = Some m ∧ Spec.has_sources m ue ud pd po pe) ->
  exists w',
    for_each order derive_sample w = (Return tt, w') ∧
    (forall s, s ∉ order -> picard_dupMetrics_data w' !! s = picard_dupMetrics_data w !! s) ∧
    (forall s m ue ud pd po pe,
       s ∈ order -> picard_dupMetrics_data w !! s = Some m ->
       Spec.has_sources m ue ud pd po pe ->
       picard_dupMetrics_data w' !! s = Some (Spec.with_derived m ue ud pd po pe)).
Proof.
  intros Hnd. revert w. induction Hnd as [|s order Hs Hnd IH]; intros w Hall.
  - exists w. split; [done|]. split; [done|]. intros s ? ? ? ? ? ? []%elem_of_nil.
  - destruct (Hall s) as (m & ue & ud & pd & po & pe & Hm & Hsrc); [left|].
    pose proof (derive_sample_sources _ _ _ _ _ _ _ _ Hm Hsrc) as Hrun.
    set (w1 := set_data (<[s := Spec.with_derived m ue ud pd po pe]>
                           (picard_dupMetrics_data w)) w) in *.
    assert (Hother : forall s', s' ∈ order ->
              picard_dupMetrics_data w1 !! s' = picard_dupMetrics_data w !! s').
    { intros s' Hs'. subst w1. rewrite data_set_data, lookup_insert_ne; [done|].
      by intros ->. }
    destruct (IH w1) as (w' & Hloop & Hframe & Hvals).
    { intros s' Hs'. rewrite Hother by done. apply Hall. by right. }
    exists w'. split; [|split].
    + simpl. by rewrite (bind_return _ _ _ _ _ Hrun).
    + intros s' [Hne Hs']%not_elem_of_cons. rewrite Hframe by done.
      subst w1. by rewrite data_set_data, lookup_insert_ne.
    + intros s' m' ue' ud' pd' po' pe' [->|Hs']%elem_of_cons Hm' Hsrc'.
      * rewrite Hframe by done. subst w1. rewrite data_set_data, lookup_insert_eq.
        assert (m' = m) as -> by congruence.
        destruct Hsrc as (? & ? & ? & ? & ?), Hsrc' as (? & ? & ? & ? & ?).
        repeat f_equal; congruence.
      * apply Hvals; [done| |done]. by rewrite Hother.
Qed.

(** When every sample of the map has numbers for the five source fields,
    [mark_duplicates_plot] returns the chart of the map in which every
    sample has its three derived fields. *)
Lemma mark_duplicates_plot_returns plot_bargraph w :
  (forall s m, picard_dupMetrics_data w !! s = Some m ->
     exists ue ud pd po pe, Spec.has_sources m ue ud pd po pe) ->
  exists w',
    mark_duplicates_plot plot_bargraph w =
      (Return (plot_bargraph (picard_dupMetrics_data w') plot_keys plot_config), w') ∧
    dom (picard_dupMetrics_data w') = dom (picard_dupMetrics_data w) ∧
    (forall s m ue ud pd po pe,
       picard_dupMetrics_data w !! s = Some m ->
       Spec.has_sources m ue ud pd po pe ->
       picard_dupMetrics_data w' !! s = Some (Spec.with_derived m ue ud pd po pe)).
Proof.
  intros Hall.
  destruct (derive_loop_values (dict_keys (picard_dupMetrics_data w)) w)
    as (w' & Hloop & Hframe & Hvals).
  { apply NoDup_fst_map_to_list. }
  { intros s [m Hm]%elem_of_dict_keys.
    destruct (Hall s m Hm) as (ue & ud & pd & po & pe & Hsrc). eauto 10. }
  exists w'. split; [|split].
  - unfold mark_duplicates_plot, bind at 1, gets.
    by rewrite (bind_return _ _ _ _ _ Hloop).
  - apply set_eq. intros s. rewrite !elem_of_dom.
    destruct (picard_dupMetrics_data w !! s) as [m|] eqn:Hm.
    + destruct (Hall s m Hm) as (ue & ud & pd & po & pe & Hsrc).
      rewrite (Hvals s m ue ud pd po pe); [by split; eauto| |done|done].
      apply elem_of_dict_keys. eauto.
    + rewrite Hframe; [by rewrite Hm|]. rewrite elem_of_dict_keys, Hm.
      by intros [? [=]].
  - intros s m ue ud pd po pe Hm Hsrc. apply Hvals; [|done|done].
    apply elem_of_dict_keys. eauto.
Qed.

(** Over distinct samples that all have a number under
    [PERCENT_DUPLICATION], the loop of [picard_stats_table] sets the cell of
    each and leaves the other rows alone. *)
Lemma stats_loop_values (items : list (string * gmap string value)) w :
  NoDup items.*1 ->
  (forall sn m, (sn, m) ∈ items ->
     exists p, m !! "PERCENT_DUPLICATION" = Some (VFloat p)) ->
  exists w',
    for_each items stats_row w = (Return tt, w') ∧
    picard_dupMetrics_data w' = picard_dupMetrics_data w ∧
    (forall sn, sn ∉ items.*1 -> general_stats_rows w' !! sn = general_stats_rows w !! sn) ∧
    (forall sn m p, (sn, m) ∈ items ->
       m !! "PERCENT_DUPLICATION" = Some (VFloat p) ->
       general_stats_rows w' !! sn =
       Some (<["picard_percent_duplication" := Spec.percent_cell p]>
               (default ∅ (general_stats_rows w !! sn)))).
Proof.
  revert w. induction items as [|[sn m] items IH]; intros w Hnd Hall.
  - exists w. split; [done|]. split; [done|]. split; [done|].
    intros ? ? ? []%elem_of_nil.
  - rewrite fmap_cons in Hnd. apply NoDup_cons in Hnd as [Hsn Hnd].
    destruct (Hall sn m) as [p Hp]; [left|].
    assert (Hrun : stats_row (sn, m) w =
              (Return tt,
               set_rows (<[sn := <["picard_percent_duplication" := Spec.percent_cell p]>
                                    (default ∅ (general_stats_rows w !! sn))]>
                           (general_stats_rows w)) w)).
    { unfold stats_row, bind, lift, dict_getitem. simpl. by rewrite Hp. }
    destruct (IH (set_rows (<[sn := <["picard_percent_duplication" := Spec.percent_cell p]>
                                    (default ∅ (general_stats_rows w !! sn))]>
                           (general_stats_rows w)) w) Hnd)
      as (w' & Hloop & Hdata & Hframe & Hvals).
    { intros sn' m' Hin. apply (Hall sn' m'). by right. }
    exists w'. split; [|split; [|split]].
    + simpl. by rewrite (bind_return _ _ _ _ _ Hrun).
    + by rewrite Hdata.
    + intros sn' [Hne Hsn']%not_elem_of_cons. rewrite Hframe by done.
      simpl. by rewrite lookup_insert_ne.
    + intros sn' m' p' [[= -> ->]|Hin]%elem_of_cons Hp'.
      * rewrite Hframe by done. simpl. rewrite lookup_insert_eq.
        by assert (p' = p) as -> by congruence.
      * rewrite (Hvals sn' m' p' Hin Hp'). simpl.
        rewrite lookup_insert_ne; [done|]. intros ->. apply Hsn.
        apply list_elem_of_fmap. by exists (sn', m').
Qed.

(** When every sample of the map has a number under
    [PERCENT_DUPLICATION], [picard_stats_table] returns and each sample's
    row holds the cell of its percentage. *)
Lemma picard_stats_table_returns w :
  (forall s m, picard_dupMetrics_data w !! s = Some m ->
     exists p, m !! "PERCENT_DUPLICATION" = Some (VFloat p)) ->
  exists w',
    picard_stats_table w = (Return tt, w') ∧
    picard_dupMetrics_data w' = picard_dupMetrics_data w ∧
    (forall s m p,
       picard_dupMetrics_data w !! s = Some m ->
       m !! "PERCENT_DUPLICATION" = Some (VFloat p) ->
       general_stats_rows w' !! s =
       Some (<["picard_percent_duplication" := Spec.percent_cell p]>
               (default ∅ (general_stats_rows w !! s)))).
Proof.
  intros Hall. unfold picard_stats_table, bind at 1, modify, bind at 1, gets.
  cbn [picard_dupMetrics_data set_headers].
  destruct (stats_loop_values (dict_items (picard_dupMetrics_data w))
              (set_headers (<["picard_percent_duplication" := percent_duplication_header]>
                              (general_stats_headers w)) w))
    as (w' & Hloop & Hdata & _ & Hvals).
  { apply NoDup_fst_map_to_list. }
  { intros sn m Hin%elem_of_map_to_list. by eapply Hall. }
  exists w'. split; [exact Hloop|]. split; [exact Hdata|].
  intros s m p Hm Hp. apply (Hvals s m p); [|done]. by apply elem_of_map_to_list.
Qed.

(** *** The constructor *)

Section Init.

Variable clean_s_name : string -> string -> string.
Variable analysis_dir : string.
Variable plot_bargraph :
  gmap string (gmap string value) -> list (string * string) ->
  list (string * string) -> string.

Local Abbreviation parse_picard_dupMetrics := (parse_picard_dupMetrics clean_s_name).
Local Abbreviation names_sample := (names_sample clean_s_name).

(** Scanning the log files one after the other: entries are only added,
    each named by a line of one of the files, and an exception leaves a map
    that is not empty and is not [UserWarning]. *)
Lemma load_entries found w r w' :
  for_each found parse_picard_dupMetrics w = (r, w') ->
  dom (picard_dupMetrics_data w) ⊆ dom (picard_dupMetrics_data w') ∧
  (forall s, s ∈ dom (picard_dupMetrics_data w') ->
     s ∈ dom (picard_dupMetrics_data w) ∨
     exists f l, f ∈ found ∧ l ∈ f_lines f ∧ names_sample (f_root f) l s) ∧
  (forall e, r = Raise e ->
     (e = IndexError ∨ e = StopIteration) ∧ picard_dupMetrics_data w' ≠ ∅).
Proof.
  revert w. induction found as [|f found IH]; intros w; simpl.
  - intros [= <- <-]. split; [done|]. split; [eauto|done].
  - unfold bind. destruct (parse_picard_dupMetrics f w) as [r1 w1] eqn:Hf.
    assert (Hpend : forall s, @None string = Some s -> s ∈ dom (picard_dupMetrics_data w))
      by done.
    destruct (parse_lines_entries clean_s_name (f_root f) (length (f_lines f))
                _ _ _ _ _ (Nat.le_refl _) Hpend Hf) as (Hmono & Horigin & _ & Hraise).
    destruct r1 as [[]|e1].
    + intros (Hmono' & Horigin' & Hraise')%IH. split; [set_solver|]. split; [|done].
      intros s [[Hs|(l & Hl & Hn)]%Horigin|(f' & l & Hf' & Hl & Hn)]%Horigin'.
      * by left.
      * right. exists f, l. split; [left|done].
      * right. exists f', l. split; [by right|done].
    + intros [= <- <-]. split; [done|]. split; [|done].
      intros s [Hs|(l & Hl & Hn)]%Horigin; [by left|].
      right. exists f, l. split; [left|done].
Qed.

Lemma stats_row_raises item w e w' :
  stats_row item w = (Raise e, w') -> e = KeyError ∨ e = ValueError.
Proof.
  unfold stats_row, bind, lift, dict_getitem, rows_setitem, modify.
  destruct (item.2 !! "PERCENT_DUPLICATION") as [[x|s]|]; simpl; intros [= <- _]; eauto.
Qed.

Lemma picard_stats_table_raises w e w' :
  picard_stats_table w = (Raise e, w') -> e ≠ UserWarning.
Proof.
  unfold picard_stats_table, bind, modify, gets.
  intros Hrun. eapply (for_each_raises (fun e => e ≠ UserWarning)) in Hrun; [done|].
  intros item w0 e0 w1 [-> | ->]%stats_row_raises; done.
Qed.

Lemma mark_duplicates_plot_raises w e w' :
  mark_duplicates_plot plot_bargraph w = (Raise e, w') -> e ≠ UserWarning.
Proof.
  unfold mark_duplicates_plot, bind at 1, gets, bind.
  destruct (for_each _ derive_sample w) as [[[]|e0] w1] eqn:Hloop; [done|].
  intros [= <- <-].
  eapply (for_each_raises (fun e => e ≠ UserWarning)) in Hloop; [done|].
  intros sn w0 e1 w2 Hrun. destruct (derive_sample_frame _ _ _ _ Hrun) as [_ He].
  destruct (He e1 eq_refl) as [-> | ->]; done.
Qed.

(** What [__init__] does once the log files are loaded into a map [d]. *)
Lemma init_after_load found w w1 :
  find_and_load clean_s_name found w = (Return tt, w1) ->
  (init clean_s_name analysis_dir plot_bargraph found w).1 = Raise UserWarning <-> picard_dupMetrics_data w1 = ∅.
Proof.
  intros Hload. unfold init. rewrite (bind_return _ _ _ _ _ Hload).
  unfold bind at 1, gets.
  destruct (decide (picard_dupMetrics_data w1 = ∅)) as [Hempty|Hne].
  - rewrite Hempty. split; [done|]. intros _. reflexivity.
  - split; [|done]. intros Hraise. exfalso.
    assert (Hsize : (size (picard_dupMetrics_data w1) =? 0)%nat = false).
    { apply Nat.eqb_neq. by intros ?%map_size_empty_inv. }
    unfold bind at 1 in Hraise. rewrite Hsize in Hraise.
    unfold ret at 1, bind at 1, log_info, modify at 1 in Hraise.
    unfold bind at 1, modify at 1 in Hraise.
    unfold bind at 1, modify at 1 in Hraise.
    unfold bind at 1 in Hraise.
    destruct (picard_stats_table _) as [[[]|e] w2] eqn:Htab.
    + unfold bind at 1 in Hraise.
      destruct (mark_duplicates_plot _ w2) as [[c|e] w3] eqn:Hplot; [done|].
      apply mark_duplicates_plot_raises in Hplot. simpl in Hraise. congruence.
    + apply picard_stats_table_raises in Htab. simpl in Hraise. congruence.
Qed.

(** A line is a matched marker line exactly when it names a sample. *)
Lemma is_matched_marker_names root l :
  is_matched_marker l = true <-> exists s, names_sample root l s.
Proof.
  unfold is_matched_marker. rewrite andb_true_iff, bool_decide_eq_true. split.
  - intros [Hn [path Hp]]. eexists. split; [exact Hn|]. eauto.
  - intros (s & Hn & path & Hp & _). split; [exact Hn|]. eauto.
Qed.

(** A log with a matched marker line leaves a map that is not empty,
    however its scan ends. *)
Lemma parse_lines_marker_nonempty root lines w :
  (exists l, l ∈ lines ∧ is_matched_marker l = true) ->
  picard_dupMetrics_data (parse_lines clean_s_name root None lines w).2 ≠ ∅.
Proof.
  induction lines as [|l lines IH]; intros (l0 & Hin & Hl0).
  { by apply elem_of_nil in Hin. }
  destruct (is_matched_marker l) eqn:Hl.
  - apply (is_matched_marker_names root) in Hl as [s Hs].
    destruct (parse_lines clean_s_name root None (l :: lines) w) as [r w'] eqn:Hrun.
    assert (Hpend : forall s0, @None string = Some s0 ->
                      s0 ∈ dom (picard_dupMetrics_data w)) by done.
    destruct (parse_lines_entries clean_s_name root (length (l :: lines)) _ _ _ _ _
                (Nat.le_refl _) Hpend Hrun) as (_ & _ & Hhead & _).
    intros Hempty. specialize (Hhead l s eq_refl Hs).
    cbn [snd] in Hempty. rewrite Hempty, dom_empty_L in Hhead. set_solver.
  - apply elem_of_cons in Hin as [->|Hin]; [congruence|].
    assert (Hskip : parse_lines clean_s_name root None (l :: lines) w
                    = parse_lines clean_s_name root None lines w).
    { rewrite parse_lines_cons. unfold is_matched_marker in Hl.
      destruct (is_new_log l); [|reflexivity].
      simpl in Hl. apply bool_decide_eq_false in Hl.
      destruct (PyStr.re_search_input l) as [path|] eqn:Hp; [destruct Hl; eauto|].
      by rewrite (bind_return _ _ _ _ _ (new_log_starting_no_match _ _ _ _ Hp)). }
    rewrite Hskip. apply IH. eauto.
Qed.

(** Log files of which one has a matched marker line leave a map that is
    not empty, however their loading ends. *)
Lemma load_marker_nonempty found w :
  (exists f l, f ∈ found ∧ l ∈ f_lines f ∧ is_matched_marker l = true) ->
  picard_dupMetrics_data (for_each found parse_picard_dupMetrics w).2 ≠ ∅.
Proof.
  revert w. induction found as [|f0 found IH]; intros w (f & l & Hf & Hl & Hm).
  { by apply elem_of_nil in Hf. }
  simpl. unfold bind.
  destruct (parse_picard_dupMetrics f0 w) as [r1 w1] eqn:Hf0.
  assert (Hpend : forall s, @None string = Some s -> s ∈ dom (picard_dupMetrics_data w))
    by done.
  destruct (parse_lines_entries clean_s_name (f_root f0) (length (f_lines f0))
              _ _ _ _ _ (Nat.le_refl _) Hpend Hf0) as (_ & _ & _ & Hraise).
  destruct r1 as [[]|e1]; [|by apply (Hraise e1)].
  apply elem_of_cons in Hf as [->|Hf]; [|apply IH; eauto].
  assert (Hne : picard_dupMetrics_data w1 ≠ ∅).
  { pose proof (parse_lines_marker_nonempty (f_root f0) (f_lines f0) w) as Hne.
    unfold parse_picard_dupMetrics in Hf0. rewrite Hf0 in Hne. apply Hne. eauto. }
  destruct (for_each found parse_picard_dupMetrics w1) as [r w'] eqn:Hrest.
  apply load_entries in Hrest as (Hmono & _). cbn [snd].
  intros Hempty. apply Hne. apply (dom_empty_iff_L (D := gset string)).
  rewrite Hempty, dom_empty_L in Hmono. set_solver.
Qed.

(** C6 (as amended): [__init__] raises [UserWarning], the signal that
    there is nothing to report, if and only if no line of any log file is a
    line that starts a log and carries a file name the pattern finds, which
    is to say if and only if the map has no entry when the log files have
    been scanned; whether a header row and a value row were read for an
    entry plays no part.  So it is raised when no line of any file starts a
    log, and when there is no file at all; it is not raised when one file
    holds the record of sample [A] and another has a marker line whose
    [INPUT] has no file name the pattern finds: the map then holds [A]
    only. *)
Theorem report_absence_iff found w :
  ((init clean_s_name analysis_dir plot_bargraph found w).1 = Raise UserWarning <->
   forall f l, f ∈ found -> l ∈ f_lines f -> is_matched_marker l = false) ∧
  ((init clean_s_name analysis_dir plot_bargraph found w).1 = Raise UserWarning <->
   picard_dupMetrics_data (find_and_load clean_s_name found w).2 = ∅) ∧
  ((forall f l, f ∈ found -> l ∈ f_lines f -> is_new_log l = false) ->
   (init clean_s_name analysis_dir plot_bargraph found w).1 = Raise UserWarning) ∧
  (init Example.sanitize analysis_dir Example.no_plot [] Example.w0).1
    = Raise UserWarning ∧
  (let run := init Example.sanitize analysis_dir Example.no_plot
                [Example.doc_A; Example.doc_unmatched] Example.w0 in
   run.1 = Return tt ∧ dom (picard_dupMetrics_data run.2) = {["A"%string]}).
Proof.
  assert (Hiff : (init clean_s_name analysis_dir plot_bargraph found w).1 = Raise UserWarning <->
                 picard_dupMetrics_data (find_and_load clean_s_name found w).2 = ∅).
  { destruct (find_and_load clean_s_name found w) as [r w1] eqn:Hload.
    pose proof Hload as Hload'.
    unfold find_and_load, bind, modify in Hload'.
    apply load_entries in Hload' as (_ & _ & Hraise).
    destruct r as [[]|e].
    - by apply init_after_load.
    - destruct (Hraise e eq_refl) as [He Hne]. simpl.
      unfold init. rewrite (bind_raise _ _ _ _ _ Hload). simpl.
      split; [|done]. intros [= ->]. by destruct He. }
  assert (Hlines : (forall f l, f ∈ found -> l ∈ f_lines f -> is_matched_marker l = false) <->
                   picard_dupMetrics_data (find_and_load clean_s_name found w).2 = ∅).
  { split.
    - intros Hnone.
      destruct (find_and_load clean_s_name found w) as [r w1] eqn:Hload.
      unfold find_and_load, bind, modify in Hload.
      apply load_entries in Hload as (_ & Horigin & _). simpl.
      apply map_empty. intros s. apply (not_elem_of_dom (D := gset string)).
      intros [Hs|(f & l & Hf & Hl & Hn)]%Horigin.
      + rewrite data_set_data, dom_empty_L in Hs. set_solver.
      + assert (Hm : is_matched_marker l = true)
          by (apply (is_matched_marker_names (f_root f)); eauto).
        rewrite (Hnone f l Hf Hl) in Hm. done.
    - intros Hempty f l Hf Hl.
      destruct (is_matched_marker l) eqn:Hm; [|done]. exfalso.
      unfold find_and_load, bind, modify in Hempty.
      revert Hempty. apply load_marker_nonempty. eauto. }
  split; [by rewrite Hiff, Hlines|]. split; [exact Hiff|]. split; [|split].
  - intros Hnone. apply Hiff, Hlines. intros f l Hf Hl.
    unfold is_matched_marker. by rewrite (Hnone f l Hf Hl).
  - reflexivity.
  - vm_compute. split; reflexivity.
Qed.

End Init.

(** ** The theorems at sample inputs *)

(** C1 at the arithmetic example: 100, 10, 40, 5, 200 give 90, 35, 160. *)
Lemma derived_fields_added_witness :
  picard_dupMetrics_data (Example.world_of {["A"%string := Example.metrics_arith]})
    !! "A"%string = Some Example.metrics_arith ∧
  Spec.has_sources Example.metrics_arith 100 10 40 5 200 ∧
  exists m',
    derive_sample "A" (Example.world_of {["A"%string := Example.metrics_arith]}) =
      (Return tt,
       set_data (<["A"%string := m']> {["A"%string := Example.metrics_arith]})
                (Example.world_of {["A"%string := Example.metrics_arith]})) ∧
    m' !! "UNPAIRED_READ_UNIQUE" = Some (VFloat 90) ∧
    m' !! "READ_PAIR_NOT_OPTICAL_DUPLICATES" = Some (VFloat 35) ∧
    m' !! "READ_PAIR_UNIQUE" = Some (VFloat 160).
Proof.
  assert (Hs : picard_dupMetrics_data
                 (Example.world_of {["A"%string := Example.metrics_arith]})
                 !! "A"%string = Some Example.metrics_arith) by reflexivity.
  assert (Hsrc : Spec.has_sources Example.metrics_arith 100 10 40 5 200)
    by (repeat split; reflexivity).
  split; [exact Hs|]. split; [exact Hsrc|].
  destruct (derived_fields_added "A" _ _ _ _ _ _ _ Hs Hsrc)
    as (m' & Hrun & _ & _ & _ & _ & _ & Hex & _).
  exists m'. split; [exact Hrun|]. apply Hex. reflexivity.
Defined.

(** C2 fails as stated: a record of the shape the claim describes whose
    value row is one token short makes the scan raise [IndexError], and no
    map is produced for the sample.  The shape alone does not keep the lines
    to their parts either: when the marker line carries the metrics-class
    tokens the next two lines are taken for the rows, and when the
    metrics-class line has the tokens of a marker line without a file name
    the pending sample is dropped; in both the sample's entry is not the zip
    of the header row and the value row. *)
Lemma single_record_short_row_counterexample :
  (well_framed Example.record_short = true ∧
   (parse_picard_dupMetrics Example.sanitize
      (mk_logfile "/data" (record_lines Example.record_short)) Example.w0).1
     = Raise IndexError ∧
   ¬ exists w',
       parse_picard_dupMetrics Example.sanitize
         (mk_logfile "/data" (record_lines Example.record_short)) Example.w0
         = (Return tt, w') ∧
       picard_dupMetrics_data w' !! "S"%string
         = Some (Spec.positional_zip (header_tokens Example.record_short)
                                     (value_tokens Example.record_short))) ∧
  (is_new_log (marker_line Example.record_marker_is_class) = true ∧
   is_Some (PyStr.re_search_input (marker_line Example.record_marker_is_class)) ∧
   is_metrics_class (class_line Example.record_marker_is_class) = true ∧
   picard_dupMetrics_data
     (parse_picard_dupMetrics Example.sanitize
        (mk_logfile "/data" (record_lines Example.record_marker_is_class))
        Example.w0).2 !! "S"%string
     = Some (Spec.positional_zip
               (PyStr.split_tab (class_line Example.record_marker_is_class))
               (header_tokens Example.record_marker_is_class)) ∧
   Spec.positional_zip
     (PyStr.split_tab (class_line Example.record_marker_is_class))
     (header_tokens Example.record_marker_is_class) !! "LIBRARY" = None ∧
   Spec.record_metrics Example.record_marker_is_class !! "LIBRARY"
     = Some (VStr "lib1")) ∧
  (is_new_log (marker_line Example.record_class_is_marker) = true ∧
   is_Some (PyStr.re_search_input (marker_line Example.record_class_is_marker)) ∧
   is_metrics_class (class_line Example.record_class_is_marker) = true ∧
   picard_dupMetrics_data
     (parse_picard_dupMetrics Example.sanitize
        (mk_logfile "/data" (record_lines Example.record_class_is_marker))
        Example.w0).2 !! "S"%string = Some ∅ ∧
   Spec.record_metrics Example.record_class_is_marker !! "LIBRARY"
     = Some (VStr "lib1")).
Proof.
  split; [|split].
  - split; [reflexivity|].
    assert (Hrun : (parse_picard_dupMetrics Example.sanitize
              (mk_logfile "/data" (record_lines Example.record_short)) Example.w0).1
              = Raise IndexError) by (vm_compute; reflexivity).
    split; [exact Hrun|]. intros (w' & Hret & _). rewrite Hret in Hrun. discriminate.
  - repeat split; try (vm_compute; reflexivity). vm_compute. eauto.
  - repeat split; try (vm_compute; reflexivity). vm_compute. eauto.
Qed.

(** C2 as amended, at the record of sample [A]. *)
Lemma single_record_positional_zip_witness :
  well_formed Example.record_A = true ∧
  exists w',
    parse_picard_dupMetrics Example.sanitize
      (mk_logfile "/data" (record_lines Example.record_A)) Example.w0
      = (Return tt, w') ∧
    picard_dupMetrics_data w' !! sample_id Example.sanitize "/data" Example.record_A
      = Some (Spec.positional_zip (header_tokens Example.record_A)
                                  (value_tokens Example.record_A)).
Proof.
  split; [reflexivity|].
  apply (single_record_positional_zip Example.sanitize "/data" Example.record_A Example.w0).
  reflexivity.
Defined.

(** C3 fails as stated: a log that is a marker line and nothing else,
    so that no header row or value row is ever read, leaves an entry, empty,
    for the sample the line names. *)
Lemma entry_before_metrics_counterexample :
  forallb (fun l => negb (is_metrics_class l)) (f_lines Example.doc_marker_only) = true ∧
  (parse_picard_dupMetrics Example.sanitize Example.doc_marker_only Example.w0).1
    = Return tt ∧
  picard_dupMetrics_data Example.w0 !! "M"%string = None ∧
  picard_dupMetrics_data
    (parse_picard_dupMetrics Example.sanitize Example.doc_marker_only Example.w0).2
    !! "M"%string = Some ∅.
Proof. repeat split; vm_compute; reflexivity. Qed.

(** C3 as amended, at a log with the record of [A], then a marker line
    for [M] with lines of another tool after it, then a second marker line
    for [A] with its metrics block.  At the second marker line for [A] the
    entry of the first record is reset to empty, with the diagnostic; at the
    end [M] has its entry, empty, and [A] holds the two fields of the second
    block (the last header token with its line end) and none of the first
    record. *)
Lemma entry_lifecycle_witness :
  (parse_picard_dupMetrics Example.sanitize
     (mk_logfile "/data" (record_lines Example.record_A ++ [Example.marker "/data/M"]
                          ++ Example2.other_lines ++ [Example.marker "/other/A"]))
     Example.w0).2
    = reset_entry "A"
        (parse_picard_dupMetrics Example.sanitize
           (mk_logfile "/data" (record_lines Example.record_A ++ [Example.marker "/data/M"]
                                ++ Example2.other_lines))
           Example.w0).2 ∧
  picard_dupMetrics_data
    (parse_picard_dupMetrics Example.sanitize Example3.doc_three_markers Example.w0).2
    !! "M"%string = Some ∅ ∧
  picard_dupMetrics_data
    (parse_picard_dupMetrics Example.sanitize Example3.doc_three_markers Example.w0).2
    !! "A"%string
    = Some (<["LIBRARY" := VStr "lib9"]>
              {[("PERCENT_DUPLICATION" ++ Example.nl)%string := VFloat 0.9]}).
Proof.
  pose proof (entry_lifecycle Example.sanitize Example3.doc_three_markers Example.w0) as H.
  cbv zeta in H. destruct H as (_ & _ & Hat & Hfill & Hempty & _).
  assert (HnM : names_sample Example.sanitize "/data" (Example.marker "/data/M") "M").
  { split; [vm_compute; reflexivity|].
    exists "/data/M"%string. split; vm_compute; reflexivity. }
  assert (HnA : names_sample Example.sanitize "/data" (Example.marker "/other/A") "A").
  { split; [vm_compute; reflexivity|].
    exists "/other/A"%string. split; vm_compute; reflexivity. }
  assert (Hblock : forall l', l' ∈ Example2.block ->
            ¬ names_sample Example.sanitize "/data" l' "M").
  { intros l' Hin [Hnew _]. unfold Example2.block in Hin.
    repeat (apply elem_of_cons in Hin as [->|Hin]);
      try (vm_compute in Hnew; discriminate Hnew).
    by apply elem_of_nil in Hin. }
  split; [|split].
  - refine (proj1 (Hat (record_lines Example.record_A ++ [Example.marker "/data/M"]
                        ++ Example2.other_lines)
                       (Example.marker "/other/A") Example2.block _ "A"%string
                       eq_refl _ HnA)).
    vm_compute. reflexivity.
  - apply (Hempty (record_lines Example.record_A) (Example.marker "/data/M")
                  Example2.other_lines (Example.marker "/other/A" :: Example2.block)
                  Example2.world_A "M"%string).
    + reflexivity.
    + vm_compute. reflexivity.
    + exact HnM.
    + vm_compute. reflexivity.
    + vm_compute. reflexivity.
    + right. eexists _, _. split; [reflexivity|]. vm_compute. reflexivity.
    + intros l' [->|Hin]%elem_of_cons; [|by apply Hblock].
      intros [_ (path & Hp & Hs)]. vm_compute in Hp. injection Hp as <-.
      vm_compute in Hs. discriminate Hs.
  - assert (Hscan : parse_picard_dupMetrics Example.sanitize
              (mk_logfile (f_root Example3.doc_three_markers)
                 (record_lines Example.record_A ++ [Example.marker "/data/M"]
                  ++ Example2.other_lines)) Example.w0
              = (Return tt,
                 (parse_picard_dupMetrics Example.sanitize
                    (mk_logfile "/data"
                       (record_lines Example.record_A ++ [Example.marker "/data/M"]
                        ++ Example2.other_lines)) Example.w0).2))
      by (vm_compute; reflexivity).
    destruct (Hfill (record_lines Example.record_A ++ [Example.marker "/data/M"]
                     ++ Example2.other_lines)
                    (Example.marker "/other/A") [] Example.metrics_class
                    Example2.header_only
                    ("lib9" ++ Example.tb ++ "0.9" ++ Example.nl)%string
                    [] _ "A"%string eq_refl Hscan HnA)
      as (_ & _ & Hend).
    + vm_compute. reflexivity.
    + reflexivity.
    + vm_compute. reflexivity.
    + vm_compute. reflexivity.
    + vm_compute. lia.
    + rewrite Hend; [|by intros l' ?%elem_of_nil].
      vm_compute. reflexivity.
Defined.

(** C4 at the token ["0.482"]. *)
Lemma coercion_total_witness :
  picard_dupMetrics_data (Example.world_of {["A"%string := ∅]}) !! "A"%string = Some ∅ ∧
  ["lib1"; "0.482"]%string !! 1%nat = Some "0.482"%string ∧
  exists v,
    store_field "A" ["lib1"; "0.482"]%string 1 "PERCENT_DUPLICATION"
      (Example.world_of {["A"%string := ∅]}) =
      (Return tt,
       set_data (<["A"%string := <["PERCENT_DUPLICATION"%string := v]> ∅]>
                   {["A"%string := ∅]})
                (Example.world_of {["A"%string := ∅]})) ∧
    v = VFloat 0.482.
Proof.
  assert (Hs : picard_dupMetrics_data (Example.world_of {["A"%string := ∅]})
                 !! "A"%string = Some (∅ : gmap string value)) by reflexivity.
  assert (Hi : ["lib1"; "0.482"]%string !! 1%nat = Some "0.482"%string) by reflexivity.
  split; [exact Hs|]. split; [exact Hi|].
  destruct (coercion_total "A" "PERCENT_DUPLICATION" _ _ _ _ _ Hs Hi)
    as (v & Hrun & _ & Hex & _).
  exists v. split; [exact Hrun|]. apply Hex. reflexivity.
Defined.

(** C5 at two records of sample [A]: the fields of the second alone. *)
Lemma duplicate_sample_last_wins_witness :
  forallb well_formed ([] ++ Example.record_A :: [] ++ Example.record_A_again :: []) = true ∧
  sample_id Example.sanitize "/data" Example.record_A
    = sample_id Example.sanitize "/data" Example.record_A_again ∧
  exists w',
    parse_lines Example.sanitize "/data" None
      (concat (record_lines <$>
                 ([] ++ Example.record_A :: [] ++ Example.record_A_again :: [])))
      Example.w0 = (Return tt, w') ∧
    picard_dupMetrics_data w' !! sample_id Example.sanitize "/data" Example.record_A_again
      = Some (Spec.record_metrics Example.record_A_again) ∧
    (DEBUG, ("Duplicate sample name found! Overwriting: "
             ++ sample_id Example.sanitize "/data" Example.record_A_again)%string)
      ∈ log_records w'.
Proof.
  split; [reflexivity|]. split; [reflexivity|].
  apply (duplicate_sample_last_wins Example.sanitize "/data" None Example.w0
           [] Example.record_A [] Example.record_A_again []); reflexivity.
Defined.

(** C6 fails as stated: a log that is a marker line and nothing else
    yields no sample -- it has no header row and no value row, and the one
    entry it leaves has no field -- and yet [__init__] does not raise
    [UserWarning]: it goes on and ends with the [KeyError] of the missing
    [PERCENT_DUPLICATION]. *)
Lemma report_absence_marker_only_counterexample :
  f_lines Example.doc_marker_only = [Example.marker "/data/M"] ∧
  is_metrics_class (Example.marker "/data/M") = false ∧
  picard_dupMetrics_data
    (find_and_load Example.sanitize [Example.doc_marker_only] Example.w0).2
    = {["M"%string := ∅]} ∧
  (init Example.sanitize "runs" Example.no_plot [Example.doc_marker_only] Example.w0).1
    = Raise KeyError ∧
  (init Example.sanitize "runs" Example.no_plot [Example.doc_marker_only] Example.w0).1
    ≠ Raise UserWarning.
Proof.
  split; [reflexivity|]. split; [vm_compute; reflexivity|].
  split; [vm_compute; reflexivity|].
  assert (Hrun : (init Example.sanitize "runs" Example.no_plot
                    [Example.doc_marker_only] Example.w0).1 = Raise KeyError)
    by (vm_compute; reflexivity).
  split; [exact Hrun|]. rewrite Hrun. discriminate.
Qed.

(** C7 fails as stated: the sample lacks the pair counts, but the first
    subtraction has a text operand and raises [TypeError] before any
    missing field is looked up; what is raised is not a lookup failure. *)
Lemma missing_field_type_error_counterexample :
  Example.metrics_text_count !! "READ_PAIR_DUPLICATES" = None ∧
  derive_sample "A" (Example.world_of {["A"%string := Example.metrics_text_count]})
    = (Raise TypeError, Example.world_of {["A"%string := Example.metrics_text_count]}).
Proof. split; vm_compute; reflexivity. Qed.

(** C7 as amended, at a sample with a text for the first count and
    nothing else: the second operand of the first statement is missing, and
    the exception is [KeyError], not [TypeError]; the entry is as it was. *)
Lemma missing_source_field_raises_witness :
  picard_dupMetrics_data (Example.world_of {["A"%string := Example3.metrics_text_only]})
    !! "A"%string = Some Example3.metrics_text_only ∧
  "UNPAIRED_READ_DUPLICATES"%string ∈ Spec.source_fields ∧
  Example3.metrics_text_only !! "UNPAIRED_READ_DUPLICATES" = None ∧
  derive_sample "A" (Example.world_of {["A"%string := Example3.metrics_text_only]})
    = (Raise KeyError, Example.world_of {["A"%string := Example3.metrics_text_only]}).
Proof.
  assert (Hs : picard_dupMetrics_data
                 (Example.world_of {["A"%string := Example3.metrics_text_only]})
                 !! "A"%string = Some Example3.metrics_text_only) by reflexivity.
  assert (Hk : "UNPAIRED_READ_DUPLICATES"%string ∈ Spec.source_fields)
    by (unfold Spec.source_fields; right; left).
  assert (Hnone : Example3.metrics_text_only !! "UNPAIRED_READ_DUPLICATES" = None)
    by reflexivity.
  split; [exact Hs|]. split; [exact Hk|]. split; [exact Hnone|].
  destruct (missing_source_field_raises "A" _ _ _ Hs Hk Hnone)
    as (e & w' & m' & Hrun & _ & Hw' & _ & _ & Hfirst & _).
  destruct (Hfirst (or_intror Hnone)) as [He Hm']. subst e m' w'.
  rewrite Hrun. reflexivity.
Defined.


(** C8 at a duplication fraction of a quarter: the cell shows [25.0]. *)
Lemma percent_duplication_scalar_witness :
  Example.metrics_quarter !! "PERCENT_DUPLICATION" = Some (VFloat 0.25) ∧
  exists cell,
    stats_row ("A"%string, Example.metrics_quarter)
      (Example.world_of {["A"%string := Example.metrics_quarter]}) =
      (Return tt,
       set_rows {["A"%string := {["picard_percent_duplication"%string := cell]}]}
                (Example.world_of {["A"%string := Example.metrics_quarter]})) ∧
    cell = ("<td class=" ++ dquote ++ "text-right" ++ dquote ++ ">25.0%</td>")%string.
Proof.
  assert (Hp : Example.metrics_quarter !! "PERCENT_DUPLICATION" = Some (VFloat 0.25))
    by reflexivity.
  split; [exact Hp|].
  destruct (percent_duplication_scalar "A"
              (Example.world_of {["A"%string := Example.metrics_quarter]}) _ _ Hp)
    as (cell & Hrun & -> & _).
  eexists. split; [exact Hrun|]. vm_compute. reflexivity.
Defined.

(** C9 at the record whose value row is one token short. *)
Lemma short_value_row_raises_witness :
  well_framed Example.record_short = true ∧
  (length (value_tokens Example.record_short)
     < length (header_tokens Example.record_short))%nat ∧
  exists w',
    parse_lines Example.sanitize "/data" None
      (record_lines Example.record_short ++ []) Example.w0 = (Raise IndexError, w').
Proof.
  assert (Hlt : (length (value_tokens Example.record_short)
                   < length (header_tokens Example.record_short))%nat)
    by (vm_compute; lia).
  split; [reflexivity|]. split; [exact Hlt|].
  destruct (short_value_row_raises Example.sanitize "/data" None Example.record_short
              [] Example.w0 eq_refl) as [Hshort _].
  exact (Hshort Hlt).
Defined.

(** C10 fails as stated: the only sample lacks the pair counts, the run
    is aborted with [KeyError], and yet the sample has been given the
    derived field [UNPAIRED_READ_UNIQUE] by the statement that ran before
    the failing one. *)
Lemma derived_field_before_abort_counterexample :
  Example.metrics_unpaired_only !! "READ_PAIR_DUPLICATES" = None ∧
  Example.metrics_unpaired_only !! "UNPAIRED_READ_UNIQUE" = None ∧
  (mark_duplicates_plot Example.no_plot
     (Example.world_of {["A"%string := Example.metrics_unpaired_only]})).1
    = Raise KeyError ∧
  picard_dupMetrics_data
    (mark_duplicates_plot Example.no_plot
       (Example.world_of {["A"%string := Example.metrics_unpaired_only]})).2
    !! "A"%string
    = Some (<["UNPAIRED_READ_UNIQUE" := VFloat 2]> Example.metrics_unpaired_only).
Proof. repeat split; vm_compute; reflexivity. Qed.

(** C10 as amended, at a loop over a complete sample [A] and then a
    sample [B] with the unpaired counts only, with [C] still to come: the
    loop raises [KeyError] at the second statement for [B], [C] is as it
    was, and [B] is as it was but for its [UNPAIRED_READ_UNIQUE]. *)
Lemma derivation_aborts_run_witness :
  "B"%string ∈ ["A"; "B"; "C"]%string ∧
  picard_dupMetrics_data (Example.world_of Example.three_samples) !! "B"%string
    = Some Example.metrics_unpaired_only ∧
  "READ_PAIR_DUPLICATES"%string ∈ Spec.source_fields ∧
  Example.metrics_unpaired_only !! "READ_PAIR_DUPLICATES" = None ∧
  exists w',
    for_each ["A"; "B"; "C"]%string derive_sample
      (Example.world_of Example.three_samples) = (Raise KeyError, w') ∧
    picard_dupMetrics_data w' !! "C"%string = Some Example.metrics_arith ∧
    picard_dupMetrics_data w' !! "B"%string
      = Some (<["UNPAIRED_READ_UNIQUE" := VFloat 2]> Example.metrics_unpaired_only).
Proof.
  assert (Hin : "B"%string ∈ ["A"; "B"; "C"]%string) by (right; left).
  assert (Hs : picard_dupMetrics_data (Example.world_of Example.three_samples)
                 !! "B"%string = Some Example.metrics_unpaired_only) by reflexivity.
  assert (Hk : "READ_PAIR_DUPLICATES"%string ∈ Spec.source_fields)
    by (unfold Spec.source_fields; do 2 right; left).
  assert (Hnone : Example.metrics_unpaired_only !! "READ_PAIR_DUPLICATES" = None)
    by reflexivity.
  split; [exact Hin|]. split; [exact Hs|]. split; [exact Hk|]. split; [exact Hnone|].
  destruct (derivation_aborts_run _ _ _ _ _ Hin Hs Hk Hnone) as (_ & _ & Hfine).
  destruct (Hfine ["A"%string] ["C"%string] eq_refl)
    as (e & w' & m' & Hrun & _ & Hframe & Hm' & _ & _ & _ & Hsecond & _).
  { intros s ->%list_elem_of_singleton.
    exists Example.metrics_arith, 100%float, 10%float, 40%float, 5%float, 200%float.
    split; [reflexivity|]. repeat split; reflexivity. }
  destruct (Hsecond (VFloat 2) KeyError) as [-> ->]; [reflexivity..|].
  exists w'. split; [exact Hrun|]. split; [|exact Hm'].
  rewrite Hframe; [reflexivity| |done].
  intros [=]%list_elem_of_singleton.
Defined.



(** ** Further properties *)

(** *** The string operations the scan relies on *)

Lemma string_app_cons c (a b : string) :
  (String c a ++ b = String c (a ++ b))%string.
Proof. reflexivity. Qed.

Lemma string_app_empty (b : string) : ("" ++ b = b)%string.
Proof. reflexivity. Qed.

Lemma string_app_assoc (a b c : string) : ((a ++ b) ++ c = a ++ (b ++ c))%string.
Proof.
  induction a as [|x a IH]; [done|]. by rewrite !string_app_cons, IH.
Qed.

Lemma string_app_nil_r (a : string) : (a ++ "" = a)%string.
Proof. induction a as [|x a IH]; [done|]. by rewrite string_app_cons, IH. Qed.

Lemma startswith_app p s : PyStr.startswith p (p ++ s) = true.
Proof.
  induction p as [|a p IH]; [done|].
  rewrite string_app_cons. simpl. by rewrite Ascii.eqb_refl.
Qed.

Lemma startswith_split p s :
  PyStr.startswith p s = true -> exists post, s = (p ++ post)%string.
Proof.
  revert s. induction p as [|a p IH]; intros s; simpl.
  - intros _. by exists s.
  - destruct s as [|b s]; [done|].
    destruct (Ascii.eqb a b) eqn:Hab; [|done].
    apply Ascii.eqb_eq in Hab as ->. intros [post ->]%IH. by exists post.
Qed.

Lemma contains_cons p c s :
  PyStr.contains p (String c s) = PyStr.startswith p (String c s) || PyStr.contains p s.
Proof. reflexivity. Qed.

Lemma contains_app_r pre p post : PyStr.contains p (pre ++ p ++ post) = true.
Proof.
  induction pre as [|c pre IH].
  - rewrite string_app_empty. destruct (p ++ post)%string eqn:Heq.
    + destruct p; [done|discriminate].
    + rewrite contains_cons, <- Heq, startswith_app. done.
  - rewrite string_app_cons, contains_cons, IH. apply orb_true_r.
Qed.

Lemma contains_split p s :
  PyStr.contains p s = true -> exists pre post, s = (pre ++ p ++ post)%string.
Proof.
  induction s as [|c s IH].
  - simpl. rewrite orb_false_r. intros [post ->]%startswith_split.
    by exists EmptyString, post.
  - rewrite contains_cons. intros [Hs|Hc]%orb_true_iff.
    + apply startswith_split in Hs as [post ->]. by exists EmptyString, post.
    + destruct (IH Hc) as (pre & post & ->). by exists (String c pre), post.
Qed.

(** X1: [p in s] holds exactly when [s] is some text, then [p], then
    some text: the substring tests of the scan are true on a line exactly
    when the line has the marker somewhere in it, and a line starts a log
    exactly when it has both [picard.sam.MarkDuplicates] and [INPUT]. *)
Theorem contains_iff_substring p s :
  (PyStr.contains p s = true <-> exists pre post, s = (pre ++ p ++ post)%string) ∧
  (is_new_log s = true <->
   (exists pre post, s = (pre ++ "picard.sam.MarkDuplicates" ++ post)%string) ∧
   (exists pre post, s = (pre ++ "INPUT" ++ post)%string)).
Proof.
  split.
  - split; [apply contains_split|]. intros (pre & post & ->). apply contains_app_r.
  - unfold is_new_log. rewrite andb_true_iff. split.
    + intros [H1 H2]. split; by apply contains_split.
    + intros [(pre1 & post1 & H1) (pre2 & post2 & H2)]. split.
      * rewrite H1. apply contains_app_r.
      * rewrite H2. apply contains_app_r.
Qed.

Lemma startswith_cons a p b s :
  PyStr.startswith (String a p) (String b s) =
  if Ascii.eqb a b then PyStr.startswith p s else false.
Proof. reflexivity. Qed.

Lemma split_tab_cons c s :
  PyStr.split_tab (String c s) =
  if Ascii.eqb c PyStr.tab then EmptyString :: PyStr.split_tab s
  else match PyStr.split_tab s with
       | t :: ts => String c t :: ts
       | [] => [String c EmptyString]
       end.
Proof. reflexivity. Qed.

Lemma split_tab_nonempty s : PyStr.split_tab s ≠ [].
Proof.
  destruct s as [|c s]; [done|]. rewrite split_tab_cons.
  destruct (Ascii.eqb c PyStr.tab); [done|]. by destruct (PyStr.split_tab s).
Qed.

Lemma contains_tab_cons c t :
  PyStr.contains (String PyStr.tab "") (String c t) =
  Ascii.eqb PyStr.tab c || PyStr.contains (String PyStr.tab "") t.
Proof.
  rewrite contains_cons, startswith_cons. by destruct (Ascii.eqb PyStr.tab c).
Qed.

Lemma split_tab_no_tab t :
  PyStr.contains (String PyStr.tab "") t = false -> PyStr.split_tab t = [t].
Proof.
  induction t as [|c t IH]; [done|].
  rewrite contains_tab_cons. intros [Hc Ht]%orb_false_iff.
  rewrite split_tab_cons, Ascii.eqb_sym, Hc. by rewrite (IH Ht).
Qed.

Lemma split_tab_app_tab t s :
  PyStr.contains (String PyStr.tab "") t = false ->
  PyStr.split_tab (t ++ String PyStr.tab s) = t :: PyStr.split_tab s.
Proof.
  induction t as [|c t IH].
  - intros _. rewrite string_app_empty, split_tab_cons. by rewrite Ascii.eqb_refl.
  - rewrite contains_tab_cons. intros [Hc Ht]%orb_false_iff.
    rewrite string_app_cons, split_tab_cons, Ascii.eqb_sym, Hc. by rewrite (IH Ht).
Qed.

(** X2: splitting a line at the tabs and joining the tokens with tabs
    gives the line back; no token has a tab in it and there is always at
    least one token; and a list of tab-free tokens, joined, splits into
    itself.  So the header row and the value row lose nothing in
    [split("\t")]. *)
Theorem split_tab_join_tab s :
  join_tab (PyStr.split_tab s) = s ∧
  PyStr.split_tab s ≠ [] ∧
  Forall (fun t => PyStr.contains (String PyStr.tab "") t = false) (PyStr.split_tab s) ∧
  (forall tokens,
     tokens ≠ [] ->
     Forall (fun t => PyStr.contains (String PyStr.tab "") t = false) tokens ->
     PyStr.split_tab (join_tab tokens) = tokens).
Proof.
  split; [|split; [apply split_tab_nonempty|split]].
  - induction s as [|c s IH]; [done|]. rewrite split_tab_cons.
    pose proof (split_tab_nonempty s) as Hne.
    destruct (Ascii.eqb c PyStr.tab) eqn:Hc.
    + apply Ascii.eqb_eq in Hc as ->.
      destruct (PyStr.split_tab s) as [|t ts]; [done|].
      rewrite <- IH. reflexivity.
    + destruct (PyStr.split_tab s) as [|t ts]; [done|].
      rewrite <- IH. by destruct ts.
  - induction s as [|c s IH]; [by repeat constructor|]. rewrite split_tab_cons.
    destruct (Ascii.eqb c PyStr.tab) eqn:Hc; [by constructor|].
    pose proof (split_tab_nonempty s) as Hne.
    destruct (PyStr.split_tab s) as [|t ts]; [done|].
    apply Forall_cons in IH as [Ht Hts]. constructor; [|done].
    by rewrite contains_tab_cons, Ascii.eqb_sym, Hc.
  - intros tokens Hne Hall. induction Hall as [|t ts Ht Hts IH]; [done|].
    destruct ts as [|t' ts].
    + by apply split_tab_no_tab.
    + change (join_tab (t :: t' :: ts))
        with (t ++ String PyStr.tab (join_tab (t' :: ts)))%string.
      rewrite split_tab_app_tab by done. by rewrite IH.
Qed.

Lemma basename_cons c p :
  PyStr.basename (String c p) =
  if PyStr.contains "/" (String c p) then PyStr.basename p else String c p.
Proof. reflexivity. Qed.

Lemma basename_no_slash p :
  PyStr.contains "/" p = false -> PyStr.basename p = p.
Proof. destruct p as [|c p]; [done|]. rewrite basename_cons. by intros ->. Qed.

(** X3: the base name of a path has no ["/"] in it and is the end of the
    path; a path with no ["/"] is its own base name, and the base name of
    [dir/name] is [name], whatever the directory part is. *)
Theorem basename_spec p :
  PyStr.contains "/" (PyStr.basename p) = false ∧
  (exists dir, p = (dir ++ PyStr.basename p)%string) ∧
  (PyStr.contains "/" p = false -> PyStr.basename p = p) ∧
  (forall dir name,
     PyStr.contains "/" name = false ->
     PyStr.basename (dir ++ "/" ++ name) = name).
Proof.
  split; [|split; [|split; [apply basename_no_slash|]]].
  - induction p as [|c p IH]; [done|]. rewrite basename_cons.
    by destruct (PyStr.contains "/" (String c p)) eqn:Hc.
  - induction p as [|c p IH]; [by exists EmptyString|]. rewrite basename_cons.
    destruct (PyStr.contains "/" (String c p)) eqn:Hc.
    + destruct IH as [dir Hdir]. exists (String c dir).
      by rewrite string_app_cons, <- Hdir.
    + by exists EmptyString.
  - intros dir name Hname. induction dir as [|c dir IH].
    + rewrite string_app_empty. change ("/" ++ name)%string with (String "/" name).
      assert (Hc : PyStr.contains "/" (String "/" name) = true)
        by apply (contains_app_r "" "/" name).
      rewrite basename_cons, Hc. by apply basename_no_slash.
    + rewrite string_app_cons, basename_cons, <- string_app_cons.
      by rewrite (contains_app_r (String c dir) "/" name), string_app_cons.
Qed.

Lemma span_not_rbracket_cons c s :
  PyStr.span_not_rbracket (String c s) =
  if Ascii.eqb c "]" then (EmptyString, String c s)
  else let (g, r) := PyStr.span_not_rbracket s in (String c g, r).
Proof. reflexivity. Qed.

Lemma contains_rbracket_cons c g :
  PyStr.contains "]" (String c g) = Ascii.eqb c "]" || PyStr.contains "]" g.
Proof.
  rewrite contains_cons, startswith_cons, Ascii.eqb_sym.
  by destruct (Ascii.eqb c "]").
Qed.

(** The run that [[^\]]+] can match: the text up to the first ["]"]. *)
Lemma span_not_rbracket_spec s g r :
  PyStr.span_not_rbracket s = (g, r) ->
  s = (g ++ r)%string ∧ PyStr.contains "]" g = false ∧
  (r = EmptyString ∨ exists r', r = String "]" r').
Proof.
  revert g r. induction s as [|c s IH]; intros g r.
  - intros [= <- <-]. by eauto.
  - rewrite span_not_rbracket_cons. destruct (Ascii.eqb c "]") eqn:Hc.
    + apply Ascii.eqb_eq in Hc as ->. intros [= <- <-]. by eauto.
    + destruct (PyStr.span_not_rbracket s) as [g0 r0].
      destruct (IH g0 r0 eq_refl) as (-> & Hg0 & Hr0).
      intros [= <- <-]. split; [done|]. split; [|done].
      by rewrite contains_rbracket_cons, Hc.
Qed.

Lemma span_not_rbracket_app g post :
  PyStr.contains "]" g = false ->
  PyStr.span_not_rbracket (g ++ String "]" post) = (g, String "]" post).
Proof.
  induction g as [|c g IH].
  - intros _. by rewrite string_app_empty, span_not_rbracket_cons.
  - rewrite contains_rbracket_cons. intros [Hc Hg]%orb_false_iff.
    by rewrite string_app_cons, span_not_rbracket_cons, Hc, (IH Hg).
Qed.

Lemma match_input_here_sound s g :
  PyStr.match_input_here s = Some g ->
  g ≠ EmptyString ∧ PyStr.contains "]" g = false ∧
  exists post, s = ("INPUT=[" ++ g ++ "]" ++ post)%string.
Proof.
  unfold PyStr.match_input_here.
  destruct (PyStr.startswith "INPUT=[" s) eqn:Hs; [|done].
  apply startswith_split in Hs as [s' ->].
  change (PyStr.drop_chars 7 ("INPUT=[" ++ s')) with s'.
  destruct (PyStr.span_not_rbracket s') as [g0 r0] eqn:Hspan.
  apply span_not_rbracket_spec in Hspan as (-> & Hg0 & Hr0).
  destruct g0 as [|c g0]; [done|]. destruct r0 as [|c' r0]; [done|].
  intros [= <-]. split; [done|]. split; [done|].
  destruct Hr0 as [?|[r' [= -> ->]]]; [done|]. by exists r'.
Qed.

Lemma match_input_here_complete g post :
  g ≠ EmptyString -> PyStr.contains "]" g = false ->
  PyStr.match_input_here ("INPUT=[" ++ g ++ "]" ++ post) = Some g.
Proof.
  intros Hne Hg. unfold PyStr.match_input_here.
  rewrite startswith_app.
  change (PyStr.drop_chars 7 ("INPUT=[" ++ g ++ "]" ++ post))
    with (g ++ String "]" post)%string.
  rewrite span_not_rbracket_app by done. by destruct g.
Qed.

Lemma re_search_input_eq l :
  PyStr.re_search_input l =
  match PyStr.match_input_here l with
  | Some g => Some g
  | None =>
      match l with
      | EmptyString => None
      | String _ l' => PyStr.re_search_input l'
      end
  end.
Proof. by destruct l. Qed.

(** X4: the search for [INPUT=\[([^\]]+)\]] in a line finds a file name
    exactly when the line has [INPUT=[], a non-empty text free of ["]"], and
    ["]"] in a row; the name found is such a text, and when the line begins
    with the pattern the name is the bracketed text. *)
Theorem re_search_input_spec l :
  (forall g, PyStr.re_search_input l = Some g ->
     g ≠ EmptyString ∧ PyStr.contains "]" g = false ∧
     exists pre post, l = (pre ++ "INPUT=[" ++ g ++ "]" ++ post)%string) ∧
  (is_Some (PyStr.re_search_input l) <->
   exists pre g post,
     l = (pre ++ "INPUT=[" ++ g ++ "]" ++ post)%string ∧
     g ≠ EmptyString ∧ PyStr.contains "]" g = false) ∧
  (forall g post,
     g ≠ EmptyString -> PyStr.contains "]" g = false ->
     PyStr.re_search_input ("INPUT=[" ++ g ++ "]" ++ post) = Some g).
Proof.
  assert (Hsound : forall l g, PyStr.re_search_input l = Some g ->
            g ≠ EmptyString ∧ PyStr.contains "]" g = false ∧
            exists pre post, l = (pre ++ "INPUT=[" ++ g ++ "]" ++ post)%string).
  { clear l. intros l. induction l as [|c l IH]; intros g; rewrite re_search_input_eq.
    - destruct (PyStr.match_input_here "") as [g0|] eqn:Hm; [|done].
      intros [= <-]. apply match_input_here_sound in Hm as (? & ? & post & Hpost).
      split; [done|]. split; [done|]. by exists EmptyString, post.
    - destruct (PyStr.match_input_here (String c l)) as [g0|] eqn:Hm.
      + intros [= <-]. apply match_input_here_sound in Hm as (? & ? & post & Hpost).
        split; [done|]. split; [done|]. by exists EmptyString, post.
      + intros (? & ? & pre & post & ->)%IH.
        split; [done|]. split; [done|]. by exists (String c pre), post. }
  split; [apply Hsound|]. split; [split|].
  - intros [g Hg]. destruct (Hsound l g Hg) as (? & ? & pre & post & ?).
    by exists pre, g, post.
  - intros (pre & g & post & -> & Hne & Hg). induction pre as [|c pre IH].
    + rewrite string_app_empty, re_search_input_eq.
      rewrite match_input_here_complete by done. eauto.
    + rewrite string_app_cons, re_search_input_eq.
      by destruct (PyStr.match_input_here _).
  - intros g post Hne Hg. rewrite re_search_input_eq.
    by rewrite match_input_here_complete.
Qed.

Lemma rstrip_cons c s :
  PyStr.rstrip (String c s) =
  match PyStr.rstrip s with
  | EmptyString => if PyStr.is_space c then EmptyString else String c EmptyString
  | r => String c r
  end.
Proof. reflexivity. Qed.

Lemma lstrip_cons c s :
  PyStr.lstrip (String c s) = if PyStr.is_space c then PyStr.lstrip s else String c s.
Proof. reflexivity. Qed.

Lemma all_space_cons c s :
  all_space (String c s) = PyStr.is_space c && all_space s.
Proof. reflexivity. Qed.

Lemma rstrip_all_space ws : all_space ws = true -> PyStr.rstrip ws = EmptyString.
Proof.
  induction ws as [|c ws IH]; [done|].
  rewrite all_space_cons. intros [Hc Hws]%andb_true_iff.
  by rewrite rstrip_cons, (IH Hws), Hc.
Qed.

Lemma lstrip_all_space ws : all_space ws = true -> PyStr.lstrip ws = EmptyString.
Proof.
  induction ws as [|c ws IH]; [done|].
  rewrite all_space_cons. intros [Hc Hws]%andb_true_iff.
  by rewrite lstrip_cons, Hc, (IH Hws).
Qed.

Lemma rstrip_app_space s ws :
  all_space ws = true -> PyStr.rstrip (s ++ ws) = PyStr.rstrip s.
Proof.
  intros Hws. induction s as [|c s IH].
  - rewrite string_app_empty. by apply rstrip_all_space.
  - by rewrite string_app_cons, !rstrip_cons, IH.
Qed.

Lemma lstrip_app_space ws s :
  all_space ws = true -> PyStr.lstrip (ws ++ s) = PyStr.lstrip s.
Proof.
  induction ws as [|c ws IH]; [done|].
  rewrite all_space_cons. intros [Hc Hws]%andb_true_iff.
  by rewrite string_app_cons, lstrip_cons, Hc, (IH Hws).
Qed.

Lemma strip_app_space s ws :
  all_space ws = true -> PyStr.strip (s ++ ws) = PyStr.strip s.
Proof.
  intros Hws. unfold PyStr.strip. induction s as [|c s IH].
  - rewrite string_app_empty. by rewrite (lstrip_all_space _ Hws).
  - rewrite string_app_cons, !lstrip_cons. destruct (PyStr.is_space c); [done|].
    rewrite <- string_app_cons. by apply rstrip_app_space.
Qed.

(** What a tab-free tail does to the tokens of a line: it goes to the
    last token. *)
Lemma split_tab_app_tail s t :
  PyStr.contains (String PyStr.tab "") t = false ->
  exists init lst,
    PyStr.split_tab s = init ++ [lst] ∧
    PyStr.split_tab (s ++ t) = init ++ [(lst ++ t)%string].
Proof.
  intros Ht. induction s as [|c s (init & lst & Hs & Hst)].
  - exists [], EmptyString. split; [done|].
    rewrite !string_app_empty. by apply split_tab_no_tab.
  - rewrite string_app_cons, !split_tab_cons, Hs, Hst.
    destruct (Ascii.eqb c PyStr.tab).
    + by exists (EmptyString :: init), lst.
    + destruct init as [|i0 init].
      * by exists [], (String c lst).
      * by exists (String c i0 :: init), lst.
Qed.

(** X5: white space around a value token -- the newline that ends the
    last token of a row is the usual case -- does not change what [float]
    makes of it, so the last value of a row is coerced like the others; the
    last header token, which nothing strips, keeps the newline in its
    name. *)
Theorem line_end_in_tokens ws1 tok ws2 :
  all_space ws1 = true ->
  all_space ws2 = true ->
  py_float (ws1 ++ tok ++ ws2) = py_float tok ∧
  (forall row,
     PyStr.contains (String PyStr.tab "") ws2 = false ->
     exists init lst,
       PyStr.split_tab row = init ++ [lst] ∧
       PyStr.split_tab (row ++ ws2) = init ++ [(lst ++ ws2)%string]).
Proof.
  intros H1 H2. split.
  - unfold py_float, PyFloat.parse.
    assert (PyStr.strip (ws1 ++ tok ++ ws2) = PyStr.strip tok) as ->; [|done].
    unfold PyStr.strip. rewrite lstrip_app_space by done.
    by apply strip_app_space.
  - intros row Htab. by apply split_tab_app_tail.
Qed.

(** *** The scan as a two-state machine *)

Section Scan.

Variable clean_s_name : string -> string -> string.

Local Abbreviation parse_lines := (parse_lines clean_s_name).
Local Abbreviation new_log_starting := (new_log_starting clean_s_name).
Local Abbreviation sample_id := (sample_id clean_s_name).
Local Abbreviation after_record := (after_record clean_s_name).

(** With no sample pending, lines that start no log change nothing. *)
Lemma parse_lines_idle root lines w :
  forallb (fun l => negb (is_new_log l)) lines = true ->
  parse_lines root None lines w = (Return tt, w).
Proof.
  induction lines as [|l lines IH]; [done|].
  simpl forallb. intros [Hl Hls]%andb_true_iff. apply negb_true_iff in Hl.
  rewrite parse_lines_cons, Hl. unfold bind, ret. by apply IH.
Qed.

(** A line that does not start a log and is not a metrics-class line is
    passed over, whatever is pending. *)
Lemma parse_lines_filler root s_name l rest w :
  is_filler l = true ->
  parse_lines root s_name (l :: rest) w = parse_lines root s_name rest w.
Proof.
  unfold is_filler. intros [Hn Hc]%andb_true_iff.
  apply negb_true_iff in Hn, Hc.
  rewrite parse_lines_cons, Hn, Hc. unfold bind, ret. by destruct s_name.
Qed.

(** A marker line whose [INPUT] has no file name the pattern finds:
    nothing is pending after it. *)
Lemma parse_lines_unmatched root s_name l rest w :
  is_new_log l = true ->
  PyStr.re_search_input l = None ->
  parse_lines root s_name (l :: rest) w = parse_lines root None rest w.
Proof.
  intros Hn Hp. rewrite parse_lines_cons, Hn.
  by rewrite (bind_return _ _ _ _ _ (new_log_starting_no_match _ _ _ _ Hp)).
Qed.

(** X6: a log in which no line has both [picard.sam.MarkDuplicates] and
    [INPUT] is scanned to its end and leaves everything as it was: the map,
    the log, the general statistics. Metrics-class lines and rows in it are
    not read as a record. *)
Theorem scan_without_marker f w :
  forallb (fun l => negb (is_new_log l)) (f_lines f) = true ->
  parse_picard_dupMetrics clean_s_name f w = (Return tt, w).
Proof. intros Hf. unfold parse_picard_dupMetrics. by apply parse_lines_idle. Qed.

(** X7: a marker line whose [INPUT=[...]] pattern does not match clears
    the pending sample, so a metrics block that follows it is credited to no
    sample, not even to the sample of an earlier marker line: scanning the
    line and then lines that start no log changes nothing. *)
Theorem unmatched_marker_drops_block root s_name l rest w :
  is_new_log l = true ->
  PyStr.re_search_input l = None ->
  forallb (fun l' => negb (is_new_log l')) rest = true ->
  parse_lines root s_name (l :: rest) w = (Return tt, w).
Proof.
  intros Hn Hp Hrest. rewrite parse_lines_unmatched by done.
  by apply parse_lines_idle.
Qed.

(** X8: lines that neither start a log nor are a metrics-class line are
    passed over in either state: put before any lines, they do not change
    what the scan of those lines does. *)
Theorem filler_lines_ignored root s_name fillers rest w :
  forallb is_filler fillers = true ->
  parse_lines root s_name (fillers ++ rest) w = parse_lines root s_name rest w.
Proof.
  induction fillers as [|l fillers IH]; [done|].
  simpl forallb. intros [Hl Hls]%andb_true_iff.
  rewrite <- app_comm_cons, parse_lines_filler by done. by apply IH.
Qed.

(** X9: after a well-formed record the scan is idle again: lines after
    it that start no log -- a second metrics block for the same sample among
    them -- add nothing to what the record gave. *)
Theorem second_block_ignored root s_name r rest w :
  well_formed r = true ->
  forallb (fun l => negb (is_new_log l)) rest = true ->
  parse_lines root s_name (record_lines r ++ rest) w
    = (Return tt, after_record root w r).
Proof.
  intros Hr Hrest. rewrite parse_lines_record by done. by apply parse_lines_idle.
Qed.

(** X10: a log that ends on the metrics-class line of a pending sample,
    or one line after it, makes the scan raise [StopIteration] from
    [next()]; the sample's entry is left in the map, empty. *)
Theorem truncated_block_raises root s_name marker cls tail w path :
  is_new_log marker = true ->
  PyStr.re_search_input marker = Some path ->
  is_metrics_class marker = false ->
  is_new_log cls = false ->
  is_metrics_class cls = true ->
  (length tail < 2)%nat ->
  exists w',
    parse_lines root s_name (marker :: cls :: tail) w = (Raise StopIteration, w') ∧
    picard_dupMetrics_data w' !! clean_s_name (PyStr.basename path) root = Some ∅.
Proof.
  intros Hn Hp Hnc Hcn Hcc Hlen.
  rewrite parse_lines_cons, Hn, Hnc.
  erewrite bind_return by (by apply new_log_starting_match).
  cbv beta iota. rewrite parse_lines_cons, Hcn, Hcc.
  eexists. split.
  - unfold bind at 1, ret.
    destruct tail as [|t1 [|t2 tail]]; [reflexivity|reflexivity|simpl in Hlen; lia].
  - rewrite data_set_data.
    destruct (picard_dupMetrics_data w !! _); by rewrite ?data_add_log, lookup_insert_eq.
Qed.

End Scan.

(** *** What the scan leaves alone *)

Lemma only_map_and_log_refl w : only_map_and_log w w.
Proof.
  repeat split. exists []. by rewrite app_nil_r.
Qed.

Lemma only_map_and_log_trans w1 w2 w3 :
  only_map_and_log w1 w2 -> only_map_and_log w2 w3 -> only_map_and_log w1 w3.
Proof.
  intros (Hs & Hh & Hr & Hc & new1 & Hl1 & Hd1) (Hs' & Hh' & Hr' & Hc' & new2 & Hl2 & Hd2).
  split; [congruence|]. split; [congruence|]. split; [congruence|].
  split; [congruence|]. exists (new1 ++ new2). split.
  - by rewrite Hl2, Hl1, app_assoc.
  - by apply Forall_app.
Qed.

Lemma only_map_and_log_set_data d w : only_map_and_log w (set_data d w).
Proof. repeat split. exists []. by rewrite app_nil_r. Qed.

Lemma only_map_and_log_debug msg w : only_map_and_log w (add_log DEBUG msg w).
Proof. repeat split. exists [(DEBUG, msg)]. split; [done|]. by repeat constructor. Qed.

Lemma metric_setitem_only_data s k v w r w' :
  metric_setitem s k v w = (r, w') -> exists d, w' = set_data d w.
Proof.
  unfold metric_setitem, bind, gets, lift, dict_getitem, data_setitem, modify.
  destruct (picard_dupMetrics_data w !! s) as [m|]; intros [= <- <-]; [by eexists|].
  exists (picard_dupMetrics_data w). by rewrite set_data_same.
Qed.

Lemma store_field_only_data s vals i k w r w' :
  store_field s vals i k w = (r, w') -> exists d, w' = set_data d w.
Proof.
  assert (Hsame : exists d, w = set_data d w)
    by (exists (picard_dupMetrics_data w); by rewrite set_data_same).
  unfold store_field, try_except, bind, lift, list_getitem, py_float.
  destruct (vals !! i) as [tok|]; [|by intros [= <- <-]].
  destruct (PyFloat.parse tok) as [x|].
  - destruct (metric_setitem s k (VFloat x) w) as [[[]|e] w1] eqn:Hset.
    + intros [= <- <-]. by eapply metric_setitem_only_data.
    + apply metric_setitem_only_data in Hset as [d1 ->].
      destruct (decide (e = ValueError)).
      * intros [d2 ->]%metric_setitem_only_data. exists d2.
        by rewrite set_data_set_data.
      * intros [= <- <-]. by eexists.
  - rewrite decide_True by done. apply metric_setitem_only_data.
Qed.

Lemma store_fields_only_data s vals keys i w r w' :
  store_fields s vals i keys w = (r, w') -> exists d, w' = set_data d w.
Proof.
  revert i w. induction keys as [|k keys IH]; intros i w; simpl.
  - intros [= <- <-]. exists (picard_dupMetrics_data w). by rewrite set_data_same.
  - unfold bind. destruct (store_field s vals i k w) as [[[]|e] w1] eqn:Hf;
      apply store_field_only_data in Hf as [d1 ->].
    + intros [d2 ->]%IH. exists d2. by rewrite set_data_set_data.
    + intros [= <- <-]. by eexists.
Qed.

Section ScanFrame.

Variable clean_s_name : string -> string -> string.

Local Abbreviation parse_lines := (parse_lines clean_s_name).
Local Abbreviation new_log_starting := (new_log_starting clean_s_name).

Lemma new_log_step_only root l s_name w :
  exists s_name1 w1,
    (if is_new_log l then new_log_starting root l else ret s_name) w
      = (Return s_name1, w1) ∧ only_map_and_log w w1.
Proof.
  destruct (is_new_log l).
  - destruct (PyStr.re_search_input l) as [path|] eqn:Hp.
    + eexists _, _. split; [by apply new_log_starting_match|].
      destruct (picard_dupMetrics_data w !! _).
      * eapply only_map_and_log_trans;
          [apply only_map_and_log_debug|apply only_map_and_log_set_data].
      * apply only_map_and_log_set_data.
    + eexists _, _. split; [by apply new_log_starting_no_match|].
      apply only_map_and_log_refl.
  - eexists _, _. split; [reflexivity|]. apply only_map_and_log_refl.
Qed.

Lemma parse_lines_only root n :
  forall lines s_name w r w',
    (length lines <= n)%nat ->
    parse_lines root s_name lines w = (r, w') ->
    only_map_and_log w w'.
Proof.
  induction n as [|n IH]; intros lines s_name w r w' Hlen.
  { destruct lines; [|simpl in Hlen; lia]. intros [= <- <-].
    apply only_map_and_log_refl. }
  destruct lines as [|l rest]; [intros [= <- <-]; apply only_map_and_log_refl|].
  simpl in Hlen. rewrite parse_lines_cons.
  destruct (new_log_step_only root l s_name w) as (sn1 & w1 & Hstep & Hw1).
  rewrite (bind_return _ _ _ _ _ Hstep). intros Hrun.
  apply (only_map_and_log_trans _ w1); [done|].
  destruct sn1 as [s|]; [|eapply IH; [|exact Hrun]; lia].
  destruct (is_metrics_class l); [|eapply IH; [|exact Hrun]; lia].
  destruct rest as [|keys [|vals rest']];
    [injection Hrun as _ <-; apply only_map_and_log_refl..|].
  unfold bind in Hrun.
  destruct (store_fields s (PyStr.split_tab vals) 0 (PyStr.split_tab keys) w1)
    as [[[]|e] w2] eqn:Hst; apply store_fields_only_data in Hst as [d ->].
  - apply (only_map_and_log_trans _ (set_data d w1));
      [apply only_map_and_log_set_data|].
    eapply IH; [|exact Hrun]. simpl in Hlen. lia.
  - injection Hrun as _ <-. apply only_map_and_log_set_data.
Qed.

(** X11: scanning a log, however it ends, changes nothing but the map
    of metrics and the log: the sections, the general statistics and the
    files written are as before, and the log is the old one followed by
    debug messages only. *)
Theorem scan_changes_map_and_log f w :
  only_map_and_log w (parse_picard_dupMetrics clean_s_name f w).2.
Proof.
  unfold parse_picard_dupMetrics.
  destruct (parse_lines (f_root f) None (f_lines f) w) as [r w'] eqn:Hrun.
  by eapply (parse_lines_only (f_root f) (length (f_lines f))).
Qed.

End ScanFrame.

(** *** Fields by column *)

Lemma positional_zip_cons k keys v vals :
  Spec.positional_zip (k :: keys) (v :: vals) =
  Spec.positional_zip keys vals ∪ {[k := Spec.coerce v]}.
Proof.
  unfold Spec.positional_zip. rewrite fmap_cons. simpl zip.
  rewrite reverse_cons, list_to_map_app. simpl list_to_map.
  by rewrite insert_empty.
Qed.

Lemma positional_zip_not_header keys vals k :
  k ∉ keys -> Spec.positional_zip keys vals !! k = None.
Proof.
  intros Hk. unfold Spec.positional_zip. apply not_elem_of_list_to_map_1.
  intros ([k' v] & -> & Hin)%list_elem_of_fmap.
  rewrite elem_of_reverse in Hin. apply Hk. by apply elem_of_zip_l in Hin.
Qed.

(** The value under a header token is the coerced value token at the
    last index where the header token stands. *)
Lemma positional_zip_lookup keys vals i k v :
  keys !! i = Some k ->
  (forall j, (i < j)%nat -> keys !! j ≠ Some k) ->
  vals !! i = Some v ->
  Spec.positional_zip keys vals !! k = Some (Spec.coerce v).
Proof.
  revert vals i. induction keys as [|k0 keys IH]; intros vals i Hk Hlast Hv; [done|].
  destruct vals as [|v0 vals]; [by destruct i|].
  rewrite positional_zip_cons. destruct i as [|i].
  - injection Hk as ->. injection Hv as ->.
    rewrite lookup_union_r.
    + by rewrite lookup_singleton_eq.
    + apply positional_zip_not_header.
      intros [j Hj]%list_elem_of_lookup. apply (Hlast (S j)); [lia|done].
  - apply lookup_union_Some_l. apply (IH vals i); [done| |done].
    intros j Hj. apply (Hlast (S j)). lia.
Qed.

Section Columns.

Variable clean_s_name : string -> string -> string.

(** X12: after a well-formed record, the sample's metrics hold, under
    each header token, the coerced value token of the same column (of the
    last such column when a header token is repeated), and nothing under a
    name that is not a header token; value tokens beyond the last header
    token are dropped. *)
Theorem record_fields_by_column root r w :
  well_formed r = true ->
  exists m,
    picard_dupMetrics_data
      (parse_picard_dupMetrics clean_s_name (mk_logfile root (record_lines r)) w).2
      !! sample_id clean_s_name root r = Some m ∧
    (forall i k v,
       header_tokens r !! i = Some k ->
       (forall j, (i < j)%nat -> header_tokens r !! j ≠ Some k) ->
       value_tokens r !! i = Some v ->
       m !! k = Some (match py_float v with
                      | Return x => VFloat x
                      | Raise _ => VStr v
                      end)) ∧
    (forall k, k ∉ header_tokens r -> m !! k = None).
Proof.
  intros Hwf. exists (Spec.record_metrics r). split; [|split].
  - assert (Hrun : parse_lines clean_s_name root None (record_lines r) w
                     = (Return tt, after_record clean_s_name root w r)).
    { rewrite <- (app_nil_r (record_lines r)). by rewrite parse_lines_record. }
    unfold parse_picard_dupMetrics. simpl f_lines. simpl f_root.
    rewrite Hrun. cbn [snd]. by rewrite data_after_record, lookup_insert_eq.
  - intros i k v Hk Hlast Hv. unfold Spec.record_metrics.
    rewrite (positional_zip_lookup _ _ i k v) by done.
    unfold Spec.coerce, py_float. by destruct (PyFloat.parse v).
  - intros k Hk. by apply positional_zip_not_header.
Qed.

End Columns.

(** *** The general-statistics column *)

(** The three ways a turn of the loop of [picard_stats_table] ends. *)
Lemma stats_row_outcome sn m w :
  stats_row (sn, m) w =
  match m !! "PERCENT_DUPLICATION" with
  | None => (Raise KeyError, w)
  | Some (VStr _) => (Raise ValueError, w)
  | Some (VFloat p) =>
      (Return tt,
       set_rows (<[sn := <["picard_percent_duplication" := Spec.percent_cell p]>
                            (default ∅ (general_stats_rows w !! sn))]>
                   (general_stats_rows w)) w)
  end.
Proof.
  unfold stats_row, bind, lift, dict_getitem. simpl.
  by destruct (m !! "PERCENT_DUPLICATION") as [[p|t]|].
Qed.

Lemma set_rows_set_rows r1 r2 w : set_rows r2 (set_rows r1 w) = set_rows r2 w.
Proof. reflexivity. Qed.

Lemma set_rows_same w : set_rows (general_stats_rows w) w = w.
Proof. by destruct w. Qed.

Lemma stats_rows_only_rows items w r w' :
  for_each items stats_row w = (r, w') -> exists rows, w' = set_rows rows w.
Proof.
  revert w. induction items as [|[sn m] items IH]; intros w; simpl.
  - intros [= <- <-]. exists (general_stats_rows w). by rewrite set_rows_same.
  - unfold bind. rewrite stats_row_outcome.
    destruct (m !! "PERCENT_DUPLICATION") as [[p|t]|].
    + intros [rows ->]%IH. exists rows. by rewrite set_rows_set_rows.
    + intros [= <- <-]. exists (general_stats_rows w). by rewrite set_rows_same.
    + intros [= <- <-]. exists (general_stats_rows w). by rewrite set_rows_same.
Qed.

(** An item without a number under [PERCENT_DUPLICATION] stops the loop. *)
Lemma stats_loop_aborts items sn m w :
  (sn, m) ∈ items ->
  m !! "PERCENT_DUPLICATION" = None ->
  exists e w',
    for_each items stats_row w = (Raise e, w') ∧
    (e = KeyError ∨ e = ValueError) ∧
    ((forall s m' v, (s, m') ∈ items -> m' !! "PERCENT_DUPLICATION" = Some v ->
        exists x, v = VFloat x) -> e = KeyError).
Proof.
  intros Hin Hnone. revert w.
  induction items as [|[s0 m0] items IH]; intros w; [by apply elem_of_nil in Hin|].
  simpl. unfold bind. rewrite stats_row_outcome.
  destruct (m0 !! "PERCENT_DUPLICATION") as [[p|t]|] eqn:Hp.
  - apply elem_of_cons in Hin as [[= -> ->]|Hin]; [congruence|].
    destruct (IH Hin (set_rows (<[s0 := <["picard_percent_duplication" := Spec.percent_cell p]>
                            (default ∅ (general_stats_rows w !! s0))]>
                   (general_stats_rows w)) w)) as (e & w' & Hrun & He & Hnum).
    exists e, w'. split; [done|]. split; [done|].
    intros Hall. apply Hnum. intros s m' v Hs. apply (Hall s m' v). by right.
  - eexists _, _. split; [done|]. split; [by right|].
    intros Hall. destruct (Hall s0 m0 (VStr t)) as [x [=]]; [left|done].
  - eexists _, _. split; [done|]. split; [by left|done].
Qed.

(** The rows after [picard_stats_table] on a map whose samples all
    hold a number under [PERCENT_DUPLICATION]. *)
Lemma picard_stats_table_rows w :
  (forall s m, picard_dupMetrics_data w !! s = Some m -> numeric_percent m) ->
  exists rows,
    picard_stats_table w =
      (Return tt,
       set_rows rows
         (set_headers (<["picard_percent_duplication" := percent_duplication_header]>
                         (general_stats_headers w)) w)) ∧
    (forall s m, picard_dupMetrics_data w !! s = Some m ->
       rows !! s = with_percent_cell (general_stats_rows w) s m) ∧
    (forall s, picard_dupMetrics_data w !! s = None ->
       rows !! s = general_stats_rows w !! s).
Proof.
  intros Hall.
  set (w0 := set_headers (<["picard_percent_duplication" := percent_duplication_header]>
                            (general_stats_headers w)) w).
  destruct (stats_loop_values (dict_items (picard_dupMetrics_data w)) w0)
    as (w' & Hloop & _ & Hframe & Hvals).
  { apply NoDup_fst_map_to_list. }
  { intros sn m Hin%elem_of_map_to_list. by apply (Hall sn m). }
  destruct (stats_rows_only_rows _ _ _ _ Hloop) as [rows ->].
  exists rows. split; [exact Hloop|]. split.
  - intros s m Hm. destruct (Hall s m Hm) as [p Hp].
    unfold with_percent_cell. rewrite Hp.
    apply (Hvals s m p); [by apply elem_of_map_to_list|done].
  - intros s Hs. apply (Hframe s).
    intros ([s' m] & -> & Hin%elem_of_map_to_list)%list_elem_of_fmap.
    simpl in Hs. congruence.
Qed.

(** X13: when every sample holds a number under [PERCENT_DUPLICATION],
    [picard_stats_table] ends normally; it sets the column header, leaves
    the map of metrics alone, and in the general statistics gives every
    sample of the map the cell of its percentage -- added to the columns the
    sample's row already has, or to a new row -- and touches the row of no
    other sample. *)
Theorem stats_table_complete w :
  (forall s m, picard_dupMetrics_data w !! s = Some m -> numeric_percent m) ->
  exists w' ,
    picard_stats_table w = (Return tt, w') ∧
    picard_dupMetrics_data w' = picard_dupMetrics_data w ∧
    general_stats_headers w' =
      <["picard_percent_duplication" := percent_duplication_header]>
        (general_stats_headers w) ∧
    (forall s m p, picard_dupMetrics_data w !! s = Some m ->
       m !! "PERCENT_DUPLICATION" = Some (VFloat p) ->
       exists row,
         general_stats_rows w' !! s = Some row ∧
         row !! "picard_percent_duplication" = Some (Spec.percent_cell p) ∧
         forall col, col ≠ "picard_percent_duplication"%string ->
           row !! col = default ∅ (general_stats_rows w !! s) !! col) ∧
    (forall s, picard_dupMetrics_data w !! s = None ->
       general_stats_rows w' !! s = general_stats_rows w !! s).
Proof.
  intros Hall.
  destruct (picard_stats_table_rows w Hall) as (rows & Hrun & Hrows & Hframe).
  eexists. split; [exact Hrun|]. split; [done|]. split; [done|]. split; [|done].
  intros s m p Hm Hp. simpl. rewrite (Hrows s m Hm).
  unfold with_percent_cell. rewrite Hp. eexists. split; [done|]. split.
  - by rewrite lookup_insert_eq.
  - intros col Hcol. by rewrite lookup_insert_ne.
Qed.

(** X14: when a sample of the map has nothing under
    [PERCENT_DUPLICATION], [picard_stats_table] raises -- [KeyError], or
    [ValueError] when a sample visited before it holds a text there -- after
    it has set the column header; the map of metrics is as it was. *)
Theorem stats_table_missing_percent w sn m :
  picard_dupMetrics_data w !! sn = Some m ->
  m !! "PERCENT_DUPLICATION" = None ->
  exists e w',
    picard_stats_table w = (Raise e, w') ∧
    (e = KeyError ∨ e = ValueError) ∧
    ((forall s m' v, picard_dupMetrics_data w !! s = Some m' ->
        m' !! "PERCENT_DUPLICATION" = Some v -> exists x, v = VFloat x) ->
     e = KeyError) ∧
    picard_dupMetrics_data w' = picard_dupMetrics_data w ∧
    general_stats_headers w' !! "picard_percent_duplication"
      = Some percent_duplication_header.
Proof.
  intros Hm Hnone.
  set (w0 := set_headers (<["picard_percent_duplication" := percent_duplication_header]>
                            (general_stats_headers w)) w).
  destruct (stats_loop_aborts (dict_items (picard_dupMetrics_data w)) sn m w0)
    as (e & w' & Hloop & He & Hnum); [by apply elem_of_map_to_list|done|].
  destruct (stats_rows_only_rows _ _ _ _ Hloop) as [rows ->].
  exists e, (set_rows rows w0). split; [exact Hloop|]. split; [done|].
  split; [|split; [done|]].
  - intros Hall. apply Hnum. intros s m' v Hin%elem_of_map_to_list.
    by apply (Hall s).
  - simpl. by rewrite lookup_insert_eq.
Qed.

(** *** The derived fields of a whole map *)

Lemma derived_metrics_sources m ue ud pd po pe :
  Spec.has_sources m ue ud pd po pe ->
  derived_metrics m = Spec.with_derived m ue ud pd po pe.
Proof.
  intros (Hue & Hud & Hpd & Hpo & Hpe). unfold derived_metrics.
  by rewrite Hue, Hud, Hpd, Hpo, Hpe.
Qed.

Lemma derive_sample_only_data sn w r w' :
  derive_sample sn w = (r, w') -> exists d, w' = set_data d w.
Proof.
  assert (Hsame : exists d, w = set_data d w)
    by (exists (picard_dupMetrics_data w); by rewrite set_data_same).
  destruct (picard_dupMetrics_data w !! sn) as [m|] eqn:Hs.
  - destruct (derive_sample_outcomes sn w m Hs)
      as [(e & _ & ->)|[(ue & ud & e & _ & _ & _ & ->)|
          [(ue & ud & pd & po & e & _ & _ & _ & _ & _ & ->)|
           (ue & ud & pd & po & pe & _ & ->)]]];
      intros [= <- <-]; by eauto.
  - rewrite (derive_sample_no_entry _ _ Hs). by intros [= <- <-].
Qed.

Lemma derive_loop_only_data order w r w' :
  for_each order derive_sample w = (r, w') -> exists d, w' = set_data d w.
Proof.
  revert w. induction order as [|s order IH]; intros w; simpl.
  - intros [= <- <-]. exists (picard_dupMetrics_data w). by rewrite set_data_same.
  - unfold bind. destruct (derive_sample s w) as [[[]|e] w1] eqn:Hs;
      apply derive_sample_only_data in Hs as [d1 ->].
    + intros [d2 ->]%IH. exists d2. by rewrite set_data_set_data.
    + intros [= <- <-]. by eexists.
Qed.

(** Over the samples of a map that all have their five numbers, visited
    once each in any order, the loop ends with the map of derived metrics. *)
Lemma derive_loop_complete order w :
  NoDup order ->
  (forall s, s ∈ order <-> is_Some (picard_dupMetrics_data w !! s)) ->
  (forall s m, picard_dupMetrics_data w !! s = Some m -> numeric_sources m) ->
  for_each order derive_sample w =
    (Return tt, set_data (derived_metrics <$> picard_dupMetrics_data w) w).
Proof.
  intros Hnd Hkeys Hall.
  destruct (derive_loop_values order w Hnd) as (w' & Hloop & Hframe & Hvals).
  { intros s [m Hm]%Hkeys.
    destruct (Hall s m Hm) as (ue & ud & pd & po & pe & Hsrc). eauto 10. }
  rewrite Hloop. f_equal.
  destruct (derive_loop_only_data _ _ _ _ Hloop) as [d ->].
  f_equal. rewrite data_set_data in Hframe, Hvals.
  apply map_eq. intros s. rewrite lookup_fmap.
  destruct (picard_dupMetrics_data w !! s) as [m|] eqn:Hm.
  - destruct (Hall s m Hm) as (ue & ud & pd & po & pe & Hsrc).
    rewrite (Hvals s m ue ud pd po pe); [|apply Hkeys; eauto|done..].
    simpl. by rewrite (derived_metrics_sources _ _ _ _ _ _ Hsrc).
  - rewrite Hframe; [by rewrite Hm|]. rewrite Hkeys, Hm. by intros [? [=]].
Qed.

Lemma with_derived_idem m ue ud pd po pe :
  Spec.with_derived (Spec.with_derived m ue ud pd po pe) ue ud pd po pe
  = Spec.with_derived m ue ud pd po pe.
Proof.
  unfold Spec.with_derived. apply map_eq. intros k.
  rewrite !lookup_insert. repeat case_decide; done.
Qed.

(** X15: the derived fields are stable: for a sample with its five
    numbers, running the body of the derived-field loop a second time ends
    normally and changes nothing, since no derived field is a source field
    of another. *)
Theorem derive_sample_twice sn w m ue ud pd po pe :
  picard_dupMetrics_data w !! sn = Some m ->
  Spec.has_sources m ue ud pd po pe ->
  exists w1,
    derive_sample sn w = (Return tt, w1) ∧
    derive_sample sn w1 = (Return tt, w1).
Proof.
  intros Hm Hsrc. eexists. split; [by apply derive_sample_sources|].
  erewrite derive_sample_sources.
  - rewrite data_set_data, set_data_set_data, insert_insert_eq.
    by rewrite with_derived_idem.
  - by rewrite data_set_data, lookup_insert_eq.
  - by apply has_sources_with_derived.
Qed.

(** [mark_duplicates_plot] on a map whose samples all have their five
    numbers. *)
Lemma mark_duplicates_plot_complete plot_bargraph w :
  (forall s m, picard_dupMetrics_data w !! s = Some m -> numeric_sources m) ->
  mark_duplicates_plot plot_bargraph w =
    (Return (plot_bargraph (derived_metrics <$> picard_dupMetrics_data w)
               plot_keys plot_config),
     set_data (derived_metrics <$> picard_dupMetrics_data w) w).
Proof.
  intros Hall. unfold mark_duplicates_plot, bind at 1, gets.
  erewrite bind_return.
  2:{ apply derive_loop_complete; [apply NoDup_fst_map_to_list| |done].
      intros s. apply elem_of_dict_keys. }
  reflexivity.
Qed.

(** X16: when every sample of the map has numbers for the five source
    fields, the derived-field loop gives the same map in whatever order it
    visits the samples -- each sample's metrics with its three derived
    fields, every other field as it was -- and [mark_duplicates_plot]
    returns the chart of that map and leaves all but the map alone. *)
Theorem derived_map_any_order plot_bargraph w :
  (forall s m, picard_dupMetrics_data w !! s = Some m -> numeric_sources m) ->
  (forall order1 order2,
     NoDup order1 -> NoDup order2 ->
     (forall s, s ∈ order1 <-> is_Some (picard_dupMetrics_data w !! s)) ->
     (forall s, s ∈ order2 <-> is_Some (picard_dupMetrics_data w !! s)) ->
     for_each order1 derive_sample w = for_each order2 derive_sample w) ∧
  exists w',
    mark_duplicates_plot plot_bargraph w =
      (Return (plot_bargraph (picard_dupMetrics_data w') plot_keys plot_config), w') ∧
    only_map_and_log w w' ∧ log_records w' = log_records w ∧
    dom (picard_dupMetrics_data w') = dom (picard_dupMetrics_data w) ∧
    forall s m ue ud pd po pe,
      picard_dupMetrics_data w !! s = Some m ->
      Spec.has_sources m ue ud pd po pe ->
      exists m',
        picard_dupMetrics_data w' !! s = Some m' ∧
        m' !! "UNPAIRED_READ_UNIQUE" = Some (VFloat (ue - ud)%float) ∧
        m' !! "READ_PAIR_NOT_OPTICAL_DUPLICATES" = Some (VFloat (pd - po)%float) ∧
        m' !! "READ_PAIR_UNIQUE" = Some (VFloat (pe - pd)%float) ∧
        forall k, k ∉ Spec.derived_fields -> m' !! k = m !! k.
Proof.
  intros Hall. split.
  - intros order1 order2 Hnd1 Hnd2 Hk1 Hk2.
    by rewrite !derive_loop_complete.
  - exists (set_data (derived_metrics <$> picard_dupMetrics_data w) w).
    split; [by apply mark_duplicates_plot_complete|].
    split; [apply only_map_and_log_set_data|]. split; [done|].
    rewrite data_set_data. split; [by rewrite dom_fmap_L|].
    intros s m ue ud pd po pe Hm Hsrc. rewrite lookup_fmap, Hm. simpl.
    rewrite (derived_metrics_sources _ _ _ _ _ _ Hsrc). unfold Spec.with_derived.
    eexists. split; [done|].
    split; [by rewrite !lookup_insert_ne, lookup_insert_eq by done|].
    split; [by rewrite lookup_insert_ne, lookup_insert_eq by done|].
    split; [by rewrite lookup_insert_eq|].
    intros k Hk. rewrite !lookup_insert_ne; [done|..];
      intros <-; apply Hk; unfold Spec.derived_fields; set_solver.
Qed.

(** *** The constructor, step by step *)

Section InitSteps.

Variable clean_s_name : string -> string -> string.
Variable analysis_dir : string.
Variable plot_bargraph :
  gmap string (gmap string value) -> list (string * string) ->
  list (string * string) -> string.

Local Abbreviation parse_file := (parse_picard_dupMetrics clean_s_name).
Local Abbreviation load := (find_and_load clean_s_name).
Local Abbreviation run_init := (init clean_s_name analysis_dir plot_bargraph).

(** With a map that is not empty, [__init__] comes to the statistics
    table and the plot. *)
Lemma init_nonempty found w w1 :
  load found w = (Return tt, w1) ->
  picard_dupMetrics_data w1 ≠ ∅ ->
  run_init found w =
  bind picard_stats_table
    (fun _ => bind (mark_duplicates_plot plot_bargraph)
       (fun content => modify (fun w => set_sections
          (sections w ++ [mk_section "Mark Duplicates" "picard-markduplicates" content])
          w)))
    (before_stats_table w1).
Proof.
  intros Hload Hne. unfold init. rewrite (bind_return _ _ _ _ _ Hload).
  unfold bind at 1, gets.
  assert (Hsize : (size (picard_dupMetrics_data w1) =? 0)%nat = false).
  { apply Nat.eqb_neq. by intros ?%map_size_empty_inv. }
  unfold bind at 1. rewrite Hsize. unfold ret at 1.
  unfold bind at 1, log_info, modify at 1.
  unfold bind at 1, modify at 1.
  unfold bind at 1, modify at 1.
  reflexivity.
Qed.

(** With an empty map, [__init__] logs and raises. *)
Lemma init_empty found w w1 :
  load found w = (Return tt, w1) ->
  picard_dupMetrics_data w1 = ∅ ->
  run_init found w =
  (Raise UserWarning,
   add_log DEBUG ("Could not find any reports in " ++ analysis_dir)%string w1).
Proof.
  intros Hload He. unfold init. rewrite (bind_return _ _ _ _ _ Hload).
  unfold bind at 1, gets. rewrite He. reflexivity.
Qed.

(** Files in which no line starts a log leave the world as it is. *)
Lemma load_idle found w :
  forallb (fun f => forallb (fun l => negb (is_new_log l)) (f_lines f)) found = true ->
  for_each found parse_file w = (Return tt, w).
Proof.
  induction found as [|f found IH]; [done|].
  simpl forallb. intros [Hf Hfound]%andb_true_iff. simpl for_each.
  unfold parse_picard_dupMetrics at 1.
  rewrite (bind_return _ _ _ _ _ (parse_lines_idle clean_s_name _ _ w Hf)).
  by apply IH.
Qed.

(** Scanning files one after the other changes the map and the log only. *)
Lemma load_only found w r w' :
  for_each found parse_file w = (r, w') -> only_map_and_log w w'.
Proof.
  revert w. induction found as [|f found IH]; intros w; simpl.
  - intros [= <- <-]. apply only_map_and_log_refl.
  - unfold bind. destruct (parse_file f w) as [[[]|e] w1] eqn:Hf;
      unfold parse_picard_dupMetrics in Hf;
      apply (parse_lines_only clean_s_name (f_root f) _ _ _ _ _ _ (Nat.le_refl _))
        in Hf.
    + intros Hrest%IH. by eapply only_map_and_log_trans.
    + by intros [= <- <-].
Qed.

(** X17: when the files are loaded without an exception into a map that
    is not empty and in which every sample holds numbers for the five source
    fields and for [PERCENT_DUPLICATION], [__init__] ends normally: the
    count is logged, the file [multiqc_picard.txt] holds the metrics as
    parsed (without the derived fields, which are computed after it is
    written), every sample has its cell in the general statistics, the map
    has the derived fields, and the module has one section, [Mark
    Duplicates], whose content is the chart of that map. *)
Theorem init_complete found w w1 :
  load found w = (Return tt, w1) ->
  picard_dupMetrics_data w1 ≠ ∅ ->
  (forall s m, picard_dupMetrics_data w1 !! s = Some m ->
     numeric_sources m ∧ numeric_percent m) ->
  exists w',
    run_init found w = (Return tt, w') ∧
    picard_dupMetrics_data w' = derived_metrics <$> picard_dupMetrics_data w1 ∧
    sections w' =
      [mk_section "Mark Duplicates" "picard-markduplicates"
         (plot_bargraph (derived_metrics <$> picard_dupMetrics_data w1)
            plot_keys plot_config)] ∧
    csv_files w' = csv_files w1 ++ [("multiqc_picard.txt"%string, picard_dupMetrics_data w1)] ∧
    log_records w' =
      log_records w1 ++
      [(INFO, ("Found " ++ PyStr.str_of_Z (Z.of_nat (size (picard_dupMetrics_data w1)))
               ++ " reports")%string)] ∧
    (forall s m, picard_dupMetrics_data w1 !! s = Some m ->
       general_stats_rows w' !! s = with_percent_cell (general_stats_rows w1) s m) ∧
    (forall s, picard_dupMetrics_data w1 !! s = None ->
       general_stats_rows w' !! s = general_stats_rows w1 !! s).
Proof.
  intros Hload Hne Hall. rewrite (init_nonempty _ _ _ Hload Hne).
  destruct (picard_stats_table_rows (before_stats_table w1))
    as (rows & Htab & Hrows & Hframe).
  { intros s m Hm. by apply (Hall s m). }
  rewrite (bind_return _ _ _ _ _ Htab).
  erewrite bind_return.
  2:{ apply mark_duplicates_plot_complete. intros s m Hm. by apply (Hall s m). }
  eexists. split; [reflexivity|]. simpl.
  repeat split; try done.
Qed.

(** X18: when no line of any file starts a log, [__init__] raises
    [UserWarning] having done nothing but empty the module's map and log one
    debug message: nothing is written to the general statistics, to a file
    or to the sections. *)
Theorem init_nothing_found found w :
  forallb (fun f => forallb (fun l => negb (is_new_log l)) (f_lines f)) found = true ->
  run_init found w =
  (Raise UserWarning,
   add_log DEBUG ("Could not find any reports in " ++ analysis_dir)%string
     (set_data ∅ w)).
Proof.
  intros Hfound. apply init_empty; [|done].
  unfold find_and_load, bind, modify. by rewrite load_idle.
Qed.

(** X19: an exception of the scan of one file ends [__init__] with that
    exception, whatever the files after it hold: they are not scanned, and
    nothing is written to the general statistics, to a file or to the
    sections. *)
Theorem init_scan_exception pre f post w w1 e w2 :
  load pre w = (Return tt, w1) ->
  parse_picard_dupMetrics clean_s_name f w1 = (Raise e, w2) ->
  init clean_s_name analysis_dir plot_bargraph (pre ++ f :: post) w = (Raise e, w2) ∧
  sections w2 = sections w ∧
  general_stats_headers w2 = general_stats_headers w ∧
  general_stats_rows w2 = general_stats_rows w ∧
  csv_files w2 = csv_files w.
Proof.
  intros Hpre Hf.
  assert (Hload : load (pre ++ f :: post) w = (Raise e, w2)).
  { unfold find_and_load in *. unfold bind at 1 in Hpre. unfold modify in Hpre.
    unfold bind at 1, modify.
    rewrite for_each_app. rewrite (bind_return _ _ _ _ _ Hpre).
    simpl. by apply bind_raise. }
  split.
  - unfold init. by apply bind_raise.
  - unfold find_and_load in Hload. unfold bind at 1 in Hload. unfold modify in Hload.
    apply load_only in Hload as (? & ? & ? & ? & _). done.
Qed.

(** X20: when the files are loaded without an exception and a sample of
    the map has nothing under [PERCENT_DUPLICATION] -- a marker line with no
    metrics block after it leaves such a sample -- [__init__] raises
    [KeyError] (or [ValueError], when a sample visited before it holds a
    text there); by then the count is logged and the file of the parsed
    metrics is written, and the module has no section. *)
Theorem init_missing_percent found w w1 sn m :
  load found w = (Return tt, w1) ->
  picard_dupMetrics_data w1 !! sn = Some m ->
  m !! "PERCENT_DUPLICATION" = None ->
  exists e w',
    init clean_s_name analysis_dir plot_bargraph found w = (Raise e, w') ∧
    (e = KeyError ∨ e = ValueError) ∧
    sections w' = [] ∧
    csv_files w' = csv_files w1 ++ [("multiqc_picard.txt"%string, picard_dupMetrics_data w1)] ∧
    picard_dupMetrics_data w' = picard_dupMetrics_data w1.
Proof.
  intros Hload Hm Hnone.
  assert (Hne : picard_dupMetrics_data w1 ≠ ∅).
  { intros He. rewrite He in Hm. by rewrite lookup_empty in Hm. }
  rewrite (init_nonempty _ _ _ Hload Hne).
  set (w0 := set_headers (<["picard_percent_duplication" := percent_duplication_header]>
                            (general_stats_headers (before_stats_table w1)))
               (before_stats_table w1)).
  destruct (stats_loop_aborts (dict_items (picard_dupMetrics_data w1)) sn m w0)
    as (e & w' & Hloop & He & _); [by apply elem_of_map_to_list|done|].
  destruct (stats_rows_only_rows _ _ _ _ Hloop) as [rows ->].
  exists e, (set_rows rows w0). split; [|done].
  apply bind_raise. exact Hloop.
Qed.

(** X21: when every sample holds a number under [PERCENT_DUPLICATION]
    but a sample lacks one of the five source fields, [__init__] raises
    [KeyError] or [TypeError] in the derived-field loop: no section is
    added, yet the cells of all samples are in the general statistics
    already and the file of the parsed metrics is written. *)
Theorem init_missing_source found w w1 sn m k :
  load found w = (Return tt, w1) ->
  (forall s m', picard_dupMetrics_data w1 !! s = Some m' -> numeric_percent m') ->
  picard_dupMetrics_data w1 !! sn = Some m ->
  k ∈ Spec.source_fields ->
  m !! k = None ->
  exists e w',
    run_init found w = (Raise e, w') ∧
    (e = KeyError ∨ e = TypeError) ∧
    sections w' = [] ∧
    csv_files w' = csv_files w1 ++ [("multiqc_picard.txt"%string, picard_dupMetrics_data w1)] ∧
    (forall s m', picard_dupMetrics_data w1 !! s = Some m' ->
       general_stats_rows w' !! s = with_percent_cell (general_stats_rows w1) s m').
Proof.
  intros Hload Hall Hm Hk Hnone.
  assert (Hne : picard_dupMetrics_data w1 ≠ ∅).
  { intros He. rewrite He in Hm. by rewrite lookup_empty in Hm. }
  rewrite (init_nonempty _ _ _ Hload Hne).
  destruct (picard_stats_table_rows (before_stats_table w1) Hall)
    as (rows & Htab & Hrows & _).
  rewrite (bind_return _ _ _ _ _ Htab).
  set (w5 := set_rows rows _) in *.
  destruct (derive_loop_aborts (dict_keys (picard_dupMetrics_data w5)) sn w5 m k)
    as (e & w' & Hloop & He); [apply elem_of_dict_keys; eauto|done..|].
  destruct (derive_loop_only_data _ _ _ _ Hloop) as [d ->].
  exists e, (set_data d w5). split; [|done].
  apply bind_raise. unfold mark_duplicates_plot, bind at 1, gets.
  by apply bind_raise.
Qed.

End InitSteps.

(** ** The further properties at sample inputs *)

(** X5 at the last value token of a row, ["0.25"] with its newline. *)
Lemma line_end_in_tokens_witness :
  all_space "" = true ∧
  all_space Example.nl = true ∧
  py_float ("" ++ "0.25" ++ Example.nl) = py_float "0.25" ∧
  py_float ("0.25" ++ Example.nl) = Return 0.25%float.
Proof.
  split; [reflexivity|]. split; [reflexivity|].
  destruct (line_end_in_tokens "" "0.25" Example.nl eq_refl eq_refl) as [Hf _].
  split; [exact Hf|]. rewrite string_app_empty in Hf. rewrite Hf.
  vm_compute. reflexivity.
Defined.

(** X6 at the log of another tool. *)
Lemma scan_without_marker_witness :
  forallb (fun l => negb (is_new_log l)) (f_lines Example2.doc_other) = true ∧
  parse_picard_dupMetrics Example.sanitize Example2.doc_other Example2.world_A
    = (Return tt, Example2.world_A).
Proof.
  split; [reflexivity|].
  apply (scan_without_marker Example.sanitize Example2.doc_other Example2.world_A).
  reflexivity.
Defined.

(** X7 at a marker line without brackets followed by a metrics block,
    while sample [A] is pending. *)
Lemma unmatched_marker_drops_block_witness :
  is_new_log Example2.marker_unmatched = true ∧
  PyStr.re_search_input Example2.marker_unmatched = None ∧
  forallb (fun l' => negb (is_new_log l')) Example2.block = true ∧
  parse_lines Example.sanitize "/data" (Some "A"%string)
    (Example2.marker_unmatched :: Example2.block) Example2.world_A
    = (Return tt, Example2.world_A).
Proof.
  split; [reflexivity|]. split; [reflexivity|]. split; [reflexivity|].
  apply (unmatched_marker_drops_block Example.sanitize); reflexivity.
Defined.

(** X8 at the lines of another tool put before a record. *)
Lemma filler_lines_ignored_witness :
  forallb is_filler Example2.other_lines = true ∧
  parse_lines Example.sanitize "/data" None
    (Example2.other_lines ++ record_lines Example.record_A) Example.w0
  = parse_lines Example.sanitize "/data" None (record_lines Example.record_A) Example.w0.
Proof.
  split; [reflexivity|].
  apply (filler_lines_ignored Example.sanitize). reflexivity.
Defined.

(** X9 at the record of [A] followed by a second metrics block. *)
Lemma second_block_ignored_witness :
  well_formed Example.record_A = true ∧
  forallb (fun l => negb (is_new_log l)) Example2.block = true ∧
  parse_lines Example.sanitize "/data" None
    (record_lines Example.record_A ++ Example2.block) Example.w0
    = (Return tt, after_record Example.sanitize "/data" Example.w0 Example.record_A).
Proof.
  split; [reflexivity|]. split; [reflexivity|].
  apply (second_block_ignored Example.sanitize); reflexivity.
Defined.

(** X10 at a log that ends after the header row. *)
Lemma truncated_block_raises_witness :
  is_new_log (Example.marker "/data/T") = true ∧
  PyStr.re_search_input (Example.marker "/data/T") = Some "/data/T"%string ∧
  is_metrics_class (Example.marker "/data/T") = false ∧
  is_new_log Example.metrics_class = false ∧
  is_metrics_class Example.metrics_class = true ∧
  (length [Example2.header_only] < 2)%nat ∧
  exists w',
    parse_lines Example.sanitize "/data" None
      [Example.marker "/data/T"; Example.metrics_class; Example2.header_only]
      Example.w0 = (Raise StopIteration, w') ∧
    picard_dupMetrics_data w' !! "T"%string = Some ∅.
Proof.
  assert (Hlen : (length [Example2.header_only] < 2)%nat) by (simpl; lia).
  repeat (split; [first [reflexivity|exact Hlen]|]).
  exact (truncated_block_raises Example.sanitize "/data" None
           (Example.marker "/data/T") Example.metrics_class [Example2.header_only]
           Example.w0 "/data/T" eq_refl eq_refl eq_refl eq_refl eq_refl Hlen).
Defined.

(** X12 at the record of [A]: the fourth column is [UNMAPPED_READS]. *)
Lemma record_fields_by_column_witness :
  well_formed Example.record_A = true ∧
  header_tokens Example.record_A !! 3%nat = Some "UNMAPPED_READS"%string ∧
  value_tokens Example.record_A !! 3%nat = Some "3"%string ∧
  exists m,
    picard_dupMetrics_data
      (parse_picard_dupMetrics Example.sanitize
         (mk_logfile "/data" (record_lines Example.record_A)) Example.w0).2
      !! "A"%string = Some m ∧
    m !! "UNMAPPED_READS" = Some (VFloat 3).
Proof.
  assert (Hh : header_tokens Example.record_A !! 3%nat = Some "UNMAPPED_READS"%string)
    by reflexivity.
  assert (Hv : value_tokens Example.record_A !! 3%nat = Some "3"%string)
    by reflexivity.
  assert (Hlast : forall j, (3 < j)%nat ->
            header_tokens Example.record_A !! j ≠ Some "UNMAPPED_READS"%string).
  { intros j Hj.
    destruct j as [|[|[|[|[|[|[|[|[|j]]]]]]]]]; try lia;
      vm_compute; intros Hx; discriminate Hx. }
  split; [reflexivity|]. split; [exact Hh|]. split; [exact Hv|].
  destruct (record_fields_by_column Example.sanitize "/data" Example.record_A
              Example.w0 eq_refl) as (m & Hm & Hcol & _).
  exists m. split; [exact Hm|].
  rewrite (Hcol 3%nat _ _ Hh Hlast Hv). vm_compute. reflexivity.
Defined.

Lemma world_full_samples s m :
  picard_dupMetrics_data Example2.world_full !! s = Some m ->
  s = "A"%string ∧ m = Example2.metrics_full.
Proof.
  change (picard_dupMetrics_data Example2.world_full)
    with ({["A"%string := Example2.metrics_full]} : gmap string (gmap string value)).
  by intros [<- <-]%lookup_singleton_Some.
Qed.

Lemma metrics_full_sources :
  Spec.has_sources Example2.metrics_full 100 10 40 5 200.
Proof. repeat split; reflexivity. Qed.

(** X13 at a map with the complete sample [A]: the cell shows [25.0]. *)
Lemma stats_table_complete_witness :
  (forall s m, picard_dupMetrics_data Example2.world_full !! s = Some m ->
     numeric_percent m) ∧
  exists w' row,
    picard_stats_table Example2.world_full = (Return tt, w') ∧
    general_stats_rows w' !! "A"%string = Some row ∧
    row !! "picard_percent_duplication" = Some (Spec.percent_cell 0.25).
Proof.
  assert (Hall : forall s m, picard_dupMetrics_data Example2.world_full !! s = Some m ->
            numeric_percent m).
  { intros s m [-> ->]%world_full_samples. by exists 0.25%float. }
  split; [exact Hall|].
  destruct (stats_table_complete Example2.world_full Hall)
    as (w' & Hrun & _ & _ & Hrows & _).
  destruct (Hrows "A"%string Example2.metrics_full 0.25%float eq_refl eq_refl)
    as (row & Hrow & Hcell & _).
  by exists w', row.
Defined.

(** X14 at a map whose sample has the unpaired counts only. *)
Lemma stats_table_missing_percent_witness :
  picard_dupMetrics_data Example2.world_unpaired !! "A"%string
    = Some Example.metrics_unpaired_only ∧
  Example.metrics_unpaired_only !! "PERCENT_DUPLICATION" = None ∧
  exists e w',
    picard_stats_table Example2.world_unpaired = (Raise e, w') ∧
    (e = KeyError ∨ e = ValueError).
Proof.
  assert (Hm : picard_dupMetrics_data Example2.world_unpaired !! "A"%string
               = Some Example.metrics_unpaired_only) by reflexivity.
  assert (Hp : Example.metrics_unpaired_only !! "PERCENT_DUPLICATION" = None)
    by reflexivity.
  split; [exact Hm|]. split; [exact Hp|].
  destruct (stats_table_missing_percent _ _ _ Hm Hp) as (e & w' & Hrun & He & _).
  by exists e, w'.
Defined.

(** X15 at the complete sample [A]. *)
Lemma derive_sample_twice_witness :
  picard_dupMetrics_data Example2.world_full !! "A"%string = Some Example2.metrics_full ∧
  Spec.has_sources Example2.metrics_full 100 10 40 5 200 ∧
  exists w1,
    derive_sample "A" Example2.world_full = (Return tt, w1) ∧
    derive_sample "A" w1 = (Return tt, w1).
Proof.
  assert (Hm : picard_dupMetrics_data Example2.world_full !! "A"%string
               = Some Example2.metrics_full) by reflexivity.
  split; [exact Hm|]. split; [exact metrics_full_sources|].
  exact (derive_sample_twice "A" _ _ _ _ _ _ _ Hm metrics_full_sources).
Defined.

(** X16 at a map with the complete sample [A]. *)
Lemma derived_map_any_order_witness :
  (forall s m, picard_dupMetrics_data Example2.world_full !! s = Some m ->
     numeric_sources m) ∧
  exists w',
    mark_duplicates_plot Example.no_plot Example2.world_full
      = (Return (Example.no_plot (picard_dupMetrics_data w') plot_keys plot_config), w') ∧
    dom (picard_dupMetrics_data w') = dom (picard_dupMetrics_data Example2.world_full).
Proof.
  assert (Hall : forall s m, picard_dupMetrics_data Example2.world_full !! s = Some m ->
            numeric_sources m).
  { intros s m [-> ->]%world_full_samples.
    exists 100%float, 10%float, 40%float, 5%float, 200%float.
    exact metrics_full_sources. }
  split; [exact Hall|].
  destruct (derived_map_any_order Example.no_plot Example2.world_full Hall)
    as (_ & w' & Hrun & _ & _ & Hdom & _).
  by exists w'.
Defined.

Lemma loaded_A_data :
  picard_dupMetrics_data (Example2.loaded [Example.doc_A])
  = {["A"%string := Spec.record_metrics Example.record_A]}.
Proof. vm_compute. reflexivity. Qed.

Lemma loaded_A_samples s m :
  picard_dupMetrics_data (Example2.loaded [Example.doc_A]) !! s = Some m ->
  s = "A"%string ∧ m = Spec.record_metrics Example.record_A.
Proof. rewrite loaded_A_data. by intros [<- <-]%lookup_singleton_Some. Qed.

Lemma loaded_A_nonempty : picard_dupMetrics_data (Example2.loaded [Example.doc_A]) ≠ ∅.
Proof.
  rewrite loaded_A_data. intros He.
  apply (f_equal (fun d : gmap string (gmap string value) => d !! "A"%string)) in He.
  by rewrite lookup_singleton_eq, lookup_empty in He.
Qed.

(** X17 at the one file with the record of [A]. *)
Lemma init_complete_witness :
  find_and_load Example.sanitize [Example.doc_A] Example.w0
    = (Return tt, Example2.loaded [Example.doc_A]) ∧
  picard_dupMetrics_data (Example2.loaded [Example.doc_A]) ≠ ∅ ∧
  (forall s m, picard_dupMetrics_data (Example2.loaded [Example.doc_A]) !! s = Some m ->
     numeric_sources m ∧ numeric_percent m) ∧
  exists w',
    init Example.sanitize "runs" Example.no_plot [Example.doc_A] Example.w0
      = (Return tt, w') ∧
    sections w' = [mk_section "Mark Duplicates" "picard-markduplicates" "chart"] ∧
    log_records w' = [(INFO, "Found 1 reports"%string)] ∧
    csv_files w' =
      [("multiqc_picard.txt"%string, {["A"%string := Spec.record_metrics Example.record_A]})].
Proof.
  assert (Hload : find_and_load Example.sanitize [Example.doc_A] Example.w0
                  = (Return tt, Example2.loaded [Example.doc_A]))
    by (vm_compute; reflexivity).
  assert (Hall : forall s m,
            picard_dupMetrics_data (Example2.loaded [Example.doc_A]) !! s = Some m ->
            numeric_sources m ∧ numeric_percent m).
  { intros s m [-> ->]%loaded_A_samples. split.
    - exists 100%float, 10%float, 40%float, 5%float, 200%float.
      repeat split; vm_compute; reflexivity.
    - exists 0.25%float. vm_compute. reflexivity. }
  split; [exact Hload|]. split; [exact loaded_A_nonempty|]. split; [exact Hall|].
  destruct (init_complete Example.sanitize "runs" Example.no_plot _ _ _
              Hload loaded_A_nonempty Hall)
    as (w' & Hrun & _ & Hsec & Hcsv & Hlog & _).
  exists w'. split; [exact Hrun|]. split; [exact Hsec|]. split.
  - rewrite Hlog. vm_compute. reflexivity.
  - rewrite Hcsv, loaded_A_data. reflexivity.
Defined.

(** X18 at the log of another tool. *)
Lemma init_nothing_found_witness :
  forallb (fun f => forallb (fun l => negb (is_new_log l)) (f_lines f))
    [Example2.doc_other] = true ∧
  init Example.sanitize "runs" Example.no_plot [Example2.doc_other] Example2.world_A
  = (Raise UserWarning,
     add_log DEBUG "Could not find any reports in runs" (set_data ∅ Example2.world_A)).
Proof.
  split; [reflexivity|].
  apply (init_nothing_found Example.sanitize "runs" Example.no_plot
           [Example2.doc_other] Example2.world_A).
  reflexivity.
Defined.

(** X19 at the file of [A], then a file whose value row is short, then
    one more file. *)
Lemma init_scan_exception_witness :
  find_and_load Example.sanitize [Example.doc_A] Example.w0
    = (Return tt, Example2.loaded [Example.doc_A]) ∧
  parse_picard_dupMetrics Example.sanitize Example2.doc_short
    (Example2.loaded [Example.doc_A])
    = (Raise IndexError,
       (parse_picard_dupMetrics Example.sanitize Example2.doc_short
          (Example2.loaded [Example.doc_A])).2) ∧
  (init Example.sanitize "runs" Example.no_plot
     ([Example.doc_A] ++ Example2.doc_short :: [Example.doc_unmatched]) Example.w0).1
    = Raise IndexError.
Proof.
  assert (Hload : find_and_load Example.sanitize [Example.doc_A] Example.w0
                  = (Return tt, Example2.loaded [Example.doc_A]))
    by (vm_compute; reflexivity).
  assert (Hf : parse_picard_dupMetrics Example.sanitize Example2.doc_short
                 (Example2.loaded [Example.doc_A])
               = (Raise IndexError,
                  (parse_picard_dupMetrics Example.sanitize Example2.doc_short
                     (Example2.loaded [Example.doc_A])).2))
    by (vm_compute; reflexivity).
  split; [exact Hload|]. split; [exact Hf|].
  destruct (init_scan_exception Example.sanitize "runs" Example.no_plot
              [Example.doc_A] Example2.doc_short [Example.doc_unmatched]
              Example.w0 _ _ _ Hload Hf) as [Hrun _].
  by rewrite Hrun.
Defined.

(** X20 at a log that is a marker line and nothing else. *)
Lemma init_missing_percent_witness :
  find_and_load Example.sanitize [Example.doc_marker_only] Example.w0
    = (Return tt, Example2.loaded [Example.doc_marker_only]) ∧
  picard_dupMetrics_data (Example2.loaded [Example.doc_marker_only]) !! "M"%string
    = Some ∅ ∧
  (∅ : gmap string value) !! "PERCENT_DUPLICATION" = None ∧
  exists w',
    init Example.sanitize "runs" Example.no_plot [Example.doc_marker_only] Example.w0
      = (Raise KeyError, w') ∧
    sections w' = [].
Proof.
  assert (Hload : find_and_load Example.sanitize [Example.doc_marker_only] Example.w0
                  = (Return tt, Example2.loaded [Example.doc_marker_only]))
    by (vm_compute; reflexivity).
  assert (Hm : picard_dupMetrics_data (Example2.loaded [Example.doc_marker_only])
                 !! "M"%string = Some (∅ : gmap string value))
    by (vm_compute; reflexivity).
  assert (Hp : (∅ : gmap string value) !! "PERCENT_DUPLICATION" = None) by reflexivity.
  split; [exact Hload|]. split; [exact Hm|]. split; [exact Hp|].
  destruct (init_missing_percent Example.sanitize "runs" Example.no_plot _ _ _ _ _
              Hload Hm Hp) as (e & w' & Hrun & He & Hsec & _).
  exists w'. split; [|exact Hsec].
  assert (e = KeyError) as ->; [|exact Hrun].
  apply (f_equal fst) in Hrun. vm_compute in Hrun. by injection Hrun.
Defined.

(** X21 at a record with [LIBRARY] and [PERCENT_DUPLICATION] only. *)
Lemma init_missing_source_witness :
  find_and_load Example.sanitize [Example2.doc_again] Example.w0
    = (Return tt, Example2.loaded [Example2.doc_again]) ∧
  picard_dupMetrics_data (Example2.loaded [Example2.doc_again]) !! "A"%string
    = Some (Spec.record_metrics Example.record_A_again) ∧
  "READ_PAIRS_EXAMINED"%string ∈ Spec.source_fields ∧
  Spec.record_metrics Example.record_A_again !! "READ_PAIRS_EXAMINED" = None ∧
  exists e w',
    init Example.sanitize "runs" Example.no_plot [Example2.doc_again] Example.w0
      = (Raise e, w') ∧
    (e = KeyError ∨ e = TypeError) ∧
    sections w' = [] ∧
    general_stats_rows w' !! "A"%string
      = Some {["picard_percent_duplication"%string := Spec.percent_cell 0.5]}.
Proof.
  assert (Hload : find_and_load Example.sanitize [Example2.doc_again] Example.w0
                  = (Return tt, Example2.loaded [Example2.doc_again]))
    by (vm_compute; reflexivity).
  assert (Hd : picard_dupMetrics_data (Example2.loaded [Example2.doc_again])
               = {["A"%string := Spec.record_metrics Example.record_A_again]})
    by (vm_compute; reflexivity).
  assert (Hm : picard_dupMetrics_data (Example2.loaded [Example2.doc_again]) !! "A"%string
               = Some (Spec.record_metrics Example.record_A_again))
    by (rewrite Hd; apply lookup_singleton_eq).
  assert (Hk : "READ_PAIRS_EXAMINED"%string ∈ Spec.source_fields)
    by (unfold Spec.source_fields; do 4 right; left).
  assert (Hnone : Spec.record_metrics Example.record_A_again !! "READ_PAIRS_EXAMINED"
                  = None) by (vm_compute; reflexivity).
  assert (Hall : forall s m',
            picard_dupMetrics_data (Example2.loaded [Example2.doc_again]) !! s = Some m' ->
            numeric_percent m').
  { intros s m'. rewrite Hd. intros [<- <-]%lookup_singleton_Some.
    exists 0.5%float. vm_compute. reflexivity. }
  split; [exact Hload|]. split; [exact Hm|]. split; [exact Hk|]. split; [exact Hnone|].
  destruct (init_missing_source Example.sanitize "runs" Example.no_plot _ _ _ _ _ _
              Hload Hall Hm Hk Hnone) as (e & w' & Hrun & He & Hsec & _ & Hrows).
  exists e, w'. split; [exact Hrun|]. split; [exact He|]. split; [exact Hsec|].
  rewrite (Hrows _ _ Hm). vm_compute. reflexivity.
Defined.

(** ** Further properties of the scan *)

Section ScanMore.

Variable clean_s_name : string -> string -> string.

(** X22: the diagnostic is logged exactly on a collision: a well-formed
    record whose identifier is not in the map adds nothing to the log, and
    one whose identifier is there adds the one message
    [Duplicate sample name found! Overwriting: <id>]; nothing else of the
    world but the sample's entry changes. *)
Theorem duplicate_diagnostic_exact root s_name r w :
  well_formed r = true ->
  exists w',
    parse_lines clean_s_name root s_name (record_lines r) w = (Return tt, w') ∧
    log_records w' =
      log_records w ++
      match picard_dupMetrics_data w !! sample_id clean_s_name root r with
      | Some _ =>
          [(DEBUG, ("Duplicate sample name found! Overwriting: "
                    ++ sample_id clean_s_name root r)%string)]
      | None => []
      end ∧
    picard_dupMetrics_data w' =
      <[sample_id clean_s_name root r := Spec.record_metrics r]>
        (picard_dupMetrics_data w) ∧
    sections w' = sections w ∧ csv_files w' = csv_files w ∧
    general_stats_rows w' = general_stats_rows w.
Proof.
  intros Hwf. exists (after_record clean_s_name root w r). split.
  - rewrite <- (app_nil_r (record_lines r)). by rewrite parse_lines_record.
  - split; [|split; [apply data_after_record|]]; unfold after_record;
      destruct (picard_dupMetrics_data w !! sample_id clean_s_name root r);
      simpl; by rewrite ?app_nil_r.
Qed.

(** The world after a file of records. *)
Lemma parse_file_of_records doc w :
  forallb well_formed doc.2 = true ->
  parse_picard_dupMetrics clean_s_name (file_of_records doc) w =
    (Return tt, foldl (after_record clean_s_name doc.1) w doc.2).
Proof.
  intros Hwf. unfold parse_picard_dupMetrics, file_of_records. simpl f_lines.
  simpl f_root. by apply parse_lines_records.
Qed.

(** X23: files that are runs of well-formed records are loaded file by
    file and record by record into one map: the scan of each file starts
    with no sample pending and goes on in the map the files before it left,
    so that a record replaces the entry of its identifier also when the
    entry comes from another file. *)
Theorem load_files_of_records docs w :
  forallb (fun doc => forallb well_formed doc.2) docs = true ->
  find_and_load clean_s_name (file_of_records <$> docs) w =
    (Return tt,
     foldl (fun w doc => foldl (after_record clean_s_name doc.1) w doc.2)
           (set_data ∅ w) docs) ∧
  picard_dupMetrics_data (find_and_load clean_s_name (file_of_records <$> docs) w).2 =
    foldl (fun d doc => data_after clean_s_name doc.1 d doc.2) ∅ docs.
Proof.
  intros Hwf.
  assert (Hrun : forall w0,
            for_each (file_of_records <$> docs)
              (parse_picard_dupMetrics clean_s_name) w0 =
            (Return tt,
             foldl (fun w doc => foldl (after_record clean_s_name doc.1) w doc.2) w0 docs)).
  { induction docs as [|doc docs IH]; intros w0; [done|].
    simpl in Hwf. apply andb_true_iff in Hwf as [Hdoc Hdocs].
    rewrite fmap_cons. simpl for_each.
    rewrite (bind_return _ _ _ _ _ (parse_file_of_records doc w0 Hdoc)).
    by apply IH. }
  unfold find_and_load, bind at 1 2, modify. rewrite Hrun. split; [done|].
  cbn [snd].
  change (∅ : gmap string (gmap string value))
    with (picard_dupMetrics_data (set_data ∅ w)) at 2.
  generalize (set_data ∅ w). clear Hrun Hwf.
  induction docs as [|doc docs IH]; intros w0; [done|].
  simpl. rewrite IH. by rewrite data_foldl_after_record.
Qed.

(** X24: an empty or blank value token -- an empty column of the value
    row -- is not a number: [float] raises [ValueError] and the token is
    stored as it is, as text. *)
Theorem blank_token_kept s k vals i tok w m :
  picard_dupMetrics_data w !! s = Some m ->
  vals !! i = Some tok ->
  all_space tok = true ->
  py_float tok = Raise ValueError ∧
  store_field s vals i k w =
    (Return tt,
     set_data (<[s := <[k := VStr tok]> m]> (picard_dupMetrics_data w)) w).
Proof.
  intros Hs Hi Hsp.
  assert (Hparse : PyFloat.parse tok = None).
  { unfold PyFloat.parse, PyStr.strip. by rewrite (lstrip_all_space _ Hsp). }
  split; [unfold py_float; by rewrite Hparse|].
  rewrite (store_field_some _ _ _ _ _ _ _ Hs Hi). unfold Spec.coerce.
  by rewrite Hparse.
Qed.

End ScanMore.

(** X22 at a second record of sample [A]. *)
Lemma duplicate_diagnostic_exact_witness :
  well_formed Example.record_A_again = true ∧
  exists w',
    parse_lines Example.sanitize "/data" None
      (record_lines Example.record_A_again) Example2.world_A = (Return tt, w') ∧
    log_records w' = [(DEBUG, "Duplicate sample name found! Overwriting: A"%string)].
Proof.
  split; [reflexivity|].
  destruct (duplicate_diagnostic_exact Example.sanitize "/data" None
              Example.record_A_again Example2.world_A eq_refl)
    as (w' & Hrun & Hlog & _).
  exists w'. split; [exact Hrun|]. rewrite Hlog. vm_compute. reflexivity.
Defined.

(** X23 at two files that both hold a record of sample [A]. *)
Lemma load_files_of_records_witness :
  forallb (fun doc : string * list record => forallb well_formed doc.2)
    [("/data"%string, [Example.record_A]); ("/other"%string, [Example.record_A_again])]
    = true ∧
  picard_dupMetrics_data
    (find_and_load Example.sanitize
       (file_of_records <$>
          [("/data"%string, [Example.record_A]);
           ("/other"%string, [Example.record_A_again])]) Example.w0).2
  = {["A"%string := Spec.record_metrics Example.record_A_again]}.
Proof.
  split; [reflexivity|].
  destruct (load_files_of_records Example.sanitize
              [("/data"%string, [Example.record_A]);
               ("/other"%string, [Example.record_A_again])] Example.w0 eq_refl)
    as [_ Hdata].
  rewrite Hdata. vm_compute. reflexivity.
Defined.

(** X24 at an empty last column: the token is the newline alone. *)
Lemma blank_token_kept_witness :
  picard_dupMetrics_data (Example.world_of {["A"%string := ∅]}) !! "A"%string = Some ∅ ∧
  ["lib1"%string; Example.nl] !! 1%nat = Some Example.nl ∧
  all_space Example.nl = true ∧
  store_field "A" ["lib1"%string; Example.nl] 1 "ESTIMATED_LIBRARY_SIZE"
    (Example.world_of {["A"%string := ∅]}) =
    (Return tt,
     set_data (<["A"%string := <["ESTIMATED_LIBRARY_SIZE"%string := VStr Example.nl]> ∅]>
                 {["A"%string := ∅]})
              (Example.world_of {["A"%string := ∅]})).
Proof.
  assert (Hs : picard_dupMetrics_data (Example.world_of {["A"%string := ∅]})
                 !! "A"%string = Some (∅ : gmap string value)) by reflexivity.
  assert (Hi : ["lib1"%string; Example.nl] !! 1%nat = Some Example.nl) by reflexivity.
  split; [exact Hs|]. split; [exact Hi|]. split; [reflexivity|].
  exact (proj2 (blank_token_kept "A" "ESTIMATED_LIBRARY_SIZE" _ _ _ _ _ Hs Hi eq_refl)).
Defined.
